(** * TrustChain Campus dashboard: the client-side handlers, embedded and verified

    The development follows the source files:
    - the React components ProposalForm, AttendancePanel,
      AnalyticsDashboard, VotingPanel and CertificatePanel (event handlers
      written as async functions, and the effects that run on mount), and
    - the vanilla application (Store, Utils, BlockchainService, AIService,
      Components).

    JavaScript strings are sequences of UTF-16 code units, JavaScript values
    are an untyped sum, and an async handler is a program over the commands
    it issues (state setters, fetch, console), run against an environment
    that answers the network calls.

    Numbers are IEEE 754 binary64. Vote tallies and proposal ids are counts
    and are kept as integers: what the source does to them ([+], [++],
    [==], [===], [Math.max]) is exact on integers below 2^53. Where two
    tallies are divided the quotient is computed in binary64. *)

From Stdlib Require Import ZArith NArith List String Ascii Lia Bool.
From Stdlib Require Import SpecFloat DecimalString.
From stdpp Require Import base option list gmap.

Local Open Scope Z_scope.
Set Warnings "-register-all".
Set Default Proof Using "Type".

(* ===================================================================== *)
(** ** JavaScript strings *)
(* ===================================================================== *)

(** A string is its list of UTF-16 code units. *)
Definition jsstring := list N.

(** An ASCII literal of the source. *)
Definition lit (s : string) : jsstring :=
  List.map N_of_ascii (list_ascii_of_string s).

Fixpoint jsstring_eqb (a b : jsstring) : bool :=
  match a, b with
  | [], [] => true
  | x :: a', y :: b' => N.eqb x y && jsstring_eqb a' b'
  | _, _ => false
  end.

(** WhiteSpace and LineTerminator code points, the ones [String.prototype.trim]
    strips: TAB, LF, VT, FF, CR, SP, NBSP, U+1680, U+2000..U+200A, U+2028,
    U+2029, U+202F, U+205F, U+3000 and U+FEFF. *)
Definition isWhiteSpace (c : N) : bool :=
  (N.leb 9 c && N.leb c 13)
  || N.eqb c 32 || N.eqb c 160 || N.eqb c 5760
  || (N.leb 8192 c && N.leb c 8202)
  || N.eqb c 8232 || N.eqb c 8233 || N.eqb c 8239 || N.eqb c 8287
  || N.eqb c 12288 || N.eqb c 65279.

Fixpoint trimStart (s : jsstring) : jsstring :=
  match s with
  | [] => []
  | c :: s' => if isWhiteSpace c then trimStart s' else s
  end.

Definition trimEnd (s : jsstring) : jsstring := rev (trimStart (rev s)).

Definition trim (s : jsstring) : jsstring := trimEnd (trimStart s).

Fixpoint startsWith (w s : jsstring) : bool :=
  match w, s with
  | [], _ => true
  | _ :: _, [] => false
  | a :: w', b :: s' => N.eqb a b && startsWith w' s'
  end.

(** [s.includes(w)]: [w] occurs in [s] as a contiguous run of code units. *)
Fixpoint includes (s w : jsstring) : bool :=
  startsWith w s ||
  match s with
  | [] => false
  | _ :: s' => includes s' w
  end.

(** [Number::toString] of an integral time value: plain decimal digits. *)
Definition decimal (z : Z) : jsstring := lit (NilZero.string_of_int (Z.to_int z)).

(* ===================================================================== *)
(** ** JavaScript numbers and values *)
(* ===================================================================== *)

(** Numbers are IEEE 754 binary64. *)
Module Number.
Definition prec : Z := 53.
Definition emax : Z := 1024.
Definition add := SFadd prec emax.
Definition sub := SFsub prec emax.
Definition mul := SFmul prec emax.
Definition div := SFdiv prec emax.
Definition leb := SFleb.
Definition ofZ (z : Z) : spec_float := binary_normalize prec emax z 0 false.

(** [a / b] on integer operands. Division by zero does not trap in
    JavaScript (it yields NaN or an infinity); it is reported as [None]
    here so that its absence can be stated. *)
Definition divZ (a b : Z) : option spec_float :=
  if b =? 0 then None else Some (div (ofZ a) (ofZ b)).

Definition isZero (x : spec_float) : bool :=
  match x with S754_zero _ => true | _ => false end.

Definition isNaN (x : spec_float) : bool :=
  match x with S754_nan => true | _ => false end.

(** [Math.max(x, y)]: NaN if either is NaN, and +0 is larger than -0. *)
Definition max (x y : spec_float) : spec_float :=
  match SFcompare x y with
  | None => S754_nan
  | Some Lt => y
  | Some Gt => x
  | Some Eq =>
      match x, y with
      | S754_zero sx, S754_zero sy => S754_zero (sx && sy)
      | _, _ => x
      end
  end.

(** [Math.min(x, y)]: NaN if either is NaN, and -0 is smaller than +0. *)
Definition min (x y : spec_float) : spec_float :=
  match SFcompare x y with
  | None => S754_nan
  | Some Lt => x
  | Some Gt => y
  | Some Eq =>
      match x, y with
      | S754_zero sx, S754_zero sy => S754_zero (sx || sy)
      | _, _ => x
      end
  end.

(** [Math.round(x)]: the integer nearest to [x], ties towards +infinity;
    [floor(x + 1/2)] computed exactly on the mantissa and exponent. A
    result of zero keeps the sign of [x]. *)
Definition round (x : spec_float) : spec_float :=
  match x with
  | S754_finite s m e =>
      if 0 <=? e then x
      else
        let k := Z.opp e in
        let n := ((if s then Z.neg m else Z.pos m) * 2 + 2 ^ k) / 2 ^ (k + 1) in
        binary_normalize prec emax n 0 s
  | _ => x
  end.

(** [Math.floor(x)]: computed exactly on the mantissa and exponent. A result
    of zero keeps the sign of [x]. *)
Definition floor (x : spec_float) : spec_float :=
  match x with
  | S754_finite s m e =>
      if 0 <=? e then x
      else
        let n := (if s then Z.neg m else Z.pos m) / 2 ^ (Z.opp e) in
        binary_normalize prec emax n 0 s
  | _ => x
  end.

(** Negative, a negative zero, or NaN: what no test [x > 1] or [x > 0]
    accepts. *)
Definition notPositive (x : spec_float) : bool :=
  match x with
  | S754_zero s | S754_infinity s | S754_finite s _ _ => s
  | S754_nan => true
  end.
End Number.

Inductive JsVal : Type :=
| JUndefined
| JNull
| JBool (b : bool)
| JNum (x : spec_float)
| JStr (s : jsstring)
| JArr (items : list JsVal)
| JObj (fields : list (jsstring * JsVal)).

(** ToBoolean. *)
Definition truthy (v : JsVal) : bool :=
  match v with
  | JUndefined | JNull => false
  | JBool b => b
  | JNum x => negb (Number.isZero x || Number.isNaN x)
  | JStr s => match s with [] => false | _ => true end
  | JArr _ | JObj _ => true
  end.

Definition nullish (v : JsVal) : bool :=
  match v with JUndefined | JNull => true | _ => false end.

Fixpoint lookup_field (k : jsstring) (fields : list (jsstring * JsVal)) : JsVal :=
  match fields with
  | [] => JUndefined
  | (k', v) :: rest => if jsstring_eqb k k' then v else lookup_field k rest
  end.

(** The exception values the handlers can meet; only their identity matters. *)
Definition TypeError : JsVal := JObj [(lit "name", JStr (lit "TypeError"))].
Definition SyntaxError : JsVal := JObj [(lit "name", JStr (lit "SyntaxError"))].

(** [v.k] for the field names the handlers read ([transactionHash], [txId],
    [error], [valid], [certificate], [status], [history], [proposals]):
    reading from [null] or [undefined] throws a TypeError, an object yields
    its own field or [undefined], and no primitive or array has any of these
    names on its prototype. *)
Definition get (v : JsVal) (k : jsstring) : JsVal + JsVal :=
  match v with
  | JUndefined | JNull => inr TypeError
  | JObj fields => inl (lookup_field k fields)
  | _ => inl JUndefined
  end.

(** The built-in operations the source calls and the repository does not
    define. *)
Class Builtins := {
  ToString : JsVal -> jsstring;          (* template literals, string + value *)
  toLowerCase : jsstring -> jsstring;    (* String.prototype.toLowerCase *)
  toUpperCase : jsstring -> jsstring     (* String.prototype.toUpperCase *)
}.

(* ===================================================================== *)
(** ** fetch *)
(* ===================================================================== *)

Inductive Settled (A : Type) : Type :=
| Fulfilled (a : A)
| Rejected (reason : JsVal).
Arguments Fulfilled {A} a.
Arguments Rejected {A} reason.

Inductive Method := GET | POST.

(** [body] is the value handed to [JSON.stringify]. *)
Record Request := {
  url : jsstring;
  method : Method;
  headers : list (jsstring * jsstring);
  body : option JsVal
}.

(** [json] is what [response.json()] settles to: the parsed body, or a
    rejection when the body is not JSON (an empty 204 body, an HTML error
    page). *)
Record Response := {
  status : Z;
  json : Settled JsVal
}.

(** [response.ok]: the status is in the range 200-299. *)
Definition ok (r : Response) : bool := (200 <=? status r) && (status r <=? 299).

Definition get_request (u : jsstring) : Request :=
  {| url := u; method := GET; headers := []; body := None |}.

Definition post_json (u : jsstring) (b : JsVal) : Request :=
  {| url := u; method := POST;
     headers := [(lit "Content-Type", lit "application/json")];
     body := Some b |}.

(* ===================================================================== *)
(** ** Handler programs *)
(* ===================================================================== *)

(** A handler is a tree of the commands it issues. [V] names the [useState]
    cells of the component. [Fetch] and [ResponseJson] are the points where
    the async function awaits. *)
Section Programs.
Context {V : Type}.

Inductive Cmd : Type :=
| SetState (v : V) (x : JsVal)
| Fetch (r : Request)
| ResponseJson (r : Response)
| DateNow
| DateToISOString
| ConsoleError (args : list JsVal)
| PreventDefault.

Definition Res (c : Cmd) : Type :=
  match c with
  | Fetch _ => Settled Response
  | ResponseJson _ => Settled JsVal
  | DateNow => Z
  | DateToISOString => jsstring
  | _ => unit
  end.

Inductive Prog (A : Type) : Type :=
| Ret (a : A)
| Throw (e : JsVal)
| Do (c : Cmd) (k : Res c -> Prog A).
Arguments Ret {A} a.
Arguments Throw {A} e.
Arguments Do {A} c k.

Fixpoint bind {A B} (p : Prog A) (f : A -> Prog B) : Prog B :=
  match p with
  | Ret a => f a
  | Throw e => Throw e
  | Do c k => Do c (fun x => bind (k x) f)
  end.

(** [try { p } catch (e) { h e }] *)
Fixpoint try_catch {A} (p : Prog A) (h : JsVal -> Prog A) : Prog A :=
  match p with
  | Ret a => Ret a
  | Throw e => h e
  | Do c k => Do c (fun x => try_catch (k x) h)
  end.

(** [try { p } finally { f }]: [f] runs on both exits, and an exception of
    [f] replaces the pending one. *)
Fixpoint finally {A} (p : Prog A) (f : Prog unit) : Prog A :=
  match p with
  | Ret a => bind f (fun _ => Ret a)
  | Throw e => bind f (fun _ => Throw e)
  | Do c k => Do c (fun x => finally (k x) f)
  end.

Definition cmd (c : Cmd) : Prog (Res c) := Do c Ret.

(** [await p]: the value of a fulfilled promise, the reason of a rejected
    one thrown. *)
Definition await {A} (p : Prog (Settled A)) : Prog A :=
  bind p (fun s => match s with Fulfilled a => Ret a | Rejected e => Throw e end).

Definition set (v : V) (x : JsVal) : Prog unit := cmd (SetState v x).
Definition fetch (r : Request) : Prog (Settled Response) := cmd (Fetch r).
Definition response_json (r : Response) : Prog (Settled JsVal) := cmd (ResponseJson r).
Definition console_error (args : list JsVal) : Prog unit :=
  cmd (ConsoleError args).

(** [v.k] inside a program. *)
Definition prop (v : JsVal) (k : string) : Prog JsVal :=
  match get v (lit k) with
  | inl x => Ret x
  | inr e => Throw e
  end.

(** What a run leaves behind, in order. *)
Inductive Event : Type :=
| EvSet (v : V) (x : JsVal)
| EvFetch (r : Request)
| EvConsoleError (args : list JsVal)
| EvPreventDefault.

Inductive Outcome (A : Type) : Type :=
| Returned (a : A)
| Uncaught (e : JsVal).
Arguments Returned {A} a.
Arguments Uncaught {A} e.

(** The world outside the handler: [network n r] is how the [n]-th fetch
    of the run settles when it carries request [r]. *)
Record Env := {
  network : nat -> Request -> Settled Response;
  now : Z;
  isoNow : jsstring
}.

(** The requests a run sent, in order. *)
Definition fetches (t : list Event) : list Request :=
  omap (fun e => match e with EvFetch r => Some r | _ => None end) t.

(** What a run wrote with [console.error], in order. *)
Definition logged (t : list Event) : list (list JsVal) :=
  omap (fun e => match e with EvConsoleError args => Some args | _ => None end) t.

(** [exec env t p] runs [p] to completion after the events [t]; every
    await is answered at once by the environment. *)
Fixpoint exec {A} (env : Env) (t : list Event) (p : Prog A) : list Event * Outcome A :=
  match p with
  | Ret a => (t, Returned a)
  | Throw e => (t, Uncaught e)
  | Do c k =>
      match c return (Res c -> Prog A) -> list Event * Outcome A with
      | SetState v x => fun k => exec env (t ++ [EvSet v x]) (k tt)
      | Fetch r => fun k =>
          exec env (t ++ [EvFetch r]) (k (network env (length (fetches t)) r))
      | ResponseJson r => fun k => exec env t (k (json r))
      | DateNow => fun k => exec env t (k (now env))
      | DateToISOString => fun k => exec env t (k (isoNow env))
      | ConsoleError args => fun k => exec env (t ++ [EvConsoleError args]) (k tt)
      | PreventDefault => fun k => exec env (t ++ [EvPreventDefault]) (k tt)
      end k
  end.

(** The requests of a run that change something on the server. *)
Definition posts (t : list Event) : list Request :=
  List.filter (fun r => match method r with POST => true | GET => false end)
    (fetches t).

(** The first call of a run, carrying [rq], throws [e]: the fetch rejects,
    or the body cannot be read as JSON. *)
Definition call_throws (env : Env) (rq : Request) (e : JsVal) : Prop :=
  network env 0 rq = Rejected e \/
  exists r, network env 0 rq = Fulfilled r /\ json r = Rejected e.

(** The [n]-th call of a run, a read carrying [rq], throws [e]: the fetch
    rejects, or the body of a 2xx response cannot be read as JSON (the
    reads look at [response.ok] first and leave the body of any other
    response alone). *)
Definition read_throws (env : Env) (n : nat) (rq : Request) (e : JsVal) : Prop :=
  network env n rq = Rejected e \/
  exists r, network env n rq = Fulfilled r /\ ok r = true /\ json r = Rejected e.

(** What the first call of a run, carrying [rq], hands to the code behind
    [if (response.ok)] once the body is read: the parsed body of a 2xx
    response, or nothing (the fetch rejects, the status is not 2xx, or the
    body is not JSON). *)
Definition answer (env : Env) (rq : Request) : option JsVal :=
  match network env 0 rq with
  | Fulfilled r =>
      if ok r then
        match json r with
        | Fulfilled data => Some data
        | Rejected _ => None
        end
      else None
  | Rejected _ => None
  end.

(** The first call is answered by a 2xx response whose body parses to a
    value other than [null]. *)
Definition accepted (env : Env) (rq : Request) : bool :=
  match answer env rq with
  | Some data => negb (nullish data)
  | None => false
  end.

Definition run {A} (env : Env) (p : Prog A) : list Event * Outcome A := exec env [] p.
Definition trace {A} (env : Env) (p : Prog A) : list Event := fst (run env p).
Definition outcome {A} (env : Env) (p : Prog A) : Outcome A := snd (run env p).

(** The command a suspended handler waits on. *)
Definition is_await (c : Cmd) : bool :=
  match c with
  | Fetch _ | ResponseJson _ => true
  | _ => false
  end.

Definition awaiting {A} (p : Prog A) : bool :=
  match p with
  | Do c _ => is_await c
  | _ => false
  end.

(** A handler suspended on a request that is on the wire. *)
Definition in_flight {A} (p : Prog A) : bool :=
  match p with
  | Do (Fetch _) _ => true
  | _ => false
  end.
End Programs.

Arguments Cmd V : clear implicits.
Arguments Prog V A : clear implicits.
Arguments Event V : clear implicits.

Arguments Ret {V A} a.
Arguments Throw {V A} e.
Arguments Do {V A} c k.
Arguments Returned {A} a.
Arguments Uncaught {A} e.

#[global] Instance prog_ret {V} : MRet (Prog V) := fun A a => Ret a.
#[global] Instance prog_bind {V} : MBind (Prog V) := fun A B f p => bind p f.

(** The component state a run leaves: each cell holds the last value set. *)
Definition last_set {V} `{EqDecision V} (v : V) (init : JsVal) (t : list (Event V)) : JsVal :=
  fold_left
    (fun acc e =>
       match e with
       | EvSet v' x => if decide (v' = v) then x else acc
       | _ => acc
       end) t init.

Definition after {V} `{EqDecision V} (init : V -> JsVal) (t : list (Event V)) : V -> JsVal :=
  fun v => last_set v (init v) t.

(** The events of [t] leave the cell [v] alone. *)
Definition quiet_on {V} (v : V) (t : list (Event V)) : Prop :=
  Forall (fun e => match e with EvSet v' _ => v' <> v | _ => True end) t.

Definition upd {V} `{EqDecision V} (st : V -> JsVal) (v : V) (x : JsVal) : V -> JsVal :=
  fun c => if decide (c = v) then x else st c.

(** [sync clock iso st p] runs [p] from the cells [st] up to its next await
    or to its end: the stretch that one turn of the event loop executes
    without interruption. The program that is left starts with the awaited
    command, or is finished. *)
Fixpoint sync {V A} `{EqDecision V} (clock : Z) (iso : jsstring)
    (st : V -> JsVal) (p : Prog V A) : (V -> JsVal) * Prog V A :=
  match p with
  | Do c k =>
      match c return (Res c -> Prog V A) -> (V -> JsVal) * Prog V A with
      | SetState v x => fun k => sync clock iso (upd st v x) (k tt)
      | DateNow => fun k => sync clock iso st (k clock)
      | DateToISOString => fun k => sync clock iso st (k iso)
      | ConsoleError _ => fun k => sync clock iso st (k tt)
      | PreventDefault => fun k => sync clock iso st (k tt)
      | Fetch r => fun k => (st, Do (Fetch r) k)
      | ResponseJson r => fun k => (st, Do (ResponseJson r) k)
      end k
  | _ => (st, p)
  end.

(** *** Busy flags

    A handler that raises a flag cell before its request and lowers it in
    [finally], and the programs that leave that cell alone. *)
Section Flags.
Context {V : Type} `{EqDecision V}.
Variable flag : V.

(** Along every path of [p] from a flag value [b]: the flag is up at each
    await and down at the end. *)
Fixpoint bracketed (b : bool) (p : Prog V unit) : Prop :=
  match p with
  | Do c k =>
      match c return (Res c -> Prog V unit) -> Prop with
      | SetState v x => fun k =>
          bracketed (if decide (v = flag) then truthy x else b) (k tt)
      | Fetch _ => fun k => b = true /\ forall x, bracketed b (k x)
      | ResponseJson _ => fun k => b = true /\ forall x, bracketed b (k x)
      | DateNow => fun k => forall x, bracketed b (k x)
      | DateToISOString => fun k => forall x, bracketed b (k x)
      | ConsoleError _ => fun k => bracketed b (k tt)
      | PreventDefault => fun k => bracketed b (k tt)
      end k
  | _ => b = false
  end.

(** No path of [p] sets the flag. *)
Fixpoint untouched {A} (p : Prog V A) : Prop :=
  match p with
  | Do c k =>
      match c return (Res c -> Prog V A) -> Prop with
      | SetState v x => fun k => v <> flag /\ untouched (k tt)
      | Fetch _ => fun k => forall x, untouched (k x)
      | ResponseJson _ => fun k => forall x, untouched (k x)
      | DateNow => fun k => forall x, untouched (k x)
      | DateToISOString => fun k => forall x, untouched (k x)
      | ConsoleError _ => fun k => untouched (k tt)
      | PreventDefault => fun k => untouched (k tt)
      end k
  | _ => True
  end.
End Flags.

(** What is kept of a program after a synchronous stretch: itself when it
    waits, nothing when it is finished. *)
Definition pending {V} (p : Prog V unit) : list (Prog V unit) :=
  if awaiting p then [p] else [].

(** The object literal [{ type: ..., text: ... }] handed to [setMessage]. *)
Definition message_of (type : string) (text : JsVal) : JsVal :=
  JObj [(lit "type", JStr (lit type)); (lit "text", text)].

Definition connect_wallet_first : JsVal :=
  message_of "error" (JStr (lit "Please connect your wallet first")).

Definition network_error : JsVal :=
  message_of "error"
    (JStr (lit "Network error. Please check your connection and try again.")).

(** The expression
    [data.transactionHash || data.txId || 'TX-' + Date.now()]
    that the three mutating handlers pass to [setTransactionHash]. *)
Definition transactionHash_or_placeholder {V} (data : JsVal) : Prog V JsVal :=
  h ← prop data "transactionHash";
  if truthy h then mret h
  else
    t ← prop data "txId";
    if truthy t then mret t
    else
      n ← cmd DateNow;
      mret (JStr (lit "TX-" ++ decimal n)).

(** The value of [data.k] when [data] is not [null] or [undefined]. *)
Definition field (data : JsVal) (k : string) : JsVal :=
  match get data (lit k) with
  | inl v => v
  | inr _ => JUndefined
  end.

(** The hash the spec expects on display: the [transactionHash] field, else
    the [txId] field, else the placeholder built from the clock. A field
    counts when it is truthy. *)
Definition displayed_hash (data : JsVal) (clock : Z) : JsVal :=
  if truthy (field data "transactionHash") then field data "transactionHash"
  else if truthy (field data "txId") then field data "txId"
  else JStr (lit "TX-" ++ decimal clock).

(** The error text the spec expects: the [error] field when it is truthy,
    else the fallback. *)
Definition displayed_error (data : JsVal) (fallback : string) : JsVal :=
  if truthy (field data "error") then field data "error" else JStr (lit fallback).

(** What is on display after a response that is not 2xx: the error text of
    the body or the fallback of the action; and the network-error text when
    the body cannot be read at all. *)
Definition failure_message (r : Response) (fallback : string) : JsVal :=
  match json r with
  | Fulfilled data =>
      if nullish data then network_error
      else message_of "error" (displayed_error data fallback)
  | Rejected _ => network_error
  end.

(** The expression [data.error || fallback]. *)
Definition error_or {V} (data : JsVal) (fallback : string) : Prog V JsVal :=
  e ← prop data "error";
  mret (if truthy e then e else JStr (lit fallback)).

(* ===================================================================== *)
(** ** ProposalForm *)
(* ===================================================================== *)

Module ProposalForm.
Inductive Cell := Title | Description | IsSubmitting | Message | TransactionHash.

#[global] Instance Cell_eq_dec : EqDecision Cell.
Proof. solve_decision. Defined.

Definition setTitle := set Title.
Definition setDescription := set Description.
Definition setIsSubmitting := set IsSubmitting.
Definition setMessage := set Message.
Definition setTransactionHash := set TransactionHash.

(** The handlers close over the props and state of the render they were
    created in. *)
Section Render.
Variable walletAddress : JsVal.
Variables title description : jsstring.

Definition validateForm : Prog Cell bool :=
  if negb (truthy (JStr (trim title))) then
    setMessage (message_of "error" (JStr (lit "Please enter a proposal title")));;
    mret false
  else if (length (trim title) <? 5)%nat then
    setMessage (message_of "error" (JStr (lit "Title must be at least 5 characters")));;
    mret false
  else if negb (truthy (JStr (trim description))) then
    setMessage (message_of "error" (JStr (lit "Please enter a proposal description")));;
    mret false
  else if (length (trim description) <? 20)%nat then
    setMessage (message_of "error" (JStr (lit "Description must be at least 20 characters")));;
    mret false
  else mret true.

Definition request : Request :=
  post_json (lit "/api/proposals")
    (JObj [(lit "title", JStr (trim title));
           (lit "description", JStr (trim description));
           (lit "walletAddress", walletAddress)]).

(** The [try] block of [handleSubmit]. *)
Definition submit : Prog Cell unit :=
  setIsSubmitting (JBool true);;
  response ← await (fetch request);
  data ← await (response_json response);
  if ok response then
    setMessage (message_of "success" (JStr (lit "Proposal created successfully!")));;
    h ← transactionHash_or_placeholder data;
    setTransactionHash h;;
    setTitle (JStr []);;
    setDescription (JStr [])
  else
    text ← error_or data "Failed to create proposal. Please try again.";
    setMessage (message_of "error" text).

Definition handleSubmit : Prog Cell unit :=
  cmd PreventDefault;;
  setMessage JNull;;
  setTransactionHash JNull;;
  if negb (truthy walletAddress) then
    setMessage connect_wallet_first
  else
    valid ← validateForm;
    if negb valid then mret tt
    else
      finally
        (try_catch submit
           (fun error =>
              console_error [JStr (lit "Error creating proposal:"); error];;
              setMessage network_error))
        (setIsSubmitting (JBool false)).
End Render.

(** [disabled={isSubmitting || !walletAddress}] on the submit button. *)
Definition submitDisabled (st : Cell -> JsVal) (walletAddress : JsVal) : bool :=
  truthy (st IsSubmitting) || negb (truthy walletAddress).

(** [useState] initial values. *)
Definition initial : Cell -> JsVal :=
  fun c =>
    match c with
    | Title | Description => JStr []
    | IsSubmitting => JBool false
    | Message | TransactionHash => JNull
    end.

(** *** The mounted component as a transition system

    A configuration is the cells, the [walletAddress] prop, and the
    invocations of [handleSubmit] that are suspended at an await. *)
Record Config := {
  cells : Cell -> JsVal;
  wallet : JsVal;
  suspended : list (Prog Cell unit)
}.

Definition text_of (v : JsVal) : jsstring :=
  match v with
  | JStr s => s
  | _ => []
  end.

Definition mounted (w : JsVal) : Config :=
  {| cells := initial; wallet := w; suspended := [] |}.

Definition resume (p : Prog Cell unit) : list (Prog Cell unit) :=
  if awaiting p then [p] else [].

Inductive step : Config -> Config -> Prop :=
| typed_title cfg s :
    (* onChange={(e) => setTitle(e.target.value)} *)
    step cfg {| cells := upd (cells cfg) Title (JStr s);
                wallet := wallet cfg; suspended := suspended cfg |}
| typed_description cfg s :
    step cfg {| cells := upd (cells cfg) Description (JStr s);
                wallet := wallet cfg; suspended := suspended cfg |}
| wallet_changed cfg w :
    (* the parent passes another address *)
    step cfg {| cells := cells cfg; wallet := w; suspended := suspended cfg |}
| submitted cfg clock iso st p :
    (* the form fires onSubmit only while its submit button is enabled *)
    submitDisabled (cells cfg) (wallet cfg) = false ->
    sync clock iso (cells cfg)
      (handleSubmit (wallet cfg) (text_of (cells cfg Title))
         (text_of (cells cfg Description))) = (st, p) ->
    step cfg {| cells := st; wallet := wallet cfg;
                suspended := suspended cfg ++ resume p |}
| settled cfg before c k rest (x : Res c) clock iso st p :
    (* the awaited promise of one suspended invocation settles *)
    suspended cfg = before ++ Do c k :: rest ->
    is_await c = true ->
    sync clock iso (cells cfg) (k x) = (st, p) ->
    step cfg {| cells := st; wallet := wallet cfg;
                suspended := before ++ resume p ++ rest |}.

(** Along every path of [p] from a flag value [b]: the flag is up at each
    await and down at the end. *)
Fixpoint flag_ok (b : bool) (p : Prog Cell unit) : Prop :=
  match p with
  | Do c k =>
      match c return (Res c -> Prog Cell unit) -> Prop with
      | SetState v x => fun k =>
          flag_ok (if decide (v = IsSubmitting) then truthy x else b) (k tt)
      | Fetch _ => fun k => b = true /\ forall x, flag_ok b (k x)
      | ResponseJson _ => fun k => b = true /\ forall x, flag_ok b (k x)
      | DateNow => fun k => forall x, flag_ok b (k x)
      | DateToISOString => fun k => forall x, flag_ok b (k x)
      | ConsoleError _ => fun k => flag_ok b (k tt)
      | PreventDefault => fun k => flag_ok b (k tt)
      end k
  | _ => b = false
  end.
End ProposalForm.


(* ===================================================================== *)
(** ** AttendancePanel *)
(* ===================================================================== *)

Module AttendancePanel.
Inductive Cell :=
  IsMarking | Message | TransactionHash | AttendanceHistory | AttendanceStatus.

#[global] Instance Cell_eq_dec : EqDecision Cell.
Proof. solve_decision. Defined.

Definition setIsMarking := set IsMarking.
Definition setMessage := set Message.
Definition setTransactionHash := set TransactionHash.
Definition setAttendanceHistory := set AttendanceHistory.
Definition setAttendanceStatus := set AttendanceStatus.

Section Render.
Context `{Builtins}.
Variable walletAddress : JsVal.

Definition fetchAttendanceStatus : Prog Cell unit :=
  try_catch
    (response ← await (fetch (get_request
         (lit "/api/attendance?walletAddress=" ++ ToString walletAddress)));
     if ok response then
       data ← await (response_json response);
       st ← prop data "status";
       setAttendanceStatus st;;
       h ← prop data "history";
       setAttendanceHistory (if truthy h then h else JArr [])
     else mret tt)
    (fun error =>
       console_error [JStr (lit "Error fetching attendance status:"); error]).

Definition request (timestamp : jsstring) : Request :=
  post_json (lit "/api/attendance")
    (JObj [(lit "walletAddress", walletAddress);
           (lit "timestamp", JStr timestamp)]).

(** The [try] block of [handleMarkAttendance]. *)
Definition mark : Prog Cell unit :=
  setIsMarking (JBool true);;
  timestamp ← cmd DateToISOString;
  response ← await (fetch (request timestamp));
  data ← await (response_json response);
  if ok response then
    setMessage (message_of "success" (JStr (lit "Attendance marked successfully!")));;
    h ← transactionHash_or_placeholder data;
    setTransactionHash h;;
    fetchAttendanceStatus
  else
    text ← error_or data "Failed to mark attendance. Please try again.";
    setMessage (message_of "error" text).

Definition handleMarkAttendance : Prog Cell unit :=
  setMessage JNull;;
  setTransactionHash JNull;;
  if negb (truthy walletAddress) then
    setMessage connect_wallet_first
  else
    finally
      (try_catch mark
         (fun error =>
            console_error [JStr (lit "Error marking attendance:"); error];;
            setMessage network_error))
      (setIsMarking (JBool false)).

(** [disabled={isMarking || !walletAddress}] on the attendance button. *)
Definition markDisabled (st : Cell -> JsVal) : bool :=
  truthy (st IsMarking) || negb (truthy walletAddress).
End Render.

(** [useState] initial values. *)
Definition initial : Cell -> JsVal :=
  fun c =>
    match c with
    | IsMarking => JBool false
    | Message | TransactionHash | AttendanceStatus => JNull
    | AttendanceHistory => JArr []
    end.

(** *** The mounted panel as a transition system

    [marking] holds the invocations of [handleMarkAttendance] that are
    suspended at an await, [reading] those of [fetchAttendanceStatus] started
    by the effect on [walletAddress]. *)
Record Session := {
  cells : Cell -> JsVal;
  wallet : JsVal;
  marking : list (Prog Cell unit);
  reading : list (Prog Cell unit)
}.

Section Sessions.
Context `{Builtins}.

(** [useEffect(() => { if (walletAddress) fetchAttendanceStatus() },
    [walletAddress])] *)
Definition effect (w : JsVal) (st : Cell -> JsVal) : (Cell -> JsVal) * list (Prog Cell unit) :=
  if truthy w then
    let '(st', p) := sync 0 [] st (fetchAttendanceStatus w) in (st', pending p)
  else (st, []).

Definition mounted (w : JsVal) : Session :=
  {| cells := fst (effect w initial); wallet := w; marking := [];
     reading := snd (effect w initial) |}.

Inductive step : Session -> Session -> Prop :=
| wallet_changed s w :
    step s {| cells := fst (effect w (cells s)); wallet := w;
              marking := marking s;
              reading := reading s ++ snd (effect w (cells s)) |}
| marked s clock iso st p :
    (* the button fires onClick only while it is enabled *)
    markDisabled (wallet s) (cells s) = false ->
    sync clock iso (cells s) (handleMarkAttendance (wallet s)) = (st, p) ->
    step s {| cells := st; wallet := wallet s;
              marking := marking s ++ pending p; reading := reading s |}
| mark_settled s before c k rest (x : Res c) clock iso st p :
    marking s = before ++ Do c k :: rest ->
    is_await c = true ->
    sync clock iso (cells s) (k x) = (st, p) ->
    step s {| cells := st; wallet := wallet s;
              marking := before ++ pending p ++ rest; reading := reading s |}
| read_settled s before c k rest (x : Res c) clock iso st p :
    reading s = before ++ Do c k :: rest ->
    is_await c = true ->
    sync clock iso (cells s) (k x) = (st, p) ->
    step s {| cells := st; wallet := wallet s;
              marking := marking s; reading := before ++ pending p ++ rest |}.
End Sessions.

(** What holds of every session the panel can reach: the reads leave the
    marking flag alone, and either nothing is being marked and the flag is
    down, or one invocation is suspended with the flag up. *)
Definition invariant (s : Session) : Prop :=
  Forall (untouched IsMarking) (reading s) /\
  match marking s with
  | [] => truthy (cells s IsMarking) = false
  | [p] => truthy (cells s IsMarking) = true /\ awaiting p = true /\
           bracketed IsMarking true p
  | _ => False
  end.
End AttendancePanel.

(* ===================================================================== *)
(** ** VotingPanel *)
(* ===================================================================== *)

Module VotingPanel.
Inductive Cell :=
  Proposals | SelectedProposal | IsVoting | IsLoading | Message | TransactionHash.

#[global] Instance Cell_eq_dec : EqDecision Cell.
Proof. solve_decision. Defined.

Definition setProposals := set Proposals.
Definition setSelectedProposal := set SelectedProposal.
Definition setIsVoting := set IsVoting.
Definition setIsLoading := set IsLoading.
Definition setMessage := set Message.
Definition setTransactionHash := set TransactionHash.

Section Render.
Context `{Builtins}.
Variable walletAddress : JsVal.

Definition fetchProposals : Prog Cell unit :=
  finally
    (try_catch
       (setIsLoading (JBool true);;
        response ← await (fetch (get_request (lit "/api/proposals")));
        if ok response then
          data ← await (response_json response);
          ps ← prop data "proposals";
          setProposals (if truthy ps then ps else JArr [])
        else
          console_error [JStr (lit "Failed to fetch proposals")])
       (fun error =>
          console_error [JStr (lit "Error fetching proposals:"); error]))
    (setIsLoading (JBool false)).

Definition fetchProposalDetails (proposalId : JsVal) : Prog Cell unit :=
  try_catch
    (response ← await (fetch (get_request
         (lit "/api/proposals/" ++ ToString proposalId)));
     if ok response then
       data ← await (response_json response);
       setSelectedProposal data
     else mret tt)
    (fun error =>
       console_error [JStr (lit "Error fetching proposal details:"); error]).

Definition request (proposalId vote : JsVal) : Request :=
  post_json (lit "/api/vote")
    (JObj [(lit "proposalId", proposalId);
           (lit "vote", vote);
           (lit "walletAddress", walletAddress)]).

(** The template literal of the success text; 34 is the double quote. *)
Definition vote_submitted (vote : JsVal) : jsstring :=
  lit "Vote " ++ [34%N] ++ ToString vote ++ [34%N] ++ lit " submitted successfully!".

(** The [try] block of [handleVote]. *)
Definition cast (proposalId vote : JsVal) : Prog Cell unit :=
  setIsVoting (JBool true);;
  response ← await (fetch (request proposalId vote));
  data ← await (response_json response);
  if ok response then
    setMessage (message_of "success" (JStr (vote_submitted vote)));;
    h ← transactionHash_or_placeholder data;
    setTransactionHash h;;
    fetchProposalDetails proposalId;;
    fetchProposals
  else
    text ← error_or data "Failed to submit vote. Please try again.";
    setMessage (message_of "error" text).

Definition handleVote (proposalId vote : JsVal) : Prog Cell unit :=
  setMessage JNull;;
  setTransactionHash JNull;;
  if negb (truthy walletAddress) then
    setMessage connect_wallet_first
  else
    finally
      (try_catch (cast proposalId vote)
         (fun error =>
            console_error [JStr (lit "Error voting:"); error];;
            setMessage network_error))
      (setIsVoting (JBool false)).

(** [selectProposal(proposal)]; the details are requested without being
    awaited, and [fetchProposalDetails] keeps its failures to itself. *)
Definition selectProposal (proposal : JsVal) : Prog Cell unit :=
  setSelectedProposal proposal;;
  setMessage JNull;;
  setTransactionHash JNull;;
  id ← prop proposal "id";
  fetchProposalDetails id.

(** [disabled={isVoting || !walletAddress}] on both vote buttons. *)
Definition voteDisabled (st : Cell -> JsVal) : bool :=
  truthy (st IsVoting) || negb (truthy walletAddress).
End Render.

(** [useState] initial values. *)
Definition initial : Cell -> JsVal :=
  fun c =>
    match c with
    | Proposals => JArr []
    | IsVoting => JBool false
    | IsLoading => JBool true
    | SelectedProposal | Message | TransactionHash => JNull
    end.

(** *** The mounted panel as a transition system

    [voting] holds the invocations of [handleVote] that are suspended at an
    await, [reading] those of [fetchProposals] (started on mount) and of
    [selectProposal]. *)
Record Session := {
  cells : Cell -> JsVal;
  wallet : JsVal;
  voting : list (Prog Cell unit);
  reading : list (Prog Cell unit)
}.

Section Sessions.
Context `{Builtins}.

(** After [useEffect(() => { fetchProposals() }, [])]. *)
Definition mounted (w : JsVal) : Session :=
  let '(st, p) := sync 0 [] initial fetchProposals in
  {| cells := st; wallet := w; voting := []; reading := pending p |}.

Inductive step : Session -> Session -> Prop :=
| wallet_changed s w :
    step s {| cells := cells s; wallet := w;
              voting := voting s; reading := reading s |}
| selected s proposal clock iso st p :
    (* a click on an entry of the list *)
    sync clock iso (cells s) (selectProposal proposal) = (st, p) ->
    step s {| cells := st; wallet := wallet s;
              voting := voting s; reading := reading s ++ pending p |}
| voted s proposalId vote clock iso st p :
    (* either vote button fires onClick only while it is enabled *)
    voteDisabled (wallet s) (cells s) = false ->
    sync clock iso (cells s) (handleVote (wallet s) proposalId vote) = (st, p) ->
    step s {| cells := st; wallet := wallet s;
              voting := voting s ++ pending p; reading := reading s |}
| vote_settled s before c k rest (x : Res c) clock iso st p :
    voting s = before ++ Do c k :: rest ->
    is_await c = true ->
    sync clock iso (cells s) (k x) = (st, p) ->
    step s {| cells := st; wallet := wallet s;
              voting := before ++ pending p ++ rest; reading := reading s |}
| read_settled s before c k rest (x : Res c) clock iso st p :
    reading s = before ++ Do c k :: rest ->
    is_await c = true ->
    sync clock iso (cells s) (k x) = (st, p) ->
    step s {| cells := st; wallet := wallet s;
              voting := voting s; reading := before ++ pending p ++ rest |}.
End Sessions.

(** What holds of every session the panel can reach: the reads leave the
    voting flag alone, and either no vote is being cast and the flag is
    down, or one invocation is suspended with the flag up. *)
Definition invariant (s : Session) : Prop :=
  Forall (untouched IsVoting) (reading s) /\
  match voting s with
  | [] => truthy (cells s IsVoting) = false
  | [p] => truthy (cells s IsVoting) = true /\ awaiting p = true /\
           bracketed IsVoting true p
  | _ => False
  end.

(** The two tallies of [selectedProposal] that the progress bars read;
    [None] is an absent field. Tallies are vote counts, integers. *)
Record Tallies := { yesVotes : option Z; noVotes : option Z }.

(** [t || 0] on a count. *)
Definition or0 (t : option Z) : Z :=
  match t with
  | Some z => z
  | None => 0
  end.

(** The divisor of both bar widths:
    [Math.max((yesVotes || 0) + (noVotes || 0), 1)]. *)
Definition denominator (p : Tallies) : Z :=
  Z.max (or0 (yesVotes p) + or0 (noVotes p)) 1.

(** The [width] percentage of the green bar. *)
Definition yesWidth (p : Tallies) : option spec_float :=
  q ← Number.divZ (or0 (yesVotes p)) (denominator p);
  Some (Number.mul q (Number.ofZ 100)).

(** The [width] percentage of the red bar. *)
Definition noWidth (p : Tallies) : option spec_float :=
  q ← Number.divZ (or0 (noVotes p)) (denominator p);
  Some (Number.mul q (Number.ofZ 100)).
End VotingPanel.

(* ===================================================================== *)
(** ** CertificatePanel *)
(* ===================================================================== *)

Module CertificatePanel.
Inductive Cell := CertificateId | IsVerifying | Message | CertificateDetails.

#[global] Instance Cell_eq_dec : EqDecision Cell.
Proof. solve_decision. Defined.

Definition setIsVerifying := set IsVerifying.
Definition setMessage := set Message.
Definition setCertificateDetails := set CertificateDetails.

Section Render.
Variable certificateId : jsstring.

Definition request : Request :=
  post_json (lit "/api/certificate/verify")
    (JObj [(lit "certificateId", JStr (trim certificateId))]).

(** The [try] block of [handleVerify]. *)
Definition verify : Prog Cell unit :=
  setIsVerifying (JBool true);;
  response ← await (fetch request);
  data ← await (response_json response);
  if ok response then
    valid ← prop data "valid";
    if truthy valid then
      setMessage (message_of "success" (JStr (lit "Certificate verified successfully!")));;
      cert ← prop data "certificate";
      setCertificateDetails cert
    else
      setMessage (message_of "error" (JStr (lit "Certificate not found or invalid")))
  else
    text ← error_or data "Failed to verify certificate. Please try again.";
    setMessage (message_of "error" text).

Definition handleVerify : Prog Cell unit :=
  cmd PreventDefault;;
  setMessage JNull;;
  setCertificateDetails JNull;;
  if negb (truthy (JStr (trim certificateId))) then
    setMessage (message_of "error" (JStr (lit "Please enter a certificate ID")))
  else
    finally
      (try_catch verify
         (fun error =>
            console_error [JStr (lit "Error verifying certificate:"); error];;
            setMessage network_error))
      (setIsVerifying (JBool false)).
End Render.
End CertificatePanel.

(* ===================================================================== *)
(** ** AnalyticsDashboard *)
(* ===================================================================== *)

Module AnalyticsDashboard.
Inductive Cell := Analytics | IsLoading.

#[global] Instance Cell_eq_dec : EqDecision Cell.
Proof. solve_decision. Defined.

Definition setAnalytics := set Analytics.
Definition setIsLoading := set IsLoading.

Definition num (z : Z) : JsVal := JNum (Number.ofZ z).
Definition str (s : string) : JsVal := JStr (lit s).
Definition fld (k : string) (v : JsVal) : jsstring * JsVal := (lit k, v).

Definition getMockAnalytics : JsVal :=
  JObj
    [fld "overview"
      (JObj [fld "totalProposals" (num 24); fld "totalVotes" (num 156);
           fld "totalParticipants" (num 42); fld "attendanceRate" (num 78)]);
     fld "participationTrend"
      (JArr
        [JObj [fld "month" (str "Jan"); fld "proposals" (num 3); fld "votes" (num 18); fld "attendance" (num 15)];
         JObj [fld "month" (str "Feb"); fld "proposals" (num 5); fld "votes" (num 32); fld "attendance" (num 22)];
         JObj [fld "month" (str "Mar"); fld "proposals" (num 4); fld "votes" (num 28); fld "attendance" (num 19)];
         JObj [fld "month" (str "Apr"); fld "proposals" (num 6); fld "votes" (num 38); fld "attendance" (num 28)];
         JObj [fld "month" (str "May"); fld "proposals" (num 6); fld "votes" (num 40); fld "attendance" (num 31)]]);
     fld "voteDistribution"
      (JArr
        [JObj [fld "name" (str "Yes Votes"); fld "value" (num 98); fld "color" (str "#10B981")];
         JObj [fld "name" (str "No Votes"); fld "value" (num 58); fld "color" (str "#EF4444")]]);
     fld "topContributors"
      (JArr
        [JObj [fld "name" (str "Alice"); fld "contributions" (num 12)];
         JObj [fld "name" (str "Bob"); fld "contributions" (num 9)];
         JObj [fld "name" (str "Charlie"); fld "contributions" (num 7)];
         JObj [fld "name" (str "David"); fld "contributions" (num 6)];
         JObj [fld "name" (str "Eve"); fld "contributions" (num 5)]]);
     fld "insights"
      (JArr
        [JObj [fld "title" (str "High Engagement");
              fld "description" (str "Participation has increased by 23% this month");
              fld "type" (str "positive")];
         JObj [fld "title" (str "Proposal Trend");
              fld "description" (str "Average proposal approval rate is 62%");
              fld "type" (str "neutral")];
         JObj [fld "title" (str "Attendance Alert");
              fld "description" (str "Attendance dipped slightly in the past week");
              fld "type" (str "warning")]]);
     fld "predictions"
      (JArr
        [str "Expected 8-10 new proposals next month";
         str "Voter participation likely to increase by 15%";
         str "Attendance rate projected to stabilize at 80%"])].

Definition request : Request := get_request (lit "/api/analytics").

Definition fetchAnalytics : Prog Cell unit :=
  finally
    (try_catch
       (setIsLoading (JBool true);;
        response ← await (fetch request);
        if ok response then
          data ← await (response_json response);
          setAnalytics data
        else
          setAnalytics getMockAnalytics)
       (fun error =>
          console_error [JStr (lit "Error fetching analytics:"); error];;
          setAnalytics getMockAnalytics))
    (setIsLoading (JBool false)).

(** [useState] initial values. *)
Definition initial : Cell -> JsVal :=
  fun c =>
    match c with
    | Analytics => JNull
    | IsLoading => JBool true
    end.
End AnalyticsDashboard.

(* ===================================================================== *)
(** ** The vanilla application: Store, BlockchainService, AIService,
       Components *)
(* ===================================================================== *)

Module App.
(** Proposals are objects shared by reference: [Store.state.proposals] is
    an array of references into a heap, and [submitVote] mutates the
    object it finds in place. Vote tallies and ids are counts, integers,
    on which [+], [++], [==] and [===] are exact. *)
Definition loc := positive.

Record Proposal := {
  id : Z;
  title : jsstring;
  description : jsstring;
  creator : jsstring;
  status : jsstring;
  deadline : Z;
  votesYes : Z;
  votesNo : Z;
  quorum : Z;
  category : jsstring;
  comments : Z
}.

Record Transaction := {
  type : jsstring;
  target : jsstring;
  hash : jsstring;
  timestamp : Z
}.

Record User := {
  address : JsVal;
  isConnected : bool;
  tokenBalance : Z;
  transactions : list Transaction
}.

(** [Store.state], with the heap its proposals live in, and what the
    services leave outside it: toasts shown, console lines, renders
    triggered and analytics calls fired. *)
Record World := {
  user : User;
  proposals : list loc;
  activeProposalId : option Z;
  isLoading : bool;
  heap : gmap loc Proposal;
  toasts : list (jsstring * jsstring);
  console : list jsstring;
  renders : nat;
  analyzed : nat
}.

Definition with_votesYes (v : Z) (p : Proposal) : Proposal :=
  {| id := id p; title := title p; description := description p;
     creator := creator p; status := status p; deadline := deadline p;
     votesYes := v; votesNo := votesNo p; quorum := quorum p;
     category := category p; comments := comments p |}.

Definition with_votesNo (v : Z) (p : Proposal) : Proposal :=
  {| id := id p; title := title p; description := description p;
     creator := creator p; status := status p; deadline := deadline p;
     votesYes := votesYes p; votesNo := v; quorum := quorum p;
     category := category p; comments := comments p |}.

Definition with_heap (h : gmap loc Proposal) (w : World) : World :=
  {| user := user w; proposals := proposals w;
     activeProposalId := activeProposalId w; isLoading := isLoading w;
     heap := h; toasts := toasts w; console := console w;
     renders := renders w; analyzed := analyzed w |}.

Module Store.
Definition setLoading (b : bool) (w : World) : World :=
  {| user := user w; proposals := proposals w;
     activeProposalId := activeProposalId w; isLoading := b;
     heap := heap w; toasts := toasts w; console := console w;
     renders := renders w; analyzed := analyzed w |}.

(** Calls the subscribers (the only one registered does nothing) and
    [renderApp]. *)
Definition notifySubscribers (w : World) : World :=
  {| user := user w; proposals := proposals w;
     activeProposalId := activeProposalId w; isLoading := isLoading w;
     heap := heap w; toasts := toasts w; console := console w;
     renders := S (renders w); analyzed := analyzed w |}.

Definition addTransaction (tx : Transaction) (w : World) : World :=
  notifySubscribers
    {| user := {| address := address (user w);
                  isConnected := isConnected (user w);
                  tokenBalance := tokenBalance (user w);
                  transactions := tx :: transactions (user w) |};
       proposals := proposals w;
       activeProposalId := activeProposalId w; isLoading := isLoading w;
       heap := heap w; toasts := toasts w; console := console w;
       renders := renders w; analyzed := analyzed w |}.
End Store.

Module Utils.
(** ToInt32 of an integral number: what [<<] and [&] see of their operands. *)
Definition ToInt32 (z : Z) : Z := (z + 2147483648) mod 4294967296 - 2147483648.

Definition hexDigit (d : Z) : N := Z.to_N (if d <? 10 then 48 + d else 87 + d).

Fixpoint hexDigits (fuel : nat) (n : Z) (acc : jsstring) : jsstring :=
  match fuel with
  | O => acc
  | S fuel =>
      let acc := hexDigit (n mod 16) :: acc in
      if n / 16 =? 0 then acc else hexDigits fuel (n / 16) acc
  end.

(** [n.toString(16)] for an integer [n >= 0]; a numeral of [n] has at most
    [log2 n + 1] digits. *)
Definition toString16 (n : Z) : jsstring :=
  hexDigits (S (Z.to_nat (Z.log2 n))) n [].

(** The loop of [stringToColor]:
    [hash = str.charCodeAt(i) + ((hash << 5) - hash)]. Only the operand of
    [<<] is cut to 32 bits, [hash] itself is not; it stays an integer that
    binary64 holds exactly while the string is shorter than 2^21 code
    units. *)
Definition hashCode (str : jsstring) : Z :=
  fold_left
    (fun hash c => Z.of_N c + (ToInt32 (Z.shiftl (ToInt32 hash) 5) - hash))
    str 0.

(** [timeAgo(date)], with [now] the time value of [new Date()] and [date]
    the time value of the argument. *)
Definition timeAgo `{Builtins} (now date : spec_float) : jsstring :=
  let seconds :=
    Number.floor (Number.div (Number.sub now date) (Number.ofZ 1000)) in
  let interval := Number.div seconds (Number.ofZ 31536000) in
  if SFltb (Number.ofZ 1) interval
  then ToString (JNum (Number.floor interval)) ++ lit " years ago" else
  let interval := Number.div seconds (Number.ofZ 2592000) in
  if SFltb (Number.ofZ 1) interval
  then ToString (JNum (Number.floor interval)) ++ lit " months ago" else
  let interval := Number.div seconds (Number.ofZ 86400) in
  if SFltb (Number.ofZ 1) interval
  then ToString (JNum (Number.floor interval)) ++ lit " days ago" else
  let interval := Number.div seconds (Number.ofZ 3600) in
  if SFltb (Number.ofZ 1) interval
  then ToString (JNum (Number.floor interval)) ++ lit " hours ago" else
  let interval := Number.div seconds (Number.ofZ 60) in
  if SFltb (Number.ofZ 1) interval
  then ToString (JNum (Number.floor interval)) ++ lit " minutes ago" else
  ToString (JNum (Number.floor seconds)) ++ lit " seconds ago".

Definition stringToColor `{Builtins} (str : jsstring) : jsstring :=
  let hash := hashCode str in
  let c := toUpperCase (toString16 (Z.land (ToInt32 hash) 16777215)) in
  lit "#" ++ take (Z.to_nat (6 - Z.of_nat (length c))) (lit "00000") ++ c.

(** Hexadecimal digits, and the number an upper-case numeral denotes. *)
Definition isLowerHex (c : N) : Prop := (48 <= c <= 57)%N \/ (97 <= c <= 102)%N.
Definition isUpperHex (c : N) : Prop := (48 <= c <= 57)%N \/ (65 <= c <= 70)%N.

Definition hexValue (s : jsstring) : Z :=
  fold_left
    (fun v c => 16 * v + (if (c <=? 57)%N then Z.of_N c - 48 else Z.of_N c - 55))
    s 0.
End Utils.

Module Toaster.
Definition show (message type : jsstring) (w : World) : World :=
  {| user := user w; proposals := proposals w;
     activeProposalId := activeProposalId w; isLoading := isLoading w;
     heap := heap w; toasts := toasts w ++ [(message, type)];
     console := console w; renders := renders w; analyzed := analyzed w |}.
End Toaster.

Definition console_log (line : jsstring) (w : World) : World :=
  {| user := user w; proposals := proposals w;
     activeProposalId := activeProposalId w; isLoading := isLoading w;
     heap := heap w; toasts := toasts w; console := console w ++ [line];
     renders := renders w; analyzed := analyzed w |}.

(** [proposals.find(p => p.id == wanted)]: the first reference, in array
    order, whose object carries the id. *)
Fixpoint find (h : gmap loc Proposal) (ps : list loc) (wanted : Z) : option loc :=
  match ps with
  | [] => None
  | l :: rest =>
      match h !! l with
      | Some p => if id p =? wanted then Some l else find h rest wanted
      | None => find h rest wanted
      end
  end.

Module AIService.
Definition analyzeTraffic (w : World) : World :=
  {| user := user w; proposals := proposals w;
     activeProposalId := activeProposalId w; isLoading := isLoading w;
     heap := heap w; toasts := toasts w;
     console := console w
       ++ [lit "[AI] Analyzing network traffic for burst voting..."];
     renders := renders w; analyzed := S (analyzed w) |}.

Definition positiveWords : list jsstring :=
  [lit "upgrade"; lit "improve"; lit "budget"; lit "good"; lit "benefit"].
Definition negativeWords : list jsstring :=
  [lit "cut"; lit "remove"; lit "restrict"; lit "bad"; lit "cost"].

(** The literal [0.2]: the binary64 nearest to one fifth. *)
Definition one_fifth : spec_float := S754_finite false 7205759403792794 (-55).

Definition getSentiment `{Builtins} (proposalText : jsstring) : spec_float :=
  let score := S754_zero false in
  let score :=
    fold_left
      (fun score w =>
         if includes (toLowerCase proposalText) w
         then Number.add score one_fifth else score)
      positiveWords score in
  let score :=
    fold_left
      (fun score w =>
         if includes (toLowerCase proposalText) w
         then Number.sub score one_fifth else score)
      negativeWords score in
  Number.min (Number.max score (Number.ofZ (-1))) (Number.ofZ 1).

(** How many of [words] the text includes, as [getSentiment] tests it. *)
Definition matched `{Builtins} (words : list jsstring) (proposalText : jsstring) : nat :=
  length (List.filter (fun w => includes (toLowerCase proposalText) w) words).
End AIService.

Module BlockchainService.
(** [submitVote(proposalId, vote)]. The three simulated delays are
    awaited without any other handler running in between. [generated]
    is what [Utils.generateId()] drew and [date] the time of
    [new Date()]. The result is [None] for the bare [return] and
    [Some true] for [return true]. *)
Definition submitVote `{Builtins} (generated : jsstring) (date : Z)
    (proposalId : Z) (vote : jsstring) (w : World) : World * option bool :=
  if negb (isConnected (user w)) then
    (Toaster.show (lit "Please connect wallet first") (lit "error") w, None)
  else
    let w := Store.setLoading true w in
    let w := console_log (lit "Fetching params...") w in
    let w := console_log (lit "Requesting signature...") w in
    let w := console_log (lit "Broadcasting to network...") w in
    let w :=
      match find (heap w) (proposals w) proposalId with
      | Some l =>
          if jsstring_eqb vote (lit "yes")
          then with_heap (alter (fun p => with_votesYes (votesYes p + 1) p) l (heap w)) w
          else with_heap (alter (fun p => with_votesNo (votesNo p + 1) p) l (heap w)) w
      | None => w
      end in
    let w :=
      Store.addTransaction
        {| type := lit "Vote";
           target := lit "Proposal #" ++ decimal proposalId;
           hash := lit "TX" ++ toUpperCase generated;
           timestamp := date |} w in
    let w := Toaster.show (lit "Vote Confirmed On-Chain!") (lit "success") w in
    let w := AIService.analyzeTraffic w in
    let w := Store.setLoading false w in
    (w, Some true).

(** The object after [if (vote === 'yes') proposal.votesYes++; else
    proposal.votesNo++]. *)
Definition counted (vote : jsstring) (p : Proposal) : Proposal :=
  if jsstring_eqb vote (lit "yes")
  then with_votesYes (votesYes p + 1) p
  else with_votesNo (votesNo p + 1) p.

(** One call of [submitVote] after another for the same proposal, each
    awaited to its end; a ballot is the vote with what [Utils.generateId()]
    and [new Date()] gave for it. *)
Fixpoint submitVotes `{Builtins} (proposalId : Z)
    (ballots : list (jsstring * jsstring * Z)) (w : World) : World :=
  match ballots with
  | [] => w
  | (vote, generated, date) :: rest =>
      submitVotes proposalId rest (fst (submitVote generated date proposalId vote w))
  end.

Definition is_yes (ballot : jsstring * jsstring * Z) : bool :=
  jsstring_eqb (fst (fst ballot)) (lit "yes").
End BlockchainService.

Module Components.
Inductive View :=
| NotFound
| Detail (totalVotes : Z) (yesPercent noPercent : option spec_float).

Definition yesPercent (proposal : Proposal) : option spec_float :=
  let totalVotes := votesYes proposal + votesNo proposal in
  if totalVotes =? 0 then Some (S754_zero false)
  else
    q ← Number.divZ (votesYes proposal) totalVotes;
    Some (Number.round (Number.mul q (Number.ofZ 100))).

Definition noPercent (proposal : Proposal) : option spec_float :=
  let totalVotes := votesYes proposal + votesNo proposal in
  if totalVotes =? 0 then Some (S754_zero false)
  else
    q ← Number.divZ (votesNo proposal) totalVotes;
    Some (Number.round (Number.mul q (Number.ofZ 100))).

(** The numbers [ProposalDetail] puts into its markup. *)
Definition ProposalDetail (w : World) : View :=
  let found : option Proposal :=
    wanted ← activeProposalId w;
    l ← find (heap w) (proposals w) wanted;
    heap w !! l in
  match found with
  | None => NotFound
  | Some proposal =>
      Detail (votesYes proposal + votesNo proposal)
             (yesPercent proposal) (noPercent proposal)
  end.

(** What [Dashboard] computes for its markup: the two stat cards that
    depend on the store and, when a proposal is active, the title,
    description and id of the first one. *)
Record DashboardView := {
  activeCount : nat;
  votingPower : Z;
  trending : option (jsstring * jsstring * Z)
}.

(** [proposals.filter(p => p.status === 'Active')] *)
Definition activeProposals (w : World) : list Proposal :=
  List.filter (fun p => jsstring_eqb (status p) (lit "Active"))
    (omap (fun l => heap w !! l) (proposals w)).

Definition Dashboard (w : World) : DashboardView :=
  {| activeCount := length (activeProposals w);
     votingPower := tokenBalance (user w);
     trending :=
       (fun p => (title p, description p, id p)) <$> head (activeProposals w) |}.
End Components.
End App.

(* ===================================================================== *)
(** ** The mock data of [fetchProposals] *)
(* ===================================================================== *)

Module Mock.
Import App.

Definition proposal (i : Z) (t d cr st : string) (dl yes no q : Z)
    (cat : string) (c : Z) : Proposal :=
  {| id := i; title := lit t; description := lit d; creator := lit cr;
     status := lit st; deadline := dl; votesYes := yes; votesNo := no;
     quorum := q; category := lit cat; comments := c |}.

(** The objects of [mockProposals], in array order, when [Date.now()]
    answers [clock]; a deadline is the time value of its [Date]. *)
Definition mockProposals (clock : Z) : gmap loc Proposal :=
  <[1%positive :=
      proposal 1042 "Upgrade Campus Wi-Fi to WiFi 6E"
        "Allocate 5,000 ALGO from the treasury to upgrade the networking infrastructure in the main library and student dorms A, B, and C."
        "ALGO...WIFI" "Active" (clock + 86400000 * 2) 840 120 2000
        "Infrastructure" 45]>
  (<[2%positive :=
      proposal 1041 "New Cafeteria Vendor: 'Green Eatz'"
        "Proposal to replace the current vendor in Block D with 'Green Eatz', focusing on sustainable and vegan options."
        "VEG...EATZ" "Active" (clock + 86400000 * 5) 300 450 2000
        "Services" 122]>
  (<[3%positive :=
      proposal 1040 "Hackathon Q1 Budget Approval"
        "Requesting 10,000 ALGO for prizes and logistics for the upcoming Spring Blockchain Hackathon."
        "HACK...TEAM" "Passed" (clock - 86400000 * 10) 1800 20 1500
        "Events" 12]>
  (<[4%positive :=
      proposal 1039 "Extend Library Hours to 24/7"
        "Proposal to hire additional security staff to allow the library to remain open 24 hours during exam weeks."
        "STU...DENT" "Rejected" (clock - 86400000 * 20) 400 1600 2000
        "Policy" 89]>
   ∅))).

(** The clock of the examples when [fetchProposals] built its objects. *)
Definition fetched : Z := 1700000000000.

(** A store for the examples: the proposals as [fetchProposals] installs
    them, the user as [connectWallet] leaves it (the fields of the user that
    [World] keeps), and the second proposal opened. What the services leave
    outside the store (toasts, console lines, renders, analytics calls) is
    counted from here on. *)
Definition world : World :=
  {| user := {| address := JStr (lit "W23T...X7Z9"); isConnected := true;
                tokenBalance := 5000; transactions := [] |};
     proposals := [1; 2; 3; 4]%positive;
     activeProposalId := Some 1041;
     isLoading := false;
     heap := mockProposals fetched;
     toasts := []; console := []; renders := 0; analyzed := 0 |}.
End Mock.

(* ===================================================================== *)
(** ** An instance of the built-ins for examples *)
(* ===================================================================== *)

(** The integer a number is, when it is one. *)
Definition integral (x : spec_float) : option Z :=
  match x with
  | S754_zero _ => Some 0
  | S754_finite s m e =>
      let n := if s then Z.neg m else Z.pos m in
      if 0 <=? e then Some (n * 2 ^ e)
      else if Z.pos m mod 2 ^ (- e) =? 0 then Some (n / 2 ^ (- e))
      else None
  | _ => None
  end.

(** ToString for the examples. It is what the language specifies on
    strings, booleans, [null], [undefined], NaN, the infinities, integers
    below 10^21 in magnitude (plain decimal digits, both zeros as 0),
    plain objects, and arrays of such values (the elements joined by
    commas, [null] and [undefined] elements empty). A number that is not
    an integer is outside the examples: the instance prints the integer
    below it, where the language prints its shortest decimal. *)
Fixpoint ascii_ToString (v : JsVal) : jsstring :=
  match v with
  | JUndefined => lit "undefined"
  | JNull => lit "null"
  | JBool true => lit "true"
  | JBool false => lit "false"
  | JNum S754_nan => lit "NaN"
  | JNum (S754_infinity false) => lit "Infinity"
  | JNum (S754_infinity true) => lit "-Infinity"
  | JNum x =>
      match integral x with
      | Some n => decimal n
      | None => match integral (Number.floor x) with
                | Some n => decimal n
                | None => lit "NaN"
                end
      end
  | JStr s => s
  | JArr items =>
      (fix join (items : list JsVal) : jsstring :=
         match items with
         | [] => []
         | [item] => if nullish item then [] else ascii_ToString item
         | item :: rest =>
             (if nullish item then [] else ascii_ToString item)
               ++ lit "," ++ join rest
         end) items
  | JObj _ => lit "[object Object]"
  end.

(** Exact on ASCII text: letters are folded by case. *)
Definition ascii_lower (c : N) : N :=
  if (N.leb 65 c && N.leb c 90)%bool then (c + 32)%N else c.

Definition ascii_upper (c : N) : N :=
  if (N.leb 97 c && N.leb c 122)%bool then (c - 32)%N else c.

Definition ascii_builtins : Builtins :=
  {| ToString := ascii_ToString;
     toLowerCase := List.map ascii_lower;
     toUpperCase := List.map ascii_upper |}.

(* ===================================================================== *)
(** * Properties *)
(* ===================================================================== *)

(** ** Running programs *)

Section ExecLemmas.
Context {V : Type}.
Implicit Types (env : Env) (t : list (Event V)).

Lemma exec_bind {A B} env t (p : Prog V A) (f : A -> Prog V B) :
  exec env t (bind p f) =
  match exec env t p with
  | (t', Returned a) => exec env t' (f a)
  | (t', Uncaught e) => (t', Uncaught e)
  end.
Proof.
  revert t. induction p as [a|e|c k IH]; intros t; simpl; try reflexivity.
  destruct c; simpl; apply IH.
Qed.

Lemma exec_try_catch {A} env t (p : Prog V A) (h : JsVal -> Prog V A) :
  exec env t (try_catch p h) =
  match exec env t p with
  | (t', Returned a) => (t', Returned a)
  | (t', Uncaught e) => exec env t' (h e)
  end.
Proof.
  revert t. induction p as [a|e|c k IH]; intros t; simpl; try reflexivity.
  destruct c; simpl; apply IH.
Qed.

Lemma exec_finally {A} env t (p : Prog V A) (f : Prog V unit) :
  exec env t (finally p f) =
  match exec env t p with
  | (t', Returned a) =>
      match exec env t' f with
      | (t'', Returned _) => (t'', Returned a)
      | (t'', Uncaught e) => (t'', Uncaught e)
      end
  | (t', Uncaught e) =>
      match exec env t' f with
      | (t'', Returned _) => (t'', Uncaught e)
      | (t'', Uncaught e') => (t'', Uncaught e')
      end
  end.
Proof.
  revert t. induction p as [a|e|c k IH]; intros t; simpl.
  - rewrite exec_bind. destruct (exec env t f) as [t' [[]|e]]; reflexivity.
  - rewrite exec_bind. destruct (exec env t f) as [t' [[]|e']]; reflexivity.
  - destruct c; simpl; apply IH.
Qed.

(** A run only ever appends to the trace. *)
Lemma exec_extends {A} env t (p : Prog V A) :
  exists t', fst (exec env t p) = t ++ t'.
Proof.
  revert t. induction p as [a|e|c k IH]; intros t; simpl.
  - exists []. by rewrite app_nil_r.
  - exists []. by rewrite app_nil_r.
  - destruct c; simpl;
      try (edestruct IH as [t' ->]; rewrite <- app_assoc; eauto);
      apply IH.
Qed.

Lemma fetches_app t t' : fetches (t ++ t') = fetches t ++ fetches t'.
Proof. unfold fetches. apply omap_app. Qed.

Lemma logged_app t t' : logged (t ++ t') = logged t ++ logged t'.
Proof. unfold logged. apply omap_app. Qed.
End ExecLemmas.

Section CellLemmas.
Context {V : Type} `{EqDecision V}.

Lemma last_set_app (v : V) init t t' :
  last_set v init (t ++ t') = last_set v (last_set v init t) t'.
Proof. unfold last_set. apply fold_left_app. Qed.

Lemma last_set_quiet (v : V) init t : quiet_on v t -> last_set v init t = init.
Proof.
  unfold last_set. revert init.
  induction t as [|e t IH]; intros init Hq; simpl; [done|].
  inversion Hq as [|? ? He Ht]; subst.
  destruct e; try (by apply IH).
  destruct (decide (v0 = v)); [done | by apply IH].
Qed.

Lemma after_app_quiet (init : V -> JsVal) t t' v :
  quiet_on v t' -> after init (t ++ t') v = after init t v.
Proof. intros Hq. unfold after. rewrite last_set_app. by apply last_set_quiet. Qed.
End CellLemmas.

(** ** The guards in front of the network call *)

(** C1. With an absent wallet address (null, undefined, empty string: any
    falsy value) each of the three mutating handlers, [handleSubmit],
    [handleVote] and [handleMarkAttendance], sets the message
    'Please connect your wallet first', returns, and sends no request. *)
Theorem absent_wallet_blocks_every_mutating_action `{Builtins}
    (walletAddress : JsVal) (title description : jsstring)
    (proposalId vote : JsVal) (env : Env) :
  truthy walletAddress = false ->
  let submitting := ProposalForm.handleSubmit walletAddress title description in
  let voting := VotingPanel.handleVote walletAddress proposalId vote in
  let marking := AttendancePanel.handleMarkAttendance walletAddress in
  (fetches (trace env submitting) = [] /\
   outcome env submitting = Returned tt /\
   forall init,
     after init (trace env submitting) ProposalForm.Message = connect_wallet_first) /\
  (fetches (trace env voting) = [] /\
   outcome env voting = Returned tt /\
   forall init,
     after init (trace env voting) VotingPanel.Message = connect_wallet_first) /\
  (fetches (trace env marking) = [] /\
   outcome env marking = Returned tt /\
   forall init,
     after init (trace env marking) AttendancePanel.Message = connect_wallet_first).
Proof.
  intros Hw. cbv zeta.
  unfold trace, outcome, run, ProposalForm.handleSubmit, VotingPanel.handleVote,
    AttendancePanel.handleMarkAttendance.
  rewrite Hw. repeat split.
Qed.

Lemma absent_wallet_blocks_every_mutating_action_witness :
  truthy JNull = false /\
  fetches (trace {| network := fun _ _ => Rejected JUndefined; now := 0; isoNow := [] |}
             (ProposalForm.handleSubmit JNull (lit "A title") (lit "Some description")))
  = [].
Proof.
  split; [reflexivity|].
  apply (@absent_wallet_blocks_every_mutating_action ascii_builtins
           JNull (lit "A title") (lit "Some description") JNull JNull
           {| network := fun _ _ => Rejected JUndefined; now := 0; isoNow := [] |}).
  reflexivity.
Defined.

(** What [validateForm] answers on a title that is too short. *)
Lemma validateForm_short_title (title description : jsstring) (env : Env) :
  (length (trim title) < 5)%nat ->
  exists text,
    (text = lit "Please enter a proposal title" \/
     text = lit "Title must be at least 5 characters") /\
    forall t,
      exec env t (ProposalForm.validateForm title description) =
      (t ++ [EvSet ProposalForm.Message (message_of "error" (JStr text))], Returned false).
Proof.
  intros Hlen. unfold ProposalForm.validateForm.
  destruct (trim title) as [|c s] eqn:E; simpl truthy; cbv iota; simpl negb; cbv iota.
  - eexists; split; [left; reflexivity | reflexivity].
  - apply Nat.ltb_lt in Hlen. rewrite Hlen.
    eexists; split; [right; reflexivity | reflexivity].
Qed.

(** C2. A title whose trimmed length is below 5 makes [validateForm] set an
    error message and answer false, and [handleSubmit] return without
    sending a request; the message left on display is the validation
    message (or the wallet message when no wallet is connected). *)
Theorem short_title_is_rejected_before_any_request
    (walletAddress : JsVal) (title description : jsstring) (env : Env) :
  (length (trim title) < 5)%nat ->
  let submit := ProposalForm.handleSubmit walletAddress title description in
  exists text,
    (text = lit "Please enter a proposal title" \/
     text = lit "Title must be at least 5 characters") /\
    run env (ProposalForm.validateForm title description) =
      ([EvSet ProposalForm.Message (message_of "error" (JStr text))], Returned false) /\
    fetches (trace env submit) = [] /\
    outcome env submit = Returned tt /\
    forall init,
      after init (trace env submit) ProposalForm.Message =
      if truthy walletAddress then message_of "error" (JStr text)
      else connect_wallet_first.
Proof.
  intros Hlen. cbv zeta.
  destruct (validateForm_short_title title description env Hlen) as (text & Htext & Hv).
  exists text. split; [exact Htext|]. split; [apply Hv|].
  unfold trace, outcome, run, ProposalForm.handleSubmit.
  destruct (truthy walletAddress); simpl negb; cbv iota.
  - simpl exec. unfold mbind, prog_bind. rewrite exec_bind, Hv. simpl.
    repeat split.
  - repeat split.
Qed.

Lemma short_title_is_rejected_before_any_request_witness :
  (length (trim (lit "  abc ")) < 5)%nat /\
  fetches (trace {| network := fun _ _ => Rejected JUndefined; now := 0; isoNow := [] |}
             (ProposalForm.handleSubmit (JStr (lit "ADDR")) (lit "  abc ")
                (lit "A description that is long enough")))
  = [].
Proof.
  split; [vm_compute; lia|].
  destruct (short_title_is_rejected_before_any_request (JStr (lit "ADDR"))
              (lit "  abc ") (lit "A description that is long enough")
              {| network := fun _ _ => Rejected JUndefined; now := 0; isoNow := [] |})
    as (text & _ & _ & Hf & _); [vm_compute; lia | exact Hf].
Defined.

(** What [validateForm] answers on a good title and a description that is
    too short. *)
Lemma validateForm_short_description (title description : jsstring) (env : Env) :
  (5 <= length (trim title))%nat ->
  (length (trim description) < 20)%nat ->
  exists text,
    (text = lit "Please enter a proposal description" \/
     text = lit "Description must be at least 20 characters") /\
    forall t,
      exec env t (ProposalForm.validateForm title description) =
      (t ++ [EvSet ProposalForm.Message (message_of "error" (JStr text))], Returned false).
Proof.
  intros Htitle Hlen. unfold ProposalForm.validateForm.
  destruct (trim title) as [|c s] eqn:E; [simpl in Htitle; lia|].
  simpl truthy; cbv iota; simpl negb; cbv iota.
  assert ((length (c :: s) <? 5)%nat = false) as -> by (apply Nat.ltb_ge; exact Htitle).
  destruct (trim description) as [|d s'] eqn:E'; simpl truthy; cbv iota; simpl negb; cbv iota.
  - eexists; split; [left; reflexivity | reflexivity].
  - apply Nat.ltb_lt in Hlen. rewrite Hlen.
    eexists; split; [right; reflexivity | reflexivity].
Qed.

(** C3. With a valid title, a description whose trimmed length is below 20
    makes [validateForm] set an error message and answer false, and
    [handleSubmit] return without sending a request. *)
Theorem short_description_is_rejected_before_any_request
    (walletAddress : JsVal) (title description : jsstring) (env : Env) :
  (5 <= length (trim title))%nat ->
  (length (trim description) < 20)%nat ->
  let submit := ProposalForm.handleSubmit walletAddress title description in
  exists text,
    (text = lit "Please enter a proposal description" \/
     text = lit "Description must be at least 20 characters") /\
    run env (ProposalForm.validateForm title description) =
      ([EvSet ProposalForm.Message (message_of "error" (JStr text))], Returned false) /\
    fetches (trace env submit) = [] /\
    outcome env submit = Returned tt /\
    forall init,
      after init (trace env submit) ProposalForm.Message =
      if truthy walletAddress then message_of "error" (JStr text)
      else connect_wallet_first.
Proof.
  intros Htitle Hlen. cbv zeta.
  destruct (validateForm_short_description title description env Htitle Hlen)
    as (text & Htext & Hv).
  exists text. split; [exact Htext|]. split; [apply Hv|].
  unfold trace, outcome, run, ProposalForm.handleSubmit.
  destruct (truthy walletAddress); simpl negb; cbv iota.
  - simpl exec. unfold mbind, prog_bind. rewrite exec_bind, Hv. simpl.
    repeat split.
  - repeat split.
Qed.

Lemma short_description_is_rejected_before_any_request_witness :
  ((5 <= length (trim (lit " Fix the roof ")))%nat /\
   (length (trim (lit "  too short   ")) < 20)%nat) /\
  fetches (trace {| network := fun _ _ => Rejected JUndefined; now := 0; isoNow := [] |}
             (ProposalForm.handleSubmit (JStr (lit "ADDR")) (lit " Fix the roof ")
                (lit "  too short   ")))
  = [].
Proof.
  split; [split; vm_compute; lia|].
  destruct (short_description_is_rejected_before_any_request (JStr (lit "ADDR"))
              (lit " Fix the roof ") (lit "  too short   ")
              {| network := fun _ _ => Rejected JUndefined; now := 0; isoNow := [] |})
    as (text & _ & _ & Hf & _); [vm_compute; lia | vm_compute; lia | exact Hf].
Defined.

(** ** The handlers, case by case *)

Ltac refresh_done :=
  eexists; rewrite <- ?app_assoc; (split; [reflexivity|]);
  unfold quiet_on; repeat split; repeat constructor; done.

Section Handlers.
Context `{Builtins}.
Implicit Types (env : Env) (data walletAddress proposalId vote : JsVal).

Lemma transactionHash_or_placeholder_exec {V} env (t : list (Event V)) data :
  exec env t (transactionHash_or_placeholder data) =
  if nullish data then (t, Uncaught TypeError)
  else (t, Returned (displayed_hash data (now env))).
Proof.
  unfold transactionHash_or_placeholder, displayed_hash, field, prop.
  destruct data; simpl; try reflexivity.
  destruct (truthy (lookup_field _ fields)); [reflexivity|].
  simpl. destruct (truthy (lookup_field _ fields)); reflexivity.
Qed.

Lemma error_or_exec {V} env (t : list (Event V)) data fallback :
  exec env t (error_or data fallback) =
  if nullish data then (t, Uncaught TypeError)
  else (t, Returned (displayed_error data fallback)).
Proof.
  unfold error_or, displayed_error, field, prop.
  destruct data; simpl; reflexivity.
Qed.

Lemma validateForm_valid env title description t :
  (5 <= length (trim title))%nat ->
  (20 <= length (trim description))%nat ->
  exec env t (ProposalForm.validateForm title description) = (t, Returned true).
Proof.
  intros Ht Hd. unfold ProposalForm.validateForm.
  destruct (trim title) as [|c s]; [simpl in Ht; lia|].
  destruct (trim description) as [|c' s']; [simpl in Hd; lia|].
  apply Nat.ltb_ge in Ht, Hd. simpl truthy. simpl negb. cbv iota.
  rewrite Ht, Hd. reflexivity.
Qed.

(** The refreshes after a successful vote or attendance mark catch their
    own failures, touch none of the cells of the action, and only read. *)
Lemma fetchProposalDetails_exec env t proposalId :
  exists t',
    exec env t (VotingPanel.fetchProposalDetails proposalId) = (t ++ t', Returned tt) /\
    quiet_on VotingPanel.Message t' /\
    quiet_on VotingPanel.TransactionHash t' /\
    quiet_on VotingPanel.IsVoting t' /\
    posts t' = [].
Proof.
  unfold VotingPanel.fetchProposalDetails. rewrite exec_try_catch. simpl.
  destruct (network env _ _) as [r|e]; simpl; [|refresh_done].
  destruct (ok r); simpl; [|refresh_done].
  destruct (json r) as [d|e]; simpl; refresh_done.
Qed.

Lemma fetchProposals_exec env t :
  exists t',
    exec env t VotingPanel.fetchProposals = (t ++ t', Returned tt) /\
    quiet_on VotingPanel.Message t' /\
    quiet_on VotingPanel.TransactionHash t' /\
    quiet_on VotingPanel.IsVoting t' /\
    posts t' = [].
Proof.
  unfold VotingPanel.fetchProposals. rewrite exec_finally, exec_try_catch. simpl.
  destruct (network env _ _) as [r|e]; simpl; [|refresh_done].
  destruct (ok r); simpl; [|refresh_done].
  destruct (json r) as [d|e]; simpl; [|refresh_done].
  unfold prop. destruct (get d _) as [ps|e]; simpl; refresh_done.
Qed.

Lemma fetchAttendanceStatus_exec env t walletAddress :
  exists t',
    exec env t (AttendancePanel.fetchAttendanceStatus walletAddress) = (t ++ t', Returned tt) /\
    quiet_on AttendancePanel.Message t' /\
    quiet_on AttendancePanel.TransactionHash t' /\
    quiet_on AttendancePanel.IsMarking t' /\
    posts t' = [].
Proof.
  unfold AttendancePanel.fetchAttendanceStatus. rewrite exec_try_catch. simpl.
  destruct (network env _ _) as [r|e]; simpl; [|refresh_done].
  destruct (ok r); simpl; [|refresh_done].
  destruct (json r) as [d|e]; simpl; [|refresh_done].
  unfold prop. destruct (get d (lit "status")) as [st|e]; simpl; [|refresh_done].
  destruct (get d (lit "history")) as [h|e]; simpl; refresh_done.
Qed.

#[local] Arguments transactionHash_or_placeholder : simpl never.
#[local] Arguments error_or : simpl never.

Ltac pick_mid := eexists; (split; [|reflexivity]); reflexivity.

(** [handleSubmit] with a wallet and a valid form: what it does for each
    way the request can end. *)
Lemma handleSubmit_run env walletAddress title description :
  truthy walletAddress = true ->
  (5 <= length (trim title))%nat ->
  (20 <= length (trim description))%nat ->
  let rq := ProposalForm.request walletAddress title description in
  let success :=
    message_of "success" (JStr (lit "Proposal created successfully!")) in
  let caught e :=
    [EvConsoleError [JStr (lit "Error creating proposal:"); e];
     EvSet ProposalForm.Message network_error] in
  exists mid,
    run env (ProposalForm.handleSubmit walletAddress title description) =
      ([EvPreventDefault; EvSet ProposalForm.Message JNull;
        EvSet ProposalForm.TransactionHash JNull;
        EvSet ProposalForm.IsSubmitting (JBool true); EvFetch rq]
         ++ mid ++ [EvSet ProposalForm.IsSubmitting (JBool false)],
       Returned tt) /\
    match network env 0 rq with
    | Rejected e => mid = caught e
    | Fulfilled r =>
        match json r with
        | Rejected e => mid = caught e
        | Fulfilled data =>
            if ok r then
              if nullish data then
                mid = EvSet ProposalForm.Message success :: caught TypeError
              else
                mid = [EvSet ProposalForm.Message success;
                       EvSet ProposalForm.TransactionHash (displayed_hash data (now env));
                       EvSet ProposalForm.Title (JStr []);
                       EvSet ProposalForm.Description (JStr [])]
            else
              if nullish data then mid = caught TypeError
              else
                mid = [EvSet ProposalForm.Message
                         (message_of "error"
                            (displayed_error data
                               "Failed to create proposal. Please try again."))]
        end
    end.
Proof.
  intros Hw Ht Hd rq success caught.
  unfold run, ProposalForm.handleSubmit. rewrite Hw.
  simpl negb. cbv iota. simpl exec. unfold mbind, prog_bind.
  rewrite exec_bind, validateForm_valid by assumption. simpl negb. cbv iota.
  simpl exec. fold rq.
  destruct (network env 0 rq) as [r|e]; simpl exec; [|pick_mid].
  destruct (json r) as [data|e]; simpl exec; [|pick_mid].
  destruct (ok r); simpl exec.
  - rewrite exec_finally, exec_try_catch, exec_bind,
      transactionHash_or_placeholder_exec.
    destruct (nullish data); simpl exec; pick_mid.
  - rewrite exec_finally, exec_try_catch, exec_bind, error_or_exec.
    destruct (nullish data); simpl exec; pick_mid.
Qed.

(** [handleVote] with a wallet. *)
Lemma handleVote_run env walletAddress proposalId vote :
  truthy walletAddress = true ->
  let rq := VotingPanel.request walletAddress proposalId vote in
  let success :=
    message_of "success" (JStr (VotingPanel.vote_submitted vote)) in
  let caught e :=
    [EvConsoleError [JStr (lit "Error voting:"); e];
     EvSet VotingPanel.Message network_error] in
  exists mid,
    run env (VotingPanel.handleVote walletAddress proposalId vote) =
      ([EvSet VotingPanel.Message JNull;
        EvSet VotingPanel.TransactionHash JNull;
        EvSet VotingPanel.IsVoting (JBool true); EvFetch rq]
         ++ mid ++ [EvSet VotingPanel.IsVoting (JBool false)],
       Returned tt) /\
    match network env 0 rq with
    | Rejected e => mid = caught e
    | Fulfilled r =>
        match json r with
        | Rejected e => mid = caught e
        | Fulfilled data =>
            if ok r then
              if nullish data then
                mid = EvSet VotingPanel.Message success :: caught TypeError
              else
                exists refresh,
                  mid = [EvSet VotingPanel.Message success;
                         EvSet VotingPanel.TransactionHash
                           (displayed_hash data (now env))] ++ refresh /\
                  quiet_on VotingPanel.Message refresh /\
                  quiet_on VotingPanel.TransactionHash refresh /\
                  quiet_on VotingPanel.IsVoting refresh /\
                  posts refresh = []
            else
              if nullish data then mid = caught TypeError
              else
                mid = [EvSet VotingPanel.Message
                         (message_of "error"
                            (displayed_error data
                               "Failed to submit vote. Please try again."))]
        end
    end.
Proof.
  intros Hw rq success caught.
  unfold run, VotingPanel.handleVote, VotingPanel.cast, mbind, prog_bind.
  remember (VotingPanel.fetchProposalDetails proposalId) as details.
  remember VotingPanel.fetchProposals as listing.
  rewrite Hw. simpl negb. cbv iota. simpl exec. fold rq.
  destruct (network env 0 rq) as [r|e]; simpl exec; [|pick_mid].
  destruct (json r) as [data|e]; simpl exec; [|pick_mid].
  destruct (ok r); simpl exec.
  - rewrite exec_finally, exec_try_catch, exec_bind,
      transactionHash_or_placeholder_exec.
    destruct (nullish data); simpl exec; [pick_mid|].
    rewrite exec_bind. subst details listing.
    edestruct fetchProposalDetails_exec as (t1 & -> & Hm1 & Hh1 & Hv1 & Hp1).
    edestruct fetchProposals_exec as (t2 & -> & Hm2 & Hh2 & Hv2 & Hp2).
    simpl exec. exists ([EvSet VotingPanel.Message success;
      EvSet VotingPanel.TransactionHash (displayed_hash data (now env))] ++ t1 ++ t2).
    split.
    + by rewrite <- ?app_assoc.
    + exists (t1 ++ t2). split; [reflexivity|].
      unfold quiet_on in *. rewrite !Forall_app.
      unfold posts in *. rewrite fetches_app, List.filter_app, Hp1, Hp2. done.
  - rewrite exec_finally, exec_try_catch, exec_bind, error_or_exec.
    destruct (nullish data); simpl exec; pick_mid.
Qed.

(** [handleMarkAttendance] with a wallet. *)
Lemma handleMarkAttendance_run env walletAddress :
  truthy walletAddress = true ->
  let rq := AttendancePanel.request walletAddress (isoNow env) in
  let success :=
    message_of "success" (JStr (lit "Attendance marked successfully!")) in
  let caught e :=
    [EvConsoleError [JStr (lit "Error marking attendance:"); e];
     EvSet AttendancePanel.Message network_error] in
  exists mid,
    run env (AttendancePanel.handleMarkAttendance walletAddress) =
      ([EvSet AttendancePanel.Message JNull;
        EvSet AttendancePanel.TransactionHash JNull;
        EvSet AttendancePanel.IsMarking (JBool true); EvFetch rq]
         ++ mid ++ [EvSet AttendancePanel.IsMarking (JBool false)],
       Returned tt) /\
    match network env 0 rq with
    | Rejected e => mid = caught e
    | Fulfilled r =>
        match json r with
        | Rejected e => mid = caught e
        | Fulfilled data =>
            if ok r then
              if nullish data then
                mid = EvSet AttendancePanel.Message success :: caught TypeError
              else
                exists refresh,
                  mid = [EvSet AttendancePanel.Message success;
                         EvSet AttendancePanel.TransactionHash
                           (displayed_hash data (now env))] ++ refresh /\
                  quiet_on AttendancePanel.Message refresh /\
                  quiet_on AttendancePanel.TransactionHash refresh /\
                  quiet_on AttendancePanel.IsMarking refresh /\
                  posts refresh = []
            else
              if nullish data then mid = caught TypeError
              else
                mid = [EvSet AttendancePanel.Message
                         (message_of "error"
                            (displayed_error data
                               "Failed to mark attendance. Please try again."))]
        end
    end.
Proof.
  intros Hw rq success caught.
  unfold run, AttendancePanel.handleMarkAttendance, AttendancePanel.mark,
    mbind, prog_bind.
  remember (AttendancePanel.fetchAttendanceStatus walletAddress) as status.
  rewrite Hw. simpl negb. cbv iota. simpl exec. fold rq.
  destruct (network env 0 rq) as [r|e]; simpl exec; [|pick_mid].
  destruct (json r) as [data|e]; simpl exec; [|pick_mid].
  destruct (ok r); simpl exec.
  - rewrite exec_finally, exec_try_catch, exec_bind,
      transactionHash_or_placeholder_exec.
    destruct (nullish data); simpl exec; [pick_mid|].
    subst status.
    edestruct fetchAttendanceStatus_exec as (t1 & -> & Hm1 & Hh1 & Hv1 & Hp1).
    simpl exec. exists ([EvSet AttendancePanel.Message success;
      EvSet AttendancePanel.TransactionHash (displayed_hash data (now env))] ++ t1).
    split.
    + by rewrite <- ?app_assoc.
    + exists t1. done.
  - rewrite exec_finally, exec_try_catch, exec_bind, error_or_exec.
    destruct (nullish data); simpl exec; pick_mid.
Qed.

(** [handleVerify] with an id that is not blank. *)
Lemma handleVerify_run env certificateId :
  trim certificateId <> [] ->
  let rq := CertificatePanel.request certificateId in
  let caught e :=
    [EvConsoleError [JStr (lit "Error verifying certificate:"); e];
     EvSet CertificatePanel.Message network_error] in
  exists mid,
    run env (CertificatePanel.handleVerify certificateId) =
      ([EvPreventDefault; EvSet CertificatePanel.Message JNull;
        EvSet CertificatePanel.CertificateDetails JNull;
        EvSet CertificatePanel.IsVerifying (JBool true); EvFetch rq]
         ++ mid ++ [EvSet CertificatePanel.IsVerifying (JBool false)],
       Returned tt) /\
    match network env 0 rq with
    | Rejected e => mid = caught e
    | Fulfilled r =>
        match json r with
        | Rejected e => mid = caught e
        | Fulfilled data =>
            if nullish data then mid = caught TypeError
            else if ok r then
              if truthy (field data "valid") then
                mid = [EvSet CertificatePanel.Message
                         (message_of "success"
                            (JStr (lit "Certificate verified successfully!")));
                       EvSet CertificatePanel.CertificateDetails
                         (field data "certificate")]
              else
                mid = [EvSet CertificatePanel.Message
                         (message_of "error"
                            (JStr (lit "Certificate not found or invalid")))]
            else
              mid = [EvSet CertificatePanel.Message
                       (message_of "error"
                          (displayed_error data
                             "Failed to verify certificate. Please try again."))]
        end
    end.
Proof.
  intros Hid rq caught.
  unfold run, CertificatePanel.handleVerify, CertificatePanel.verify,
    mbind, prog_bind.
  destruct (trim certificateId) as [|c s] eqn:E; [done|].
  simpl truthy. simpl negb. cbv iota. simpl exec. unfold rq, CertificatePanel.request.
  rewrite E. set (rq' := post_json _ _).
  destruct (network env 0 rq') as [r|e]; simpl exec; [|pick_mid].
  destruct (json r) as [data|e]; simpl exec; [|pick_mid].
  destruct (ok r); simpl exec.
  - unfold prop, field.
    destruct data; simpl; try pick_mid.
    destruct (truthy (lookup_field _ fields)); simpl exec; pick_mid.
  - rewrite exec_finally, exec_try_catch, exec_bind, error_or_exec.
    destruct (nullish data); simpl exec; pick_mid.
Qed.
End Handlers.

(** ** What a settled request leaves on display *)

Section Display.
Context `{Builtins}.
Implicit Types (env : Env) (data walletAddress proposalId vote : JsVal).

Ltac settle Hrun :=
  unfold trace; rewrite Hrun; simpl fst; subst; reflexivity.

Ltac settle_refreshed Hrun Hmid :=
  let refresh := fresh "refresh" in
  let Hq1 := fresh in let Hq2 := fresh in
  destruct Hmid as (refresh & -> & Hq1 & Hq2 & _);
  unfold trace; rewrite Hrun; cbn [fst];
  unfold after; rewrite ?last_set_app;
  rewrite (last_set_quiet _ _ refresh) by assumption;
  reflexivity.

(** C4, as amended. A 2xx response whose body parses to a value other
    than null makes each of [handleSubmit], [handleVote] and
    [handleMarkAttendance] leave its success message on display, and as
    transaction hash the body's [transactionHash] field, else its [txId]
    field, else 'TX-' followed by the current time (a field counting when
    it is truthy). *)
Theorem success_shows_message_and_transaction_hash
    env walletAddress title description proposalId vote (r : Response) data :
  truthy walletAddress = true ->
  ok r = true ->
  json r = Fulfilled data ->
  nullish data = false ->
  ((5 <= length (trim title))%nat ->
   (20 <= length (trim description))%nat ->
   network env 0 (ProposalForm.request walletAddress title description) = Fulfilled r ->
   let t := trace env (ProposalForm.handleSubmit walletAddress title description) in
   forall init,
     after init t ProposalForm.Message =
       message_of "success" (JStr (lit "Proposal created successfully!")) /\
     after init t ProposalForm.TransactionHash = displayed_hash data (now env)) /\
  (network env 0 (VotingPanel.request walletAddress proposalId vote) = Fulfilled r ->
   let t := trace env (VotingPanel.handleVote walletAddress proposalId vote) in
   forall init,
     after init t VotingPanel.Message =
       message_of "success" (JStr (VotingPanel.vote_submitted vote)) /\
     after init t VotingPanel.TransactionHash = displayed_hash data (now env)) /\
  (network env 0 (AttendancePanel.request walletAddress (isoNow env)) = Fulfilled r ->
   let t := trace env (AttendancePanel.handleMarkAttendance walletAddress) in
   forall init,
     after init t AttendancePanel.Message =
       message_of "success" (JStr (lit "Attendance marked successfully!")) /\
     after init t AttendancePanel.TransactionHash = displayed_hash data (now env)).
Proof.
  intros Hw Hok Hjson Hdata. split; [|split].
  - intros Ht Hd Hnet t init. subst t.
    destruct (handleSubmit_run env walletAddress title description)
      as (mid & Hrun & Hmid); [assumption..|].
    cbv zeta in Hmid. rewrite Hnet, Hjson, Hok, Hdata in Hmid.
    split; settle Hrun.
  - intros Hnet t init. subst t.
    destruct (handleVote_run env walletAddress proposalId vote Hw)
      as (mid & Hrun & Hmid).
    cbv zeta in Hmid. rewrite Hnet, Hjson, Hok, Hdata in Hmid.
    split; settle_refreshed Hrun Hmid.
  - intros Hnet t init. subst t.
    destruct (handleMarkAttendance_run env walletAddress Hw)
      as (mid & Hrun & Hmid).
    cbv zeta in Hmid. rewrite Hnet, Hjson, Hok, Hdata in Hmid.
    split; settle_refreshed Hrun Hmid.
Qed.
End Display.

Lemma success_shows_message_and_transaction_hash_witness :
  let r := {| status := 201; json := Fulfilled (JObj [(lit "txId", JStr (lit "ABC123"))]) |} in
  let env := {| network := fun _ _ => Fulfilled r; now := 1700000000000; isoNow := [] |} in
  ok r = true /\
  after ProposalForm.initial
    (trace env (ProposalForm.handleSubmit (JStr (lit "ADDR")) (lit "Repair the roof")
                  (lit "The roof of the library leaks.")))
    ProposalForm.TransactionHash = JStr (lit "ABC123").
Proof.
  cbv zeta. split; [reflexivity|].
  apply (@success_shows_message_and_transaction_hash ascii_builtins
           {| network := fun _ _ =>
                Fulfilled {| status := 201;
                             json := Fulfilled (JObj [(lit "txId", JStr (lit "ABC123"))]) |};
              now := 1700000000000; isoNow := [] |}
           (JStr (lit "ADDR")) (lit "Repair the roof")
           (lit "The roof of the library leaks.") JNull JNull
           {| status := 201; json := Fulfilled (JObj [(lit "txId", JStr (lit "ABC123"))]) |}
           (JObj [(lit "txId", JStr (lit "ABC123"))]));
    try reflexivity; vm_compute; lia.
Defined.

(** C4 as stated fails: a 204 response is a 2xx response, its empty body is
    not JSON, [response.json()] rejects, and [handleSubmit] ends in its
    [catch] block with the network-error message and no transaction hash. *)
Lemma success_on_every_2xx_counterexample :
  let r := {| status := 204; json := Rejected SyntaxError |} in
  let env := {| network := fun _ _ => Fulfilled r; now := 1700000000000; isoNow := [] |} in
  let t := trace env (ProposalForm.handleSubmit (JStr (lit "ADDR")) (lit "Repair the roof")
                        (lit "The roof of the library leaks.")) in
  ok r = true /\
  fetches t = [ProposalForm.request (JStr (lit "ADDR")) (lit "Repair the roof")
                 (lit "The roof of the library leaks.")] /\
  after ProposalForm.initial t ProposalForm.Message = network_error /\
  after ProposalForm.initial t ProposalForm.Message <>
    message_of "success" (JStr (lit "Proposal created successfully!")) /\
  after ProposalForm.initial t ProposalForm.TransactionHash = JNull.
Proof.
  cbv zeta. repeat split; try reflexivity.
  vm_compute. discriminate.
Qed.

Section Failure.
Context `{Builtins}.
Implicit Types (env : Env) (data walletAddress proposalId vote : JsVal).

Ltac settle Hrun :=
  unfold trace; rewrite Hrun; simpl fst; subst; reflexivity.

(** C5. A response that is not 2xx makes [handleSubmit], [handleVote] and
    [handleVerify] leave an error message whose text is the [error] field
    of the body when there is one (a truthy one), and otherwise a generic
    string: the fallback of the action, or the network-error text when the
    body has no fields to read. *)
Theorem failure_shows_server_error_or_fallback
    env walletAddress title description proposalId vote certificateId (r : Response) :
  ok r = false ->
  (truthy walletAddress = true ->
   (5 <= length (trim title))%nat ->
   (20 <= length (trim description))%nat ->
   network env 0 (ProposalForm.request walletAddress title description) = Fulfilled r ->
   forall init,
     after init (trace env (ProposalForm.handleSubmit walletAddress title description))
       ProposalForm.Message =
     failure_message r "Failed to create proposal. Please try again.") /\
  (truthy walletAddress = true ->
   network env 0 (VotingPanel.request walletAddress proposalId vote) = Fulfilled r ->
   forall init,
     after init (trace env (VotingPanel.handleVote walletAddress proposalId vote))
       VotingPanel.Message =
     failure_message r "Failed to submit vote. Please try again.") /\
  (trim certificateId <> [] ->
   network env 0 (CertificatePanel.request certificateId) = Fulfilled r ->
   forall init,
     after init (trace env (CertificatePanel.handleVerify certificateId))
       CertificatePanel.Message =
     failure_message r "Failed to verify certificate. Please try again.").
Proof.
  intros Hok. unfold failure_message. split; [|split].
  - intros Hw Ht Hd Hnet init.
    destruct (handleSubmit_run env walletAddress title description)
      as (mid & Hrun & Hmid); [assumption..|].
    cbv zeta in Hmid. rewrite Hnet, Hok in Hmid.
    destruct (json r) as [data|e]; [destruct (nullish data)|]; settle Hrun.
  - intros Hw Hnet init.
    destruct (handleVote_run env walletAddress proposalId vote Hw)
      as (mid & Hrun & Hmid).
    cbv zeta in Hmid. rewrite Hnet, Hok in Hmid.
    destruct (json r) as [data|e]; [destruct (nullish data)|]; settle Hrun.
  - intros Hid Hnet init.
    destruct (handleVerify_run env certificateId Hid) as (mid & Hrun & Hmid).
    cbv zeta in Hmid. rewrite Hnet, Hok in Hmid.
    destruct (json r) as [data|e]; [destruct (nullish data)|]; settle Hrun.
Qed.
End Failure.

Lemma failure_shows_server_error_or_fallback_witness :
  let r := {| status := 403;
              json := Fulfilled (JObj [(lit "error", JStr (lit "Voting is closed"))]) |} in
  let env := {| network := fun _ _ => Fulfilled r; now := 0; isoNow := [] |} in
  ok r = false /\
  after (fun _ => JNull)
    (trace env (@VotingPanel.handleVote ascii_builtins (JStr (lit "ADDR"))
                  (JNum (Number.ofZ 7)) (JStr (lit "yes"))))
    VotingPanel.Message = message_of "error" (JStr (lit "Voting is closed")).
Proof.
  cbv zeta. split; [reflexivity|].
  apply (@failure_shows_server_error_or_fallback ascii_builtins
           {| network := fun _ _ =>
                Fulfilled {| status := 403;
                             json := Fulfilled
                               (JObj [(lit "error", JStr (lit "Voting is closed"))]) |};
              now := 0; isoNow := [] |}
           (JStr (lit "ADDR")) [] [] (JNum (Number.ofZ 7)) (JStr (lit "yes")) []
           {| status := 403;
              json := Fulfilled (JObj [(lit "error", JStr (lit "Voting is closed"))]) |});
    reflexivity.
Defined.

(** ** Exceptions and retries *)

Section Exceptions.
Context `{Builtins}.
Implicit Types (env : Env) (data walletAddress proposalId vote : JsVal).

Lemma posts_app {V} (t t' : list (Event V)) : posts (t ++ t') = posts t ++ posts t'.
Proof. unfold posts. by rewrite fetches_app, List.filter_app. Qed.

Lemma validateForm_cases env title description :
  (exists text, forall t,
      exec env t (ProposalForm.validateForm title description) =
      (t ++ [EvSet ProposalForm.Message (message_of "error" (JStr text))],
       Returned false)) \/
  ((5 <= length (trim title))%nat /\ (20 <= length (trim description))%nat).
Proof.
  destruct (Nat.lt_ge_cases (length (trim title)) 5) as [Ht|Ht].
  { left. destruct (validateForm_short_title title description env Ht)
      as (text & _ & Hv). eauto. }
  destruct (Nat.lt_ge_cases (length (trim description)) 20) as [Hd|Hd].
  { left. destruct (validateForm_short_description title description env Ht Hd)
      as (text & _ & Hv). eauto. }
  right. done.
Qed.

Ltac by_cases Hrun Hmid :=
  cbv zeta in Hmid; unfold trace, outcome; rewrite Hrun; cbn [fst snd];
  split; [reflexivity|];
  repeat case_match;
  repeat match goal with
    | H : exists _, _ |- _ => destruct H as (? & ? & _ & _ & _ & ?)
    end;
  subst; rewrite ?posts_app;
  repeat match goal with
    | H : posts _ = [] |- _ => rewrite H
    end;
  simpl; lia.

(** No handler lets an exception escape, and none sends more than one
    POST, whatever the network does. *)
Lemma handleSubmit_total env walletAddress title description :
  let p := ProposalForm.handleSubmit walletAddress title description in
  outcome env p = Returned tt /\ (length (posts (trace env p)) <= 1)%nat.
Proof.
  cbv zeta. destruct (truthy walletAddress) eqn:Hw.
  - destruct (validateForm_cases env title description) as [(text & Hv)|[Ht Hd]].
    + unfold trace, outcome, run, ProposalForm.handleSubmit. rewrite Hw.
      simpl negb. cbv iota. simpl exec. unfold mbind, prog_bind.
      rewrite exec_bind, Hv. simpl. split; [reflexivity | lia].
    + destruct (handleSubmit_run env walletAddress title description Hw Ht Hd)
        as (mid & Hrun & Hmid).
      by_cases Hrun Hmid.
  - unfold trace, outcome, run, ProposalForm.handleSubmit. rewrite Hw.
    simpl. split; [reflexivity | lia].
Qed.

Lemma handleVote_total env walletAddress proposalId vote :
  let p := VotingPanel.handleVote walletAddress proposalId vote in
  outcome env p = Returned tt /\ (length (posts (trace env p)) <= 1)%nat.
Proof.
  cbv zeta. destruct (truthy walletAddress) eqn:Hw.
  - destruct (handleVote_run env walletAddress proposalId vote Hw)
      as (mid & Hrun & Hmid).
    by_cases Hrun Hmid.
  - unfold trace, outcome, run, VotingPanel.handleVote. rewrite Hw.
    simpl. split; [reflexivity | lia].
Qed.

Lemma handleMarkAttendance_total env walletAddress :
  let p := AttendancePanel.handleMarkAttendance walletAddress in
  outcome env p = Returned tt /\ (length (posts (trace env p)) <= 1)%nat.
Proof.
  cbv zeta. destruct (truthy walletAddress) eqn:Hw.
  - destruct (handleMarkAttendance_run env walletAddress Hw)
      as (mid & Hrun & Hmid).
    by_cases Hrun Hmid.
  - unfold trace, outcome, run, AttendancePanel.handleMarkAttendance. rewrite Hw.
    simpl. split; [reflexivity | lia].
Qed.

Ltac read_caught :=
  eexists; rewrite <- ?app_assoc; (split; [reflexivity|]);
  (split; [reflexivity|]);
  (split; [unfold quiet_on; repeat constructor; done|]);
  intros ? [?|(? & ? & ? & ?)];
  first
    [ congruence
    | match goal with
      | x : JsVal, y : JsVal |- _ =>
          assert (y = x) as -> by congruence; reflexivity
      end ].

(** A read that throws is caught by the read itself and written to the
    console under the read's own label; no read sets the message. *)
Lemma fetchProposalDetails_caught env t proposalId :
  let rq := get_request (lit "/api/proposals/" ++ ToString proposalId) in
  exists t',
    exec env t (VotingPanel.fetchProposalDetails proposalId) = (t ++ t', Returned tt) /\
    fetches t' = [rq] /\
    quiet_on VotingPanel.Message t' /\
    forall e, read_throws env (length (fetches t)) rq e ->
      logged t' = [[JStr (lit "Error fetching proposal details:"); e]].
Proof.
  cbv zeta. unfold VotingPanel.fetchProposalDetails.
  remember (get_request _) as rq eqn:Hrq. clear Hrq.
  rewrite exec_try_catch. simpl.
  destruct (network env _ _) as [r|e] eqn:Hnet; simpl; [|read_caught].
  destruct (ok r) eqn:Hok; simpl; [|read_caught].
  destruct (json r) as [d|e] eqn:Hjson; simpl; read_caught.
Qed.

Lemma fetchProposals_caught env t :
  let rq := get_request (lit "/api/proposals") in
  exists t',
    exec env t VotingPanel.fetchProposals = (t ++ t', Returned tt) /\
    fetches t' = [rq] /\
    quiet_on VotingPanel.Message t' /\
    forall e, read_throws env (length (fetches t)) rq e ->
      logged t' = [[JStr (lit "Error fetching proposals:"); e]].
Proof.
  cbv zeta. unfold VotingPanel.fetchProposals.
  remember (get_request _) as rq eqn:Hrq. clear Hrq.
  rewrite exec_finally, exec_try_catch. simpl.
  rewrite fetches_app. simpl. rewrite app_nil_r.
  destruct (network env _ _) as [r|e] eqn:Hnet; simpl; [|read_caught].
  destruct (ok r) eqn:Hok; simpl; [|read_caught].
  destruct (json r) as [d|e] eqn:Hjson; simpl; [|read_caught].
  unfold prop. destruct (get d _) as [ps|e]; simpl; read_caught.
Qed.

Lemma fetchAttendanceStatus_caught env t walletAddress :
  let rq := get_request (lit "/api/attendance?walletAddress=" ++ ToString walletAddress) in
  exists t',
    exec env t (AttendancePanel.fetchAttendanceStatus walletAddress) = (t ++ t', Returned tt) /\
    fetches t' = [rq] /\
    quiet_on AttendancePanel.Message t' /\
    forall e, read_throws env (length (fetches t)) rq e ->
      logged t' = [[JStr (lit "Error fetching attendance status:"); e]].
Proof.
  cbv zeta. unfold AttendancePanel.fetchAttendanceStatus.
  remember (get_request _) as rq eqn:Hrq. clear Hrq.
  rewrite exec_try_catch. simpl.
  destruct (network env _ _) as [r|e] eqn:Hnet; simpl; [|read_caught].
  destruct (ok r) eqn:Hok; simpl; [|read_caught].
  destruct (json r) as [d|e] eqn:Hjson; simpl; [|read_caught].
  unfold prop. destruct (get d (lit "status")) as [st|e]; simpl; [|read_caught].
  destruct (get d (lit "history")) as [h|e]; simpl; read_caught.
Qed.

#[local] Arguments transactionHash_or_placeholder : simpl never.
#[local] Arguments error_or : simpl never.

(** An accepted vote: the two refreshes follow, what they throw is written
    to the console, and the success message stays. *)
Lemma handleVote_accepted env walletAddress proposalId vote :
  truthy walletAddress = true ->
  let rq := VotingPanel.request walletAddress proposalId vote in
  let details := get_request (lit "/api/proposals/" ++ ToString proposalId) in
  let listing := get_request (lit "/api/proposals") in
  let t := trace env (VotingPanel.handleVote walletAddress proposalId vote) in
  accepted env rq = true ->
  fetches t = [rq; details; listing] /\
  (forall init,
     after init t VotingPanel.Message =
     message_of "success" (JStr (VotingPanel.vote_submitted vote))) /\
  (forall e, read_throws env 1 details e ->
     [JStr (lit "Error fetching proposal details:"); e] ∈ logged t) /\
  (forall e, read_throws env 2 listing e ->
     [JStr (lit "Error fetching proposals:"); e] ∈ logged t).
Proof.
  intros Hw rq details listing t Hacc. subst t.
  unfold accepted, answer in Hacc.
  unfold trace, run, VotingPanel.handleVote, VotingPanel.cast, mbind, prog_bind.
  remember (VotingPanel.fetchProposalDetails proposalId) as reading.
  remember VotingPanel.fetchProposals as relisting.
  rewrite Hw. simpl negb. cbv iota. simpl exec. fold rq.
  destruct (network env 0 rq) as [r|e]; [|discriminate]. simpl exec.
  destruct (json r) as [data|e]; [|by destruct (ok r)]. simpl exec.
  destruct (ok r); [|discriminate]. simpl exec.
  apply negb_true_iff in Hacc.
  rewrite exec_finally, exec_try_catch, exec_bind,
    transactionHash_or_placeholder_exec, Hacc.
  simpl exec. rewrite exec_bind. subst reading relisting.
  edestruct fetchProposalDetails_caught as (t1 & -> & Hf1 & Hm1 & Hl1).
  edestruct fetchProposals_caught as (t2 & -> & Hf2 & Hm2 & Hl2).
  fold details in Hf1, Hl1. fold listing in Hf2, Hl2.
  rewrite fetches_app, Hf1 in Hl2.
  simpl exec. cbn [fst].
  split; [|split; [|split]].
  - rewrite !fetches_app, Hf1, Hf2. reflexivity.
  - intros init. unfold after. rewrite !last_set_app.
    simpl. rewrite (last_set_quiet _ _ t2 Hm2), (last_set_quiet _ _ t1 Hm1).
    reflexivity.
  - intros e He. rewrite !logged_app, (Hl1 e He), !elem_of_app.
    rewrite list_elem_of_singleton. tauto.
  - intros e He. rewrite !logged_app, (Hl2 e He), !elem_of_app.
    rewrite list_elem_of_singleton. tauto.
Qed.

(** An accepted attendance mark: the status refresh follows, what it
    throws is written to the console, and the success message stays. *)
Lemma handleMarkAttendance_accepted env walletAddress :
  truthy walletAddress = true ->
  let rq := AttendancePanel.request walletAddress (isoNow env) in
  let status :=
    get_request (lit "/api/attendance?walletAddress=" ++ ToString walletAddress) in
  let t := trace env (AttendancePanel.handleMarkAttendance walletAddress) in
  accepted env rq = true ->
  fetches t = [rq; status] /\
  (forall init,
     after init t AttendancePanel.Message =
     message_of "success" (JStr (lit "Attendance marked successfully!"))) /\
  (forall e, read_throws env 1 status e ->
     [JStr (lit "Error fetching attendance status:"); e] ∈ logged t).
Proof.
  intros Hw rq status t Hacc. subst t.
  unfold accepted, answer in Hacc.
  unfold trace, run, AttendancePanel.handleMarkAttendance, AttendancePanel.mark,
    mbind, prog_bind.
  remember (AttendancePanel.fetchAttendanceStatus walletAddress) as reading.
  rewrite Hw. simpl negb. cbv iota. simpl exec. fold rq.
  destruct (network env 0 rq) as [r|e]; [|discriminate]. simpl exec.
  destruct (json r) as [data|e]; [|by destruct (ok r)]. simpl exec.
  destruct (ok r); [|discriminate]. simpl exec.
  apply negb_true_iff in Hacc.
  rewrite exec_finally, exec_try_catch, exec_bind,
    transactionHash_or_placeholder_exec, Hacc.
  simpl exec. subst reading.
  edestruct fetchAttendanceStatus_caught as (t1 & -> & Hf1 & Hm1 & Hl1).
  fold status in Hf1, Hl1.
  simpl exec. cbn [fst].
  split; [|split].
  - rewrite !fetches_app, Hf1. reflexivity.
  - intros init. unfold after. rewrite !last_set_app.
    simpl. rewrite (last_set_quiet _ _ t1 Hm1). reflexivity.
  - intros e He. rewrite !logged_app, (Hl1 e He), !elem_of_app.
    rewrite list_elem_of_singleton. tauto.
Qed.

Ltac thrown Hrun Hmid Hthrow :=
  cbv zeta in Hmid;
  destruct Hthrow as [Hnet|(r & Hnet & Hjson)];
  rewrite Hnet in Hmid; try rewrite Hjson in Hmid; subst;
  unfold trace; rewrite Hrun; cbn [fst]; repeat split.

(** C7. In [handleSubmit], [handleVote] and [handleMarkAttendance] every
    exception of a network call is caught and written to the console, and
    nothing is sent again: the handler returns normally and sends at most
    one POST, whatever the network does. When the exception is that of the
    handler's own request (the fetch rejects, or the body cannot be read)
    the handler has sent that one request and no other, and leaves the
    network-error message on display. When it is that of a refresh after
    an accepted vote or attendance mark (the fetch rejects, or the body of
    a 2xx response cannot be read), it is written to the console under the
    label of the refresh and no error message is set: the success message
    stays on display. *)
Theorem thrown_exceptions_are_caught_and_not_retried
    env walletAddress title description proposalId vote :
  let submitting := ProposalForm.handleSubmit walletAddress title description in
  let voting := VotingPanel.handleVote walletAddress proposalId vote in
  let marking := AttendancePanel.handleMarkAttendance walletAddress in
  (outcome env submitting = Returned tt /\ (length (posts (trace env submitting)) <= 1)%nat) /\
  (outcome env voting = Returned tt /\ (length (posts (trace env voting)) <= 1)%nat) /\
  (outcome env marking = Returned tt /\ (length (posts (trace env marking)) <= 1)%nat) /\
  (truthy walletAddress = true ->
   (forall e,
      (5 <= length (trim title))%nat ->
      (20 <= length (trim description))%nat ->
      let rq := ProposalForm.request walletAddress title description in
      call_throws env rq e ->
      fetches (trace env submitting) = [rq] /\
      logged (trace env submitting) = [[JStr (lit "Error creating proposal:"); e]] /\
      forall init, after init (trace env submitting) ProposalForm.Message = network_error) /\
   (forall e,
      let rq := VotingPanel.request walletAddress proposalId vote in
      call_throws env rq e ->
      fetches (trace env voting) = [rq] /\
      logged (trace env voting) = [[JStr (lit "Error voting:"); e]] /\
      forall init, after init (trace env voting) VotingPanel.Message = network_error) /\
   (forall e,
      let rq := AttendancePanel.request walletAddress (isoNow env) in
      call_throws env rq e ->
      fetches (trace env marking) = [rq] /\
      logged (trace env marking) = [[JStr (lit "Error marking attendance:"); e]] /\
      forall init, after init (trace env marking) AttendancePanel.Message = network_error) /\
   (let rq := VotingPanel.request walletAddress proposalId vote in
    let details := get_request (lit "/api/proposals/" ++ ToString proposalId) in
    let listing := get_request (lit "/api/proposals") in
    accepted env rq = true ->
    fetches (trace env voting) = [rq; details; listing] /\
    (forall init,
       after init (trace env voting) VotingPanel.Message =
       message_of "success" (JStr (VotingPanel.vote_submitted vote))) /\
    (forall e, read_throws env 1 details e ->
       [JStr (lit "Error fetching proposal details:"); e] ∈ logged (trace env voting)) /\
    (forall e, read_throws env 2 listing e ->
       [JStr (lit "Error fetching proposals:"); e] ∈ logged (trace env voting))) /\
   (let rq := AttendancePanel.request walletAddress (isoNow env) in
    let status :=
      get_request (lit "/api/attendance?walletAddress=" ++ ToString walletAddress) in
    accepted env rq = true ->
    fetches (trace env marking) = [rq; status] /\
    (forall init,
       after init (trace env marking) AttendancePanel.Message =
       message_of "success" (JStr (lit "Attendance marked successfully!"))) /\
    (forall e, read_throws env 1 status e ->
       [JStr (lit "Error fetching attendance status:"); e] ∈ logged (trace env marking)))).
Proof.
  cbv zeta.
  split; [apply handleSubmit_total|].
  split; [apply handleVote_total|].
  split; [apply handleMarkAttendance_total|].
  intros Hw. split; [|split; [|split; [|split]]].
  - intros e Ht Hd Hthrow.
    destruct (handleSubmit_run env walletAddress title description Hw Ht Hd)
      as (mid & Hrun & Hmid).
    thrown Hrun Hmid Hthrow.
  - intros e Hthrow.
    destruct (handleVote_run env walletAddress proposalId vote Hw)
      as (mid & Hrun & Hmid).
    thrown Hrun Hmid Hthrow.
  - intros e Hthrow.
    destruct (handleMarkAttendance_run env walletAddress Hw)
      as (mid & Hrun & Hmid).
    thrown Hrun Hmid Hthrow.
  - apply (handleVote_accepted env walletAddress proposalId vote Hw).
  - apply (handleMarkAttendance_accepted env walletAddress Hw).
Qed.
End Exceptions.

Lemma thrown_exceptions_are_caught_and_not_retried_witness :
  let failing := {| network := fun _ _ => Rejected (JStr (lit "Failed to fetch"));
                    now := 0; isoNow := [] |} in
  let posted :=
    {| status := 200;
       json := Fulfilled (JObj [(lit "transactionHash", JStr (lit "H1"))]) |} in
  let refused :=
    {| network := fun n _ =>
         match n with
         | O => Fulfilled posted
         | _ => Rejected (JStr (lit "Failed to fetch"))
         end;
       now := 0; isoNow := [] |} in
  let rq := @VotingPanel.request (JStr (lit "ADDR")) (JStr (lit "7")) (JStr (lit "no")) in
  let vote env :=
    trace env (@VotingPanel.handleVote ascii_builtins (JStr (lit "ADDR"))
                 (JStr (lit "7")) (JStr (lit "no"))) in
  (truthy (JStr (lit "ADDR")) = true /\
   call_throws failing rq (JStr (lit "Failed to fetch")) /\
   accepted refused rq = true /\
   read_throws refused 1 (get_request (lit "/api/proposals/7"))
     (JStr (lit "Failed to fetch"))) /\
  logged (vote failing) = [[JStr (lit "Error voting:"); JStr (lit "Failed to fetch")]] /\
  [JStr (lit "Error fetching proposal details:"); JStr (lit "Failed to fetch")]
    ∈ logged (vote refused).
Proof.
  cbv zeta.
  split; [repeat split; try reflexivity; left; reflexivity|].
  split.
  - destruct (@thrown_exceptions_are_caught_and_not_retried ascii_builtins
                {| network := fun _ _ => Rejected (JStr (lit "Failed to fetch"));
                   now := 0; isoNow := [] |}
                (JStr (lit "ADDR")) [] [] (JStr (lit "7")) (JStr (lit "no")))
      as (_ & _ & _ & Hcaught).
    destruct (Hcaught eq_refl) as (_ & Hvote & _).
    destruct (Hvote (JStr (lit "Failed to fetch"))) as (_ & Hlog & _);
      [left; reflexivity | exact Hlog].
  - destruct (@thrown_exceptions_are_caught_and_not_retried ascii_builtins
                {| network := fun n _ =>
                     match n with
                     | O => Fulfilled
                              {| status := 200;
                                 json := Fulfilled
                                   (JObj [(lit "transactionHash", JStr (lit "H1"))]) |}
                     | _ => Rejected (JStr (lit "Failed to fetch"))
                     end;
                   now := 0; isoNow := [] |}
                (JStr (lit "ADDR")) [] [] (JStr (lit "7")) (JStr (lit "no")))
      as (_ & _ & _ & Hcaught).
    destruct (Hcaught eq_refl) as (_ & _ & _ & Hrefresh & _).
    destruct (Hrefresh eq_refl) as (_ & _ & Hdetails & _).
    apply Hdetails. left. reflexivity.
Defined.

(** C7 as stated fails: after an accepted vote the request for the details
    of the proposal is rejected; [fetchProposalDetails] catches the
    exception and writes it to the console, and no error message is set,
    the success message stays on display. *)
Lemma every_exception_sets_an_error_message_counterexample :
  let posted :=
    {| status := 200;
       json := Fulfilled (JObj [(lit "transactionHash", JStr (lit "H1"))]) |} in
  let env :=
    {| network := fun n _ =>
         match n with
         | O => Fulfilled posted
         | _ => Rejected (JStr (lit "Failed to fetch"))
         end;
       now := 0; isoNow := [] |} in
  let p := @VotingPanel.handleVote ascii_builtins (JStr (lit "ADDR"))
             (JStr (lit "7")) (JStr (lit "yes")) in
  let details := get_request (lit "/api/proposals/7") in
  nth_error (fetches (trace env p)) 1 = Some details /\
  read_throws env 1 details (JStr (lit "Failed to fetch")) /\
  outcome env p = Returned tt /\
  [JStr (lit "Error fetching proposal details:"); JStr (lit "Failed to fetch")]
    ∈ logged (trace env p) /\
  omap (fun ev => match ev with
                  | EvSet VotingPanel.Message x => Some x
                  | _ => None
                  end) (trace env p)
  = [JNull;
     message_of "success" (JStr (lit "Vote " ++ [34%N] ++ lit "yes" ++ [34%N]
                                   ++ lit " submitted successfully!"))] /\
  after VotingPanel.initial (trace env p) VotingPanel.Message <> network_error.
Proof.
  cbv zeta. split; [reflexivity|]. split; [left; reflexivity|].
  split; [reflexivity|]. split; [|split].
  - vm_compute. apply elem_of_cons. left. reflexivity.
  - reflexivity.
  - vm_compute. discriminate.
Qed.


(** ** One request at a time *)

Section Submitting.
Import ProposalForm.

Lemma flag_after_upd (st : Cell -> JsVal) v x :
  truthy (upd st v x IsSubmitting) =
  if decide (v = IsSubmitting) then truthy x else truthy (st IsSubmitting).
Proof.
  unfold upd. destruct (decide (IsSubmitting = v)), (decide (v = IsSubmitting));
    congruence.
Qed.

(** One synchronous stretch of a well-behaved program ends either
    suspended with the flag up, or finished with the flag down. *)
Lemma sync_flag_ok clock iso (p : Prog Cell unit) :
  forall st,
    flag_ok (truthy (st IsSubmitting)) p ->
    let '(st', p') := sync clock iso st p in
    if awaiting p'
    then truthy (st' IsSubmitting) = true /\ flag_ok true p'
    else truthy (st' IsSubmitting) = false.
Proof.
  induction p as [a|e|c k IH]; intros st Hok; simpl in *; try exact Hok.
  destruct c; simpl in *.
  - apply IH. by rewrite flag_after_upd.
  - destruct Hok as [Hb Hk]. rewrite Hb in *. done.
  - destruct Hok as [Hb Hk]. rewrite Hb in *. done.
  - apply IH, Hok.
  - apply IH, Hok.
  - apply IH, Hok.
  - apply IH, Hok.
Qed.

(** Every path through [handleSubmit] keeps the discipline. *)
Lemma handleSubmit_flag_ok walletAddress title description :
  flag_ok false (handleSubmit walletAddress title description).
Proof.
  unfold handleSubmit, validateForm.
  destruct (truthy walletAddress); simpl; [|reflexivity].
  destruct (negb _); simpl; [reflexivity|].
  destruct (_ <? _)%nat; simpl; [reflexivity|].
  destruct (negb _); simpl; [reflexivity|].
  destruct (_ <? _)%nat; simpl; [reflexivity|].
  split; [reflexivity|]. intros [response|e]; simpl; [|reflexivity].
  split; [reflexivity|]. intros [data|e]; simpl; [|reflexivity].
  destruct (ok response); simpl.
  - unfold transactionHash_or_placeholder, prop.
    destruct (get data (lit "transactionHash")) as [h|e]; simpl; [|reflexivity].
    destruct (truthy h); simpl; [reflexivity|].
    destruct (get data (lit "txId")) as [i|e]; simpl; [|reflexivity].
    destruct (truthy i); simpl; [reflexivity|].
    intros n. reflexivity.
  - unfold error_or, prop.
    destruct (get data (lit "error")) as [x|e]; simpl; reflexivity.
Qed.

(** The invariant of the mounted form: no invocation is suspended and the
    flag is down, or exactly one is and the flag is up. *)
Lemma step_invariant cfg cfg' :
  step cfg cfg' ->
  match suspended cfg with
  | [] => truthy (cells cfg IsSubmitting) = false
  | [p] => truthy (cells cfg IsSubmitting) = true /\ awaiting p = true /\ flag_ok true p
  | _ => False
  end ->
  match suspended cfg' with
  | [] => truthy (cells cfg' IsSubmitting) = false
  | [p] => truthy (cells cfg' IsSubmitting) = true /\ awaiting p = true /\ flag_ok true p
  | _ => False
  end.
Proof.
  intros Hstep Hinv.
  destruct Hstep as [cfg s|cfg s|cfg w|cfg clock iso st p Hen Hsync
                    |cfg before c k rest x clock iso st p Hsusp Hc Hsync]; simpl.
  - exact Hinv.
  - exact Hinv.
  - exact Hinv.
  - unfold submitDisabled in Hen. apply orb_false_iff in Hen as [Hflag _].
    destruct (suspended cfg) as [|q [|q' l]]; [|destruct Hinv; congruence|done].
    pose proof (sync_flag_ok clock iso
                  (handleSubmit (wallet cfg) (text_of (cells cfg Title))
                     (text_of (cells cfg Description))) (cells cfg)) as Hs.
    rewrite Hflag, Hsync in Hs. specialize (Hs (handleSubmit_flag_ok _ _ _)).
    unfold resume. simpl. destruct (awaiting p) eqn:Hp; [|exact Hs].
    destruct Hs; done.
  - rewrite Hsusp in Hinv.
    destruct before as [|q before]; simpl in Hinv;
      [|destruct before; simpl in Hinv; [done | destruct Hinv]].
    destruct rest as [|q rest]; [|done].
    destruct Hinv as (Hflag & _ & Hk).
    assert (flag_ok true (k x)) as Hkx.
    { destruct c; simpl in Hc; try discriminate; simpl in Hk; apply Hk. }
    pose proof (sync_flag_ok clock iso (k x) (cells cfg)) as Hs.
    rewrite Hflag, Hsync in Hs. specialize (Hs Hkx).
    unfold resume. simpl. destruct (awaiting p) eqn:Hp; [|exact Hs].
    destruct Hs; done.
Qed.

Lemma reachable_invariant w cfg :
  rtc step (mounted w) cfg ->
  match suspended cfg with
  | [] => truthy (cells cfg IsSubmitting) = false
  | [p] => truthy (cells cfg IsSubmitting) = true /\ awaiting p = true /\ flag_ok true p
  | _ => False
  end.
Proof.
  revert cfg. apply rtc_ind_r.
  - reflexivity.
  - intros cfg cfg' _ Hstep Hinv. eapply step_invariant; eassumption.
Qed.
(** An invocation that sends a request had a wallet and a valid form. *)
Lemma reaches_the_call env walletAddress title description :
  fetches (trace env (handleSubmit walletAddress title description)) <> [] ->
  truthy walletAddress = true /\
  (5 <= length (trim title))%nat /\ (20 <= length (trim description))%nat.
Proof.
  intros Hsent. destruct (truthy walletAddress) eqn:Hw.
  - destruct (validateForm_cases env title description) as [(text & Hv)|[Ht Hd]];
      [|done].
    exfalso. apply Hsent.
    unfold trace, run, handleSubmit. rewrite Hw.
    simpl negb. cbv iota. simpl exec. unfold mbind, prog_bind.
    rewrite exec_bind, Hv. reflexivity.
  - exfalso. apply Hsent.
    unfold trace, run, handleSubmit. rewrite Hw. reflexivity.
Qed.

(** C6. (1) An invocation of [handleSubmit] that reaches the network call
    raises the submitting flag just before the request and lowers it as
    its last act, whatever the outcome of the request (success, failure
    response, exception), without touching it or sending anything in
    between. (2) While the flag is up the submit button is disabled.
    (3) Hence, in every state the mounted form can reach, at most one
    invocation is in progress, so at most one request is on the wire,
    and while an invocation is in progress the button is disabled. *)
Theorem submitting_flag_brackets_the_single_request :
  (forall env walletAddress title description,
      let p := handleSubmit walletAddress title description in
      fetches (trace env p) <> [] ->
      exists pre mid,
        trace env p =
          pre ++ [EvSet IsSubmitting (JBool true);
                  EvFetch (request walletAddress title description)]
              ++ mid ++ [EvSet IsSubmitting (JBool false)] /\
        fetches pre = [] /\ fetches mid = [] /\
        quiet_on IsSubmitting pre /\ quiet_on IsSubmitting mid /\
        outcome env p = Returned tt) /\
  (forall (st : Cell -> JsVal) walletAddress,
      truthy (st IsSubmitting) = true -> submitDisabled st walletAddress = true) /\
  (forall w cfg,
      rtc step (mounted w) cfg ->
      (length (suspended cfg) <= 1)%nat /\
      (length (List.filter in_flight (suspended cfg)) <= 1)%nat /\
      (suspended cfg <> [] ->
       truthy (cells cfg IsSubmitting) = true /\
       submitDisabled (cells cfg) (wallet cfg) = true)).
Proof.
  split; [|split].
  - intros env walletAddress title description p Hsent. subst p.
    destruct (reaches_the_call _ _ _ _ Hsent) as (Hw & Ht & Hd).
    destruct (handleSubmit_run env walletAddress title description Hw Ht Hd)
      as (mid & Hrun & Hmid).
    exists [EvPreventDefault; EvSet Message JNull; EvSet TransactionHash JNull], mid.
    unfold trace, outcome. rewrite Hrun. cbn [fst snd].
    split; [reflexivity|]. split; [reflexivity|].
    cbv zeta in Hmid.
    assert (fetches mid = [] /\ quiet_on IsSubmitting mid) as [Hf Hq].
    { repeat case_match; subst; (split; [reflexivity|]);
        unfold quiet_on; repeat constructor; done. }
    repeat split; try assumption.
    unfold quiet_on. repeat constructor; done.
  - intros st walletAddress Hflag. unfold submitDisabled. by rewrite Hflag.
  - intros w cfg Hreach. pose proof (reachable_invariant w cfg Hreach) as Hinv.
    unfold submitDisabled.
    destruct (suspended cfg) as [|q [|q' l]]; [| |done].
    + split; [simpl; lia|]. split; [simpl; lia | done].
    + destruct Hinv as (Hflag & _). rewrite Hflag. split; [simpl; lia|].
      split; [|done]. simpl. destruct (in_flight q); simpl; lia.
Qed.
End Submitting.

Lemma submitting_flag_brackets_the_single_request_witness :
  let env := {| network := fun _ _ => Rejected (JStr (lit "Failed to fetch"));
                now := 0; isoNow := [] |} in
  let p := ProposalForm.handleSubmit (JStr (lit "ADDR")) (lit "Repair the roof")
             (lit "The roof of the library leaks.") in
  fetches (trace env p) <> [] /\
  exists pre mid,
    trace env p =
      pre ++ [EvSet ProposalForm.IsSubmitting (JBool true);
              EvFetch (ProposalForm.request (JStr (lit "ADDR")) (lit "Repair the roof")
                         (lit "The roof of the library leaks."))]
          ++ mid ++ [EvSet ProposalForm.IsSubmitting (JBool false)] /\
    fetches pre = [] /\ fetches mid = [] /\
    quiet_on ProposalForm.IsSubmitting pre /\ quiet_on ProposalForm.IsSubmitting mid /\
    outcome env p = Returned tt.
Proof.
  cbv zeta. split; [vm_compute; discriminate|].
  apply submitting_flag_brackets_the_single_request.
  vm_compute; discriminate.
Defined.

Example one_request_can_be_in_flight :
  exists cfg,
    rtc ProposalForm.step (ProposalForm.mounted (JStr (lit "ADDR"))) cfg /\
    length (ProposalForm.suspended cfg) = 1%nat.
Proof.
  eexists. split.
  - eapply rtc_l; [apply ProposalForm.typed_title with (s := lit "Repair the roof")|].
    eapply rtc_l;
      [apply ProposalForm.typed_description
         with (s := lit "The roof of the library leaks.")|].
    eapply rtc_l; [|apply rtc_refl].
    eapply ProposalForm.submitted with (clock := 0) (iso := []); reflexivity.
  - reflexivity.
Qed.

(** ** The vanilla application *)

Section Sentiment.
Context `{Builtins}.
Import App.AIService.

(** C8. For every input string the score that [getSentiment] returns is
    at least -1 and at most 1. *)
Theorem getSentiment_is_clamped (proposalText : jsstring) :
  Number.leb (Number.ofZ (-1)) (getSentiment proposalText) = true /\
  Number.leb (getSentiment proposalText) (Number.ofZ 1) = true.
Proof.
  unfold getSentiment, positiveWords, negativeWords. cbn [fold_left].
  repeat match goal with
    | |- context [if includes ?s ?w then _ else _] => destruct (includes s w)
    end;
    vm_compute; split; reflexivity.
Qed.
End Sentiment.

Example one_fifth_is_the_literal :
  Number.div (Number.ofZ 2) (Number.ofZ 10) = App.AIService.one_fifth.
Proof. vm_compute. reflexivity. Qed.

Example getSentiment_all_positive :
  @App.AIService.getSentiment ascii_builtins
    (lit "Upgrade the labs: a GOOD budget will improve things and benefit all")
  = Number.ofZ 1.
Proof. vm_compute. reflexivity. Qed.

Section Percentages.
Import App App.Components.

Lemma divZ_is_Some a b : b <> 0 -> is_Some (Number.divZ a b).
Proof.
  intros Hb. unfold Number.divZ.
  destruct (Z.eqb_spec b 0); [done | eauto].
Qed.

(** C9. Rendering vote percentages never divides by zero. In
    [ProposalDetail] both displayed percentages are 0 when
    [votesYes + votesNo] is 0, and the division is only reached with a
    divisor that is not 0. In VotingPanel the divisor of both bar widths
    is [Math.max(yesVotes + noVotes, 1)], at least 1 for every proposal,
    so neither width divides by zero. *)
Theorem vote_percentages_never_divide_by_zero :
  (forall w : World,
      match ProposalDetail w with
      | NotFound => True
      | Detail totalVotes yes no =>
          is_Some yes /\ is_Some no /\
          (totalVotes = 0 ->
           yes = Some (S754_zero false) /\ no = Some (S754_zero false))
      end) /\
  (forall proposal : Proposal,
      votesYes proposal + votesNo proposal = 0 ->
      yesPercent proposal = Some (S754_zero false) /\
      noPercent proposal = Some (S754_zero false)) /\
  (forall proposal : Proposal,
      is_Some (yesPercent proposal) /\ is_Some (noPercent proposal)) /\
  (forall p : VotingPanel.Tallies,
      1 <= VotingPanel.denominator p /\
      is_Some (VotingPanel.yesWidth p) /\ is_Some (VotingPanel.noWidth p)).
Proof.
  assert (forall proposal : Proposal,
             votesYes proposal + votesNo proposal = 0 ->
             yesPercent proposal = Some (S754_zero false) /\
             noPercent proposal = Some (S754_zero false)) as Hzeroes.
  { intros proposal Hzero. unfold yesPercent, noPercent. rewrite Hzero. done. }
  assert (forall proposal : Proposal,
             is_Some (yesPercent proposal) /\ is_Some (noPercent proposal)) as Hsome;
    [|split; [|split; [exact Hzeroes | split; [exact Hsome|]]]].
  - intros proposal. unfold yesPercent, noPercent.
    destruct (Z.eqb_spec (votesYes proposal + votesNo proposal) 0) as [|Hne];
      [split; eauto|].
    split.
    + destruct (divZ_is_Some (votesYes proposal) _ Hne) as [q ->]. simpl. eauto.
    + destruct (divZ_is_Some (votesNo proposal) _ Hne) as [q ->]. simpl. eauto.
  - intros w. unfold ProposalDetail.
    destruct (activeProposalId w) as [wanted|]; simpl; [|done].
    destruct (find (heap w) (proposals w) wanted) as [l|]; simpl; [|done].
    destruct (heap w !! l) as [proposal|]; [|done].
    destruct (Hsome proposal). split; [done|]. split; [done|]. apply Hzeroes.
  - intros p.
    assert (1 <= VotingPanel.denominator p) as Hden
      by (unfold VotingPanel.denominator; lia).
    split; [exact Hden|].
    unfold VotingPanel.yesWidth, VotingPanel.noWidth. split.
    + destruct (divZ_is_Some (VotingPanel.or0 (VotingPanel.yesVotes p))
                  (VotingPanel.denominator p)) as [q ->]; [lia|]. simpl. eauto.
    + destruct (divZ_is_Some (VotingPanel.or0 (VotingPanel.noVotes p))
                  (VotingPanel.denominator p)) as [q ->]; [lia|]. simpl. eauto.
Qed.
End Percentages.

Lemma vote_percentages_never_divide_by_zero_witness :
  let proposal :=
    {| App.id := 1; App.title := lit "New"; App.description := [];
       App.creator := []; App.status := lit "Active"; App.deadline := 0;
       App.votesYes := 0; App.votesNo := 0; App.quorum := 2000;
       App.category := []; App.comments := 0 |} in
  App.votesYes proposal + App.votesNo proposal = 0 /\
  App.Components.yesPercent proposal = Some (S754_zero false) /\
  App.Components.noPercent proposal = Some (S754_zero false).
Proof.
  cbv zeta. split; [reflexivity|].
  apply (proj1 (proj2 vote_percentages_never_divide_by_zero)). reflexivity.
Defined.

Example percentages_of_the_first_mock_proposal :
  let proposal := Mock.mockProposals Mock.fetched !! 1%positive in
  App.id <$> proposal = Some 1042 /\
  (proposal ≫= App.Components.yesPercent) = Some (Number.ofZ 88) /\
  (proposal ≫= App.Components.noPercent) = Some (Number.ofZ 13).
Proof. vm_compute. repeat split. Qed.

Section Voting.
Context `{Builtins}.
Import App.

(** [find] answers the first reference, in array order, whose object
    carries the id. *)
Lemma find_Some h ps wanted l :
  find h ps wanted = Some l ->
  exists before rest p,
    ps = before ++ l :: rest /\
    h !! l = Some p /\ id p = wanted /\
    forall l0 p0, l0 ∈ before -> h !! l0 = Some p0 -> id p0 <> wanted.
Proof.
  induction ps as [|l1 ps IH]; simpl; [done|].
  destruct (h !! l1) as [p1|] eqn:Hl1.
  - destruct (Z.eqb_spec (id p1) wanted) as [Heq|Hne].
    + intros [= <-]. exists [], ps, p1. repeat split; try done.
      intros l0 p0 Hin. by apply elem_of_nil in Hin.
    + intros Hfind. destruct (IH Hfind) as (before & rest & p & -> & Hp & Hid & Hfirst).
      exists (l1 :: before), rest, p. repeat split; try done.
      intros l0 p0 Hin Hl0. apply elem_of_cons in Hin as [->|Hin]; [congruence|eauto].
  - intros Hfind. destruct (IH Hfind) as (before & rest & p & -> & Hp & Hid & Hfirst).
    exists (l1 :: before), rest, p. repeat split; try done.
    intros l0 p0 Hin Hl0. apply elem_of_cons in Hin as [->|Hin]; [congruence|eauto].
Qed.

Lemma find_None h ps wanted :
  find h ps wanted = None <->
  forall l p, l ∈ ps -> h !! l = Some p -> id p <> wanted.
Proof.
  induction ps as [|l1 ps IH]; simpl.
  - split; [|done]. intros _ l p Hin. by apply elem_of_nil in Hin.
  - destruct (h !! l1) as [p1|] eqn:Hl1.
    + destruct (Z.eqb_spec (id p1) wanted) as [Heq|Hne].
      * split; [done|]. intros Hall. exfalso.
        eapply Hall; [apply elem_of_cons; by left | exact Hl1 | exact Heq].
      * rewrite IH. split.
        -- intros Hall l p Hin Hl. apply elem_of_cons in Hin as [->|Hin];
             [congruence | eauto].
        -- intros Hall l p Hin. apply Hall. apply elem_of_cons. by right.
    + rewrite IH. split.
      * intros Hall l p Hin Hl. apply elem_of_cons in Hin as [->|Hin];
          [congruence | eauto].
      * intros Hall l p Hin. apply Hall. apply elem_of_cons. by right.
Qed.

(** C10. With a connected wallet, [submitVote(proposalId, vote)] leaves
    the array of proposals as it is and changes at most one object: when
    some proposal of the array carries the id, the first such has its
    [votesYes] raised by 1 if [vote] is 'yes', and its [votesNo] raised
    by 1 otherwise, its other fields and every other object staying as
    they were; when none carries the id, no object changes. *)
Theorem submitVote_increments_exactly_one_tally
    (generated : jsstring) (date proposalId : Z) (vote : jsstring) (w : World) :
  isConnected (user w) = true ->
  let w' := fst (BlockchainService.submitVote generated date proposalId vote w) in
  proposals w' = proposals w /\
  ((forall l p, l ∈ proposals w -> heap w !! l = Some p -> id p <> proposalId) ->
   heap w' = heap w) /\
  ((exists l p, l ∈ proposals w /\ heap w !! l = Some p /\ id p = proposalId) ->
   exists before l rest p,
     proposals w = before ++ l :: rest /\
     heap w !! l = Some p /\ id p = proposalId /\
     (forall l0 p0, l0 ∈ before -> heap w !! l0 = Some p0 -> id p0 <> proposalId) /\
     let p' := if jsstring_eqb vote (lit "yes")
               then with_votesYes (votesYes p + 1) p
               else with_votesNo (votesNo p + 1) p in
     heap w' = <[l := p']> (heap w) /\
     (forall l', l' <> l -> heap w' !! l' = heap w !! l') /\
     (if jsstring_eqb vote (lit "yes")
      then votesYes p' = votesYes p + 1 /\ votesNo p' = votesNo p
      else votesNo p' = votesNo p + 1 /\ votesYes p' = votesYes p)).
Proof.
  intros Hconn. unfold BlockchainService.submitVote. rewrite Hconn.
  cbn [negb fst]. cbv zeta. cbn [fst].
  cbn [Store.setLoading console_log heap proposals].
  destruct (find (heap w) (proposals w) proposalId) as [l|] eqn:Hfind.
  - apply find_Some in Hfind as (before & rest & p & Hps & Hp & Hid & Hfirst).
    split; [by destruct (jsstring_eqb vote (lit "yes"))|].
    split.
    { intros Hnone. exfalso. eapply (Hnone l p); [|done..].
      rewrite Hps. apply elem_of_app. right. apply elem_of_cons. by left. }
    intros _. exists before, l, rest, p.
    split; [done|]. split; [done|]. split; [done|]. split; [done|].
    assert (forall f, alter f l (heap w) = <[l := f p]> (heap w)) as Halter.
    { intros f. apply map_eq. intros i. destruct (decide (i = l)) as [->|Hne].
      - by rewrite lookup_alter_eq, lookup_insert_eq, Hp.
      - by rewrite lookup_alter_ne, lookup_insert_ne. }
    destruct (jsstring_eqb vote (lit "yes")); cbn; rewrite Halter;
      (split; [reflexivity|]); (split; [|done]);
      intros l' Hne; by rewrite lookup_insert_ne.
  - split; [reflexivity|]. split; [reflexivity|].
    intros (l & p & Hin & Hp & Hid). exfalso.
    pose proof (proj1 (find_None _ _ _) Hfind) as Hnone. by eapply Hnone.
Qed.
End Voting.

Lemma submitVote_increments_exactly_one_tally_witness :
  App.isConnected (App.user Mock.world) = true /\
  App.proposals
    (fst (@App.BlockchainService.submitVote ascii_builtins (lit "k3x9q2m1z")
            1700000000000 1041 (lit "yes") Mock.world))
  = App.proposals Mock.world.
Proof.
  split; [reflexivity|].
  apply (@submitVote_increments_exactly_one_tally ascii_builtins (lit "k3x9q2m1z")
           1700000000000 1041 (lit "yes") Mock.world).
  reflexivity.
Defined.

Example submitVote_on_the_mock_data :
  let w' := fst (@App.BlockchainService.submitVote ascii_builtins (lit "k3x9q2m1z")
                   1700000000000 1041 (lit "yes") Mock.world) in
  App.votesYes <$> App.heap w' !! 2%positive = Some 301 /\
  App.votesNo <$> App.heap w' !! 2%positive = Some 450 /\
  App.votesYes <$> App.heap w' !! 1%positive = Some 840 /\
  App.hash <$> head (App.transactions (App.user w')) = Some (lit "TXK3X9Q2M1Z").
Proof. vm_compute. repeat split. Qed.

(** What C7 does not cover: a refresh that fails after a successful vote is
    written to the console by the helper that made it, and the success
    message stays on display. *)
Example a_failed_refresh_is_logged_and_not_shown :
  let posted :=
    {| status := 200;
       json := Fulfilled (JObj [(lit "transactionHash", JStr (lit "H1"))]) |} in
  let env :=
    {| network := fun n _ =>
         match n with
         | O => Fulfilled posted
         | _ => Rejected (JStr (lit "Failed to fetch"))
         end;
       now := 0; isoNow := [] |} in
  let t := trace env (@VotingPanel.handleVote ascii_builtins (JStr (lit "ADDR"))
                        (JStr (lit "7")) (JStr (lit "yes"))) in
  after (fun _ => JNull) t VotingPanel.Message =
    message_of "success" (JStr (lit "Vote " ++ [34%N] ++ lit "yes" ++ [34%N]
                                  ++ lit " submitted successfully!")) /\
  logged t =
    [[JStr (lit "Error fetching proposal details:"); JStr (lit "Failed to fetch")];
     [JStr (lit "Error fetching proposals:"); JStr (lit "Failed to fetch")]] /\
  List.map url (fetches t) =
    [lit "/api/vote"; lit "/api/proposals/7"; lit "/api/proposals"].
Proof. vm_compute. repeat split. Qed.

(* ===================================================================== *)
(** * Further properties of the components *)
(* ===================================================================== *)

Ltac quiet := unfold quiet_on; repeat constructor; done.

(** ** What [trim] leaves *)

Lemma trimStart_suffix s : exists w, s = w ++ trimStart s.
Proof.
  induction s as [|c s [w IH]]; simpl.
  - by exists [].
  - destruct (isWhiteSpace c).
    + exists (c :: w). simpl. by rewrite <- IH.
    + by exists [].
Qed.

Lemma trimStart_fixed s :
  match s with c :: _ => isWhiteSpace c = false | [] => True end ->
  trimStart s = s.
Proof. destruct s as [|c s]; simpl; [done|]. by intros ->. Qed.

Lemma trimStart_head s :
  match trimStart s with c :: _ => isWhiteSpace c = false | [] => True end.
Proof.
  induction s as [|c s IH]; simpl; [done|].
  destruct (isWhiteSpace c) eqn:E; [exact IH | exact E].
Qed.

Lemma trimStart_idempotent s : trimStart (trimStart s) = trimStart s.
Proof. apply trimStart_fixed, trimStart_head. Qed.

Lemma trim_prefix s : exists w, trimStart s = trim s ++ w.
Proof.
  unfold trim, trimEnd.
  destruct (trimStart_suffix (rev (trimStart s))) as [w Hw].
  exists (rev w). apply (f_equal (@rev N)) in Hw.
  by rewrite rev_involutive, rev_app_distr in Hw.
Qed.

(** Trimming twice is trimming once: a trimmed string has no whitespace left
    at either end. *)
Lemma trim_idempotent s : trim (trim s) = trim s.
Proof.
  assert (trimStart (trim s) = trim s) as Hstart.
  { apply trimStart_fixed.
    destruct (trim_prefix s) as [w Hw]. pose proof (trimStart_head s) as Hh.
    rewrite Hw in Hh. by destruct (trim s). }
  unfold trim at 1. rewrite Hstart.
  unfold trim, trimEnd. by rewrite rev_involutive, trimStart_idempotent.
Qed.

(** ** ProposalForm: what is sent, and what is left in the form *)

Section ProposalRequests.
Import ProposalForm.

Lemma accepted_cases env rq :
  accepted env rq = true ->
  exists r data,
    network env 0 rq = Fulfilled r /\ ok r = true /\
    json r = Fulfilled data /\ nullish data = false.
Proof.
  unfold accepted, answer. intros Hacc.
  destruct (network env 0 rq) as [r|e]; [|done].
  destruct (ok r) eqn:Hok; [|done].
  destruct (json r) as [data|e] eqn:Hjson; [|done].
  exists r, data. destruct (nullish data); simpl in Hacc; [discriminate | done].
Qed.

(** The one request [handleSubmit] can send carries a title and a
    description that passed validation and have nothing left to trim, and
    a wallet address that is truthy. *)
Theorem handleSubmit_sends_only_validated_proposals
    env walletAddress title description (rq : Request) :
  rq ∈ fetches (trace env (handleSubmit walletAddress title description)) ->
  url rq = lit "/api/proposals" /\ method rq = POST /\
  body rq = Some (JObj [(lit "title", JStr (trim title));
                        (lit "description", JStr (trim description));
                        (lit "walletAddress", walletAddress)]) /\
  truthy walletAddress = true /\
  (5 <= length (trim title))%nat /\ trim (trim title) = trim title /\
  (20 <= length (trim description))%nat /\
  trim (trim description) = trim description.
Proof.
  intros Hin.
  assert (fetches (trace env (handleSubmit walletAddress title description)) <> [])
    as Hsent by (intros E; rewrite E in Hin; by apply elem_of_nil in Hin).
  destruct (reaches_the_call _ _ _ _ Hsent) as (Hw & Ht & Hd).
  destruct (handleSubmit_total env walletAddress title description) as [_ Hone].
  destruct (handleSubmit_run env walletAddress title description Hw Ht Hd)
    as (mid & Hrun & Hmid). cbv zeta in Hmid.
  assert (fetches mid = []) as Hmidf by (repeat case_match; by subst).
  unfold trace in Hin. rewrite Hrun in Hin. cbn [fst] in Hin.
  rewrite !fetches_app, Hmidf in Hin. simpl in Hin.
  apply list_elem_of_singleton in Hin as ->.
  repeat split; try done; apply trim_idempotent.
Qed.

(** The form is emptied when the proposal was accepted, and only then: on
    every other path the title and the description stay as typed. *)
Theorem handleSubmit_clears_the_form_only_on_success
    env walletAddress title description :
  let t := trace env (handleSubmit walletAddress title description) in
  let rq := request walletAddress title description in
  (truthy walletAddress = true ->
   (5 <= length (trim title))%nat ->
   (20 <= length (trim description))%nat ->
   accepted env rq = true ->
   forall init,
     after init t Title = JStr [] /\ after init t Description = JStr []) /\
  (truthy walletAddress = false \/
   (length (trim title) < 5)%nat \/
   (length (trim description) < 20)%nat \/
   accepted env rq = false ->
   quiet_on Title t /\ quiet_on Description t).
Proof.
  cbv zeta. split.
  - intros Hw Ht Hd Hacc init.
    destruct (accepted_cases _ _ Hacc) as (r & data & Hnet & Hok & Hjson & Hdata).
    destruct (handleSubmit_run env walletAddress title description Hw Ht Hd)
      as (mid & Hrun & Hmid).
    cbv zeta in Hmid. rewrite Hnet, Hjson, Hok, Hdata in Hmid. subst mid.
    unfold trace. rewrite Hrun. done.
  - intros Hnot. destruct (truthy walletAddress) eqn:Hw.
    + destruct (validateForm_cases env title description) as [(text & Hv)|[Ht Hd]].
      * unfold trace, run, handleSubmit. rewrite Hw.
        simpl negb. cbv iota. simpl exec. unfold mbind, prog_bind.
        rewrite exec_bind, Hv. simpl. split; quiet.
      * destruct Hnot as [Hnot|[Hnot|[Hnot|Hnot]]]; [done|lia|lia|].
        destruct (handleSubmit_run env walletAddress title description Hw Ht Hd)
          as (mid & Hrun & Hmid).
        cbv zeta in Hmid. unfold accepted, answer in Hnot.
        unfold trace. rewrite Hrun. cbn [fst].
        repeat case_match; subst; try done; split; quiet.
    + unfold trace, run, handleSubmit. rewrite Hw. simpl. split; quiet.
Qed.
End ProposalRequests.

Lemma handleSubmit_sends_only_validated_proposals_witness :
  let env := {| network := fun _ _ => Rejected JUndefined; now := 0; isoNow := [] |} in
  let rq := ProposalForm.request (JStr (lit "ADDR")) (lit "  Repair the roof ")
              (lit "The roof of the library leaks.  ") in
  rq ∈ fetches (trace env (ProposalForm.handleSubmit (JStr (lit "ADDR"))
                             (lit "  Repair the roof ")
                             (lit "The roof of the library leaks.  "))) /\
  body rq = Some (JObj [(lit "title", JStr (lit "Repair the roof"));
                        (lit "description", JStr (lit "The roof of the library leaks."));
                        (lit "walletAddress", JStr (lit "ADDR"))]).
Proof.
  cbv zeta.
  assert (ProposalForm.request (JStr (lit "ADDR")) (lit "  Repair the roof ")
            (lit "The roof of the library leaks.  ")
          ∈ fetches (trace {| network := fun _ _ => Rejected JUndefined;
                              now := 0; isoNow := [] |}
                       (ProposalForm.handleSubmit (JStr (lit "ADDR"))
                          (lit "  Repair the roof ")
                          (lit "The roof of the library leaks.  ")))) as Hin.
  { vm_compute. apply list_elem_of_singleton. reflexivity. }
  split; [exact Hin|].
  destruct (handleSubmit_sends_only_validated_proposals _ _ _ _ _ Hin)
    as (_ & _ & Hbody & _).
  exact Hbody.
Defined.

Lemma handleSubmit_clears_the_form_only_on_success_witness :
  let r := {| status := 500; json := Rejected SyntaxError |} in
  let env := {| network := fun _ _ => Fulfilled r; now := 0; isoNow := [] |} in
  let rq := ProposalForm.request (JStr (lit "ADDR")) (lit "Repair the roof")
              (lit "The roof of the library leaks.") in
  accepted env rq = false /\
  quiet_on ProposalForm.Title
    (trace env (ProposalForm.handleSubmit (JStr (lit "ADDR")) (lit "Repair the roof")
                  (lit "The roof of the library leaks."))).
Proof.
  cbv zeta. split; [reflexivity|].
  apply (handleSubmit_clears_the_form_only_on_success
           {| network := fun _ _ =>
                Fulfilled {| status := 500; json := Rejected SyntaxError |};
              now := 0; isoNow := [] |}
           (JStr (lit "ADDR")) (lit "Repair the roof")
           (lit "The roof of the library leaks.")).
  right. right. right. reflexivity.
Defined.

(** ** Reads and refreshes *)

Section Reads.
Context `{Builtins}.
Implicit Types (env : Env) (data walletAddress proposalId vote : JsVal).

Ltac read_done :=
  eexists; rewrite <- ?app_assoc; (split; [reflexivity|]); reflexivity.

Lemma fetchProposalDetails_requests env t proposalId :
  exists t',
    exec env t (VotingPanel.fetchProposalDetails proposalId) = (t ++ t', Returned tt) /\
    fetches t' = [get_request (lit "/api/proposals/" ++ ToString proposalId)].
Proof.
  unfold VotingPanel.fetchProposalDetails. rewrite exec_try_catch. simpl.
  destruct (network env _ _) as [r|e]; simpl; [|read_done].
  destruct (ok r); simpl; [|read_done].
  destruct (json r) as [d|e]; simpl; read_done.
Qed.

Lemma fetchProposals_requests env t :
  exists t',
    exec env t VotingPanel.fetchProposals = (t ++ t', Returned tt) /\
    fetches t' = [get_request (lit "/api/proposals")].
Proof.
  unfold VotingPanel.fetchProposals. rewrite exec_finally, exec_try_catch. simpl.
  destruct (network env _ _) as [r|e]; simpl; [|read_done].
  destruct (ok r); simpl; [|read_done].
  destruct (json r) as [d|e]; simpl; [|read_done].
  unfold prop. destruct (get d _) as [ps|e]; simpl; read_done.
Qed.

Lemma fetchAttendanceStatus_requests env t walletAddress :
  exists t',
    exec env t (AttendancePanel.fetchAttendanceStatus walletAddress) = (t ++ t', Returned tt) /\
    fetches t' =
      [get_request (lit "/api/attendance?walletAddress=" ++ ToString walletAddress)].
Proof.
  unfold AttendancePanel.fetchAttendanceStatus. rewrite exec_try_catch. simpl.
  destruct (network env _ _) as [r|e]; simpl; [|read_done].
  destruct (ok r); simpl; [|read_done].
  destruct (json r) as [d|e]; simpl; [|read_done].
  unfold prop. destruct (get d (lit "status")) as [st|e]; simpl; [|read_done].
  destruct (get d (lit "history")) as [h|e]; simpl; read_done.
Qed.

#[local] Arguments transactionHash_or_placeholder : simpl never.
#[local] Arguments error_or : simpl never.

(** A vote is followed by the two refreshes, in this order, exactly when it
    was accepted; otherwise the POST is the only request. What the
    refreshes are answered does not matter. *)
Theorem handleVote_refreshes_exactly_after_success
    env walletAddress proposalId vote :
  truthy walletAddress = true ->
  let rq := VotingPanel.request walletAddress proposalId vote in
  fetches (trace env (VotingPanel.handleVote walletAddress proposalId vote)) =
  rq :: (if accepted env rq
         then [get_request (lit "/api/proposals/" ++ ToString proposalId);
               get_request (lit "/api/proposals")]
         else []).
Proof.
  intros Hw rq. unfold accepted, answer.
  unfold trace, run, VotingPanel.handleVote, VotingPanel.cast, mbind, prog_bind.
  remember (VotingPanel.fetchProposalDetails proposalId) as details.
  remember VotingPanel.fetchProposals as listing.
  rewrite Hw. simpl negb. cbv iota. simpl exec. fold rq.
  destruct (network env 0 rq) as [r|e]; simpl exec; [|reflexivity].
  destruct (json r) as [data|e]; simpl exec; [|by destruct (ok r)].
  destruct (ok r); simpl exec.
  - rewrite exec_finally, exec_try_catch, exec_bind,
      transactionHash_or_placeholder_exec.
    destruct (nullish data); simpl exec; [reflexivity|].
    rewrite exec_bind. subst details listing.
    edestruct fetchProposalDetails_requests as (t1 & -> & Hf1).
    edestruct fetchProposals_requests as (t2 & -> & Hf2).
    simpl exec. cbn [fst negb]. rewrite !fetches_app, Hf1, Hf2. reflexivity.
  - rewrite exec_finally, exec_try_catch, exec_bind, error_or_exec.
    destruct (nullish data); simpl exec; reflexivity.
Qed.

(** Marking attendance is followed by the status refresh exactly when it
    was accepted. *)
Theorem handleMarkAttendance_refreshes_exactly_after_success env walletAddress :
  truthy walletAddress = true ->
  let rq := AttendancePanel.request walletAddress (isoNow env) in
  fetches (trace env (AttendancePanel.handleMarkAttendance walletAddress)) =
  rq :: (if accepted env rq
         then [get_request (lit "/api/attendance?walletAddress="
                              ++ ToString walletAddress)]
         else []).
Proof.
  intros Hw rq. unfold accepted, answer.
  unfold trace, run, AttendancePanel.handleMarkAttendance, AttendancePanel.mark,
    mbind, prog_bind.
  remember (AttendancePanel.fetchAttendanceStatus walletAddress) as status.
  rewrite Hw. simpl negb. cbv iota. simpl exec. fold rq.
  destruct (network env 0 rq) as [r|e]; simpl exec; [|reflexivity].
  destruct (json r) as [data|e]; simpl exec; [|by destruct (ok r)].
  destruct (ok r); simpl exec.
  - rewrite exec_finally, exec_try_catch, exec_bind,
      transactionHash_or_placeholder_exec.
    destruct (nullish data); simpl exec; [reflexivity|].
    subst status.
    edestruct fetchAttendanceStatus_requests as (t1 & -> & Hf1).
    simpl exec. cbn [fst negb]. rewrite !fetches_app, Hf1. reflexivity.
  - rewrite exec_finally, exec_try_catch, exec_bind, error_or_exec.
    destruct (nullish data); simpl exec; reflexivity.
Qed.

(** Loading the list of proposals never throws and never leaves the
    spinner on; it replaces the list only with what a 2xx response carries
    ([data.proposals], or the empty list when that is missing), keeps the
    old list on every failure, and tells the user nothing about a
    failure. *)
Theorem fetchProposals_ends_loading_and_keeps_the_list_on_failure env :
  let t := trace env VotingPanel.fetchProposals in
  let rq := get_request (lit "/api/proposals") in
  outcome env VotingPanel.fetchProposals = Returned tt /\
  fetches t = [rq] /\
  (forall init, after init t VotingPanel.IsLoading = JBool false) /\
  quiet_on VotingPanel.Message t /\
  match answer env rq with
  | Some data =>
      if nullish data then quiet_on VotingPanel.Proposals t
      else forall init,
          after init t VotingPanel.Proposals =
          if truthy (field data "proposals") then field data "proposals" else JArr []
  | None => quiet_on VotingPanel.Proposals t
  end.
Proof.
  cbv zeta. unfold answer, trace, outcome, run, VotingPanel.fetchProposals, field.
  rewrite exec_finally, exec_try_catch. simpl.
  destruct (network env _ _) as [r|e]; simpl; [|repeat split; quiet].
  destruct (ok r); simpl; [|repeat split; quiet].
  destruct (json r) as [d|e]; simpl; [|repeat split; quiet].
  unfold prop. destruct d; simpl; repeat split; try quiet.
Qed.

(** Selecting a proposal clears the message and the hash, asks for the
    details of that proposal once, and ends with the server's copy on
    display when the details came back (whatever they are, [null]
    included), and with the clicked entry otherwise. *)
Theorem selectProposal_shows_the_server_copy_or_the_list_entry env (proposal : JsVal) :
  nullish proposal = false ->
  let t := trace env (VotingPanel.selectProposal proposal) in
  let rq := get_request (lit "/api/proposals/" ++ ToString (field proposal "id")) in
  outcome env (VotingPanel.selectProposal proposal) = Returned tt /\
  fetches t = [rq] /\
  forall init,
    after init t VotingPanel.Message = JNull /\
    after init t VotingPanel.TransactionHash = JNull /\
    after init t VotingPanel.SelectedProposal =
      match answer env rq with
      | Some data => data
      | None => proposal
      end.
Proof.
  intros Hp. cbv zeta.
  unfold answer, trace, outcome, run, VotingPanel.selectProposal, field, prop,
    VotingPanel.fetchProposalDetails, mbind, prog_bind.
  assert (exists id, get proposal (lit "id") = inl id) as [id ->]
    by (destruct proposal; simpl; eauto; discriminate).
  simpl.
  destruct (network env _ _) as [r|e]; simpl; [|done].
  destruct (ok r); simpl; [|done].
  destruct (json r) as [d|e]; simpl; done.
Qed.

(** The attendance status and history are refreshed together or not at
    all: both from a 2xx response with a readable body, neither on any
    failure, which is only written to the console. *)
Theorem fetchAttendanceStatus_updates_all_or_nothing env walletAddress :
  let p := AttendancePanel.fetchAttendanceStatus walletAddress in
  let t := trace env p in
  let rq := get_request (lit "/api/attendance?walletAddress=" ++ ToString walletAddress) in
  outcome env p = Returned tt /\
  fetches t = [rq] /\
  quiet_on AttendancePanel.Message t /\
  match answer env rq with
  | Some data =>
      if nullish data then
        quiet_on AttendancePanel.AttendanceStatus t /\
        quiet_on AttendancePanel.AttendanceHistory t
      else forall init,
          after init t AttendancePanel.AttendanceStatus = field data "status" /\
          after init t AttendancePanel.AttendanceHistory =
            if truthy (field data "history") then field data "history" else JArr []
  | None =>
      quiet_on AttendancePanel.AttendanceStatus t /\
      quiet_on AttendancePanel.AttendanceHistory t
  end.
Proof.
  cbv zeta.
  unfold answer, trace, outcome, run, AttendancePanel.fetchAttendanceStatus, field.
  rewrite exec_try_catch. simpl.
  destruct (network env _ _) as [r|e]; simpl; [|repeat split; quiet].
  destruct (ok r); simpl; [|repeat split; quiet].
  destruct (json r) as [d|e]; simpl; [|repeat split; quiet].
  unfold prop. destruct d; simpl; repeat split; try quiet.
Qed.
End Reads.

Lemma handleVote_refreshes_exactly_after_success_witness :
  let posted := {| status := 200; json := Fulfilled (JObj []) |} in
  let env := {| network := fun n _ =>
                  match n with
                  | O => Fulfilled posted
                  | _ => Rejected (JStr (lit "Failed to fetch"))
                  end;
                now := 0; isoNow := [] |} in
  truthy (JStr (lit "ADDR")) = true /\
  List.map url
    (fetches (trace env (@VotingPanel.handleVote ascii_builtins (JStr (lit "ADDR"))
                           (JStr (lit "7")) (JStr (lit "yes")))))
  = [lit "/api/vote"; lit "/api/proposals/7"; lit "/api/proposals"].
Proof.
  cbv zeta. split; [reflexivity|].
  rewrite (@handleVote_refreshes_exactly_after_success ascii_builtins);
    reflexivity.
Defined.

Lemma handleMarkAttendance_refreshes_exactly_after_success_witness :
  let env := {| network := fun _ _ => Fulfilled {| status := 409; json := Fulfilled (JObj []) |};
                now := 0; isoNow := lit "2024-03-01T09:00:00.000Z" |} in
  truthy (JStr (lit "ADDR")) = true /\
  List.map url
    (fetches (trace env (@AttendancePanel.handleMarkAttendance ascii_builtins
                           (JStr (lit "ADDR")))))
  = [lit "/api/attendance"].
Proof.
  cbv zeta. split; [reflexivity|].
  rewrite (@handleMarkAttendance_refreshes_exactly_after_success ascii_builtins);
    reflexivity.
Defined.

Lemma selectProposal_shows_the_server_copy_or_the_list_entry_witness :
  let clicked := JObj [(lit "id", JStr (lit "7")); (lit "title", JStr (lit "Old title"))] in
  let env := {| network := fun _ _ => Rejected (JStr (lit "Failed to fetch"));
                now := 0; isoNow := [] |} in
  nullish clicked = false /\
  after (fun _ => JNull) (trace env (@VotingPanel.selectProposal ascii_builtins clicked))
    VotingPanel.SelectedProposal = clicked.
Proof.
  cbv zeta. split; [reflexivity|].
  apply (@selectProposal_shows_the_server_copy_or_the_list_entry ascii_builtins
           {| network := fun _ _ => Rejected (JStr (lit "Failed to fetch"));
              now := 0; isoNow := [] |}
           (JObj [(lit "id", JStr (lit "7")); (lit "title", JStr (lit "Old title"))])).
  reflexivity.
Defined.

(** ** Busy flags and certificate verification *)

Section Busy.
Context `{Builtins}.
Implicit Types (env : Env) (data walletAddress proposalId vote : JsVal).

Ltac lowered Hrun :=
  unfold trace; rewrite Hrun; cbn [fst];
  unfold after; rewrite !last_set_app; reflexivity.

(** Whatever the network does, and whether or not a guard stops the
    handler, a busy flag that was down before the handler ran is down
    after it. *)
Theorem busy_flags_end_down env walletAddress proposalId vote certificateId :
  (forall init, init VotingPanel.IsVoting = JBool false ->
     after init (trace env (VotingPanel.handleVote walletAddress proposalId vote))
       VotingPanel.IsVoting = JBool false) /\
  (forall init, init AttendancePanel.IsMarking = JBool false ->
     after init (trace env (AttendancePanel.handleMarkAttendance walletAddress))
       AttendancePanel.IsMarking = JBool false) /\
  (forall init, init CertificatePanel.IsVerifying = JBool false ->
     after init (trace env (CertificatePanel.handleVerify certificateId))
       CertificatePanel.IsVerifying = JBool false).
Proof.
  split; [|split]; intros init Hinit.
  - destruct (truthy walletAddress) eqn:Hw.
    + destruct (handleVote_run env walletAddress proposalId vote Hw)
        as (mid & Hrun & _). lowered Hrun.
    + unfold trace, run, VotingPanel.handleVote. rewrite Hw. exact Hinit.
  - destruct (truthy walletAddress) eqn:Hw.
    + destruct (handleMarkAttendance_run env walletAddress Hw)
        as (mid & Hrun & _). lowered Hrun.
    + unfold trace, run, AttendancePanel.handleMarkAttendance. rewrite Hw. exact Hinit.
  - destruct (trim certificateId) as [|c s] eqn:Hid.
    + unfold trace, run, CertificatePanel.handleVerify. rewrite Hid. exact Hinit.
    + assert (trim certificateId <> []) as Hne by (rewrite Hid; done).
      destruct (handleVerify_run env certificateId Hne) as (mid & Hrun & _).
      lowered Hrun.
Qed.

(** Certificate details are on display after [handleVerify] exactly when
    the id was not blank and a 2xx response said [valid]; then they are
    [data.certificate] under the success message. In every other case the
    details are [null] and the message is an error. A blank id (empty or
    only whitespace) sends nothing. *)
Theorem handleVerify_shows_details_only_for_valid_certificates env certificateId :
  let t := trace env (CertificatePanel.handleVerify certificateId) in
  let rq := CertificatePanel.request certificateId in
  let verified :=
    match trim certificateId, answer env rq with
    | _ :: _, Some data => if nullish data then None
                           else if truthy (field data "valid") then Some data else None
    | _, _ => None
    end in
  fetches t = (match trim certificateId with [] => [] | _ => [rq] end) /\
  forall init,
    match verified with
    | Some data =>
        after init t CertificatePanel.CertificateDetails = field data "certificate" /\
        after init t CertificatePanel.Message =
          message_of "success" (JStr (lit "Certificate verified successfully!"))
    | None =>
        after init t CertificatePanel.CertificateDetails = JNull /\
        exists text,
          after init t CertificatePanel.Message = message_of "error" text
    end.
Proof.
  cbv zeta. destruct (trim certificateId) as [|c s] eqn:Hid.
  - unfold trace, run, CertificatePanel.handleVerify. rewrite Hid.
    split; [reflexivity|]. intros init. split; [reflexivity|]. eexists. reflexivity.
  - assert (trim certificateId <> []) as Hne by (rewrite Hid; done).
    destruct (handleVerify_run env certificateId Hne) as (mid & Hrun & Hmid).
    cbv zeta in Hmid. unfold answer, trace. rewrite Hrun. cbn [fst].
    assert (fetches mid = []) as Hf by (repeat case_match; by subst).
    split; [by rewrite !fetches_app, Hf|]. intros init.
    repeat case_match; simplify_eq; try congruence; simpl;
      (split; [reflexivity|]); first [reflexivity | eexists; reflexivity].
Qed.
End Busy.

Lemma busy_flags_end_down_witness :
  let env := {| network := fun _ _ => Rejected (JStr (lit "Failed to fetch"));
                now := 0; isoNow := [] |} in
  let init : VotingPanel.Cell -> JsVal := fun c => JBool false in
  init VotingPanel.IsVoting = JBool false /\
  after init (trace env (@VotingPanel.handleVote ascii_builtins (JStr (lit "ADDR"))
                           (JStr (lit "7")) (JStr (lit "no"))))
    VotingPanel.IsVoting = JBool false.
Proof.
  cbv zeta. split; [reflexivity|].
  apply (@busy_flags_end_down ascii_builtins
           {| network := fun _ _ => Rejected (JStr (lit "Failed to fetch"));
              now := 0; isoNow := [] |}
           (JStr (lit "ADDR")) (JStr (lit "7")) (JStr (lit "no")) []).
  reflexivity.
Defined.

(** ** AnalyticsDashboard *)

Section Analytics.
Import AnalyticsDashboard.

(** [fetchAnalytics] never throws and never leaves the spinner on, and it
    always leaves analytics to draw: the body of a 2xx response when it
    could be read, and the mock data in every other case (a failing
    status, a rejected fetch, a body that is not JSON). *)
Theorem fetchAnalytics_falls_back_to_the_mock_data env :
  let t := trace env fetchAnalytics in
  outcome env fetchAnalytics = Returned tt /\
  fetches t = [request] /\
  forall init,
    after init t IsLoading = JBool false /\
    after init t Analytics =
      match answer env request with
      | Some data => data
      | None => getMockAnalytics
      end.
Proof.
  cbv zeta. unfold answer, trace, outcome, run, fetchAnalytics.
  rewrite exec_finally, exec_try_catch. simpl.
  destruct (network env _ _) as [r|e]; simpl; [|done].
  destruct (ok r); simpl; [|done].
  destruct (json r) as [d|e]; simpl; done.
Qed.
End Analytics.

(** ** ProposalForm: the button comes back *)

Section Reenabled.
Import ProposalForm.

(** In every state the mounted form can reach, once no invocation of
    [handleSubmit] is in progress the submitting flag is down, so the
    submit button is enabled again whenever a wallet is connected. *)
Theorem submit_button_is_enabled_again_after_the_request w cfg :
  rtc step (mounted w) cfg ->
  suspended cfg = [] ->
  truthy (cells cfg IsSubmitting) = false /\
  submitDisabled (cells cfg) (wallet cfg) = negb (truthy (wallet cfg)).
Proof.
  intros Hreach Hidle. pose proof (reachable_invariant w cfg Hreach) as Hinv.
  rewrite Hidle in Hinv. unfold submitDisabled. by rewrite Hinv.
Qed.
End Reenabled.

Lemma submit_button_is_enabled_again_after_the_request_witness :
  let cfg := {| ProposalForm.cells :=
                  upd ProposalForm.initial ProposalForm.Title (JStr (lit "Hi"));
                ProposalForm.wallet := JStr (lit "ADDR");
                ProposalForm.suspended := [] |} in
  (rtc ProposalForm.step (ProposalForm.mounted (JStr (lit "ADDR"))) cfg /\
   ProposalForm.suspended cfg = []) /\
  ProposalForm.submitDisabled (ProposalForm.cells cfg) (ProposalForm.wallet cfg) = false.
Proof.
  cbv zeta.
  assert (rtc ProposalForm.step (ProposalForm.mounted (JStr (lit "ADDR")))
            {| ProposalForm.cells :=
                 upd ProposalForm.initial ProposalForm.Title (JStr (lit "Hi"));
               ProposalForm.wallet := JStr (lit "ADDR");
               ProposalForm.suspended := [] |}) as Hreach.
  { eapply rtc_l; [apply ProposalForm.typed_title with (s := lit "Hi")|].
    apply rtc_refl. }
  split; [split; [exact Hreach | reflexivity]|].
  destruct (submit_button_is_enabled_again_after_the_request _ _ Hreach eq_refl)
    as [_ Hen].
  exact Hen.
Defined.

(* ===================================================================== *)
(** * The panels as transition systems *)
(* ===================================================================== *)

(** ** Busy flags through one turn of the event loop *)

Section FlagLemmas.
Context {V : Type} `{EqDecision V}.
Variable flag : V.

Lemma flag_upd (st : V -> JsVal) v x :
  upd st v x flag = if decide (v = flag) then x else st flag.
Proof. unfold upd. destruct (decide (flag = v)), (decide (v = flag)); congruence. Qed.

Lemma sync_bracketed clock iso (p : Prog V unit) :
  forall st,
    bracketed flag (truthy (st flag)) p ->
    let '(st', p') := sync clock iso st p in
    if awaiting p'
    then truthy (st' flag) = true /\ bracketed flag true p'
    else truthy (st' flag) = false.
Proof.
  induction p as [a|e|c k IH]; intros st Hok; simpl in *; try exact Hok.
  destruct c; simpl in *.
  - apply IH. rewrite flag_upd. by destruct (decide (v = flag)).
  - destruct Hok as [Hb Hk]. rewrite Hb in *. done.
  - destruct Hok as [Hb Hk]. rewrite Hb in *. done.
  - apply IH, Hok.
  - apply IH, Hok.
  - apply IH, Hok.
  - apply IH, Hok.
Qed.

Lemma sync_untouched {A} clock iso (p : Prog V A) :
  forall st,
    untouched flag p ->
    let '(st', p') := sync clock iso st p in
    st' flag = st flag /\ untouched flag p'.
Proof.
  induction p as [a|e|c k IH]; intros st Hok; simpl in *; try done.
  destruct c as [v x|r|r| | |xs|]; simpl in *; try done.
  - destruct Hok as [Hv Hk]. specialize (IH tt (upd st v x) Hk).
    destruct (sync _ _ _ _) as [st' p']. rewrite flag_upd in IH.
    by destruct (decide (v = flag)).
  - apply IH, Hok.
  - apply IH, Hok.
  - apply IH, Hok.
  - apply IH, Hok.
Qed.

Lemma bracketed_resumed c (k : Res c -> Prog V unit) x :
  is_await c = true -> bracketed flag true (Do c k) -> bracketed flag true (k x).
Proof. destruct c; simpl; try discriminate; intros _ [_ Hk]; apply Hk. Qed.

Lemma untouched_resumed {A} c (k : Res c -> Prog V A) x :
  is_await c = true -> untouched flag (Do c k) -> untouched flag (k x).
Proof. destruct c; simpl; try discriminate; intros _ Hk; apply Hk. Qed.

Lemma untouched_pending (p : Prog V unit) :
  untouched flag p -> Forall (untouched flag) (pending p).
Proof. intros Hp. unfold pending. destruct (awaiting p); by repeat constructor. Qed.
End FlagLemmas.

(** Follows every path of a handler. *)
Ltac walk :=
  repeat first
    [ reflexivity
    | done
    | progress simpl
    | split
    | intros [?|?]
    | intro
    | case_match ].

(** ** VotingPanel: one vote at a time *)

Section OneVote.
Context `{Builtins}.
Import VotingPanel.

Lemma fetchProposals_untouched : untouched IsVoting fetchProposals.
Proof. unfold fetchProposals, prop. walk. Qed.

Lemma fetchProposalDetails_untouched proposalId :
  untouched IsVoting (fetchProposalDetails proposalId).
Proof. unfold fetchProposalDetails. walk. Qed.

Lemma selectProposal_untouched proposal :
  untouched IsVoting (selectProposal proposal).
Proof. unfold selectProposal, fetchProposalDetails, prop. walk. Qed.

Lemma handleVote_bracketed walletAddress proposalId vote :
  bracketed IsVoting false (handleVote walletAddress proposalId vote).
Proof.
  unfold handleVote, cast, fetchProposalDetails, fetchProposals,
    transactionHash_or_placeholder, error_or, prop.
  walk.
Qed.


Lemma voting_step_invariant s s' :
  step s s' -> invariant s -> invariant s'.
Proof.
  intros Hstep [Hread Hvote].
  destruct Hstep as [s w|s proposal clock iso st p Hsync
                    |s proposalId vote clock iso st p Hen Hsync
                    |s before c k rest x clock iso st p Hsusp Hc Hsync
                    |s before c k rest x clock iso st p Hsusp Hc Hsync];
    split; simpl.
  - exact Hread.
  - exact Hvote.
  - pose proof (sync_untouched IsVoting clock iso (selectProposal proposal) (cells s)
                  (selectProposal_untouched proposal)) as Hs.
    rewrite Hsync in Hs. apply Forall_app. split; [exact Hread|].
    apply untouched_pending, Hs.
  - pose proof (sync_untouched IsVoting clock iso (selectProposal proposal) (cells s)
                  (selectProposal_untouched proposal)) as Hs.
    rewrite Hsync in Hs. destruct Hs as [-> _]. exact Hvote.
  - exact Hread.
  - unfold voteDisabled in Hen. apply orb_false_iff in Hen as [Hflag _].
    destruct (voting s) as [|q [|q' l]]; [|destruct Hvote; congruence|done].
    pose proof (sync_bracketed IsVoting clock iso
                  (handleVote (wallet s) proposalId vote) (cells s)) as Hs.
    rewrite Hflag, Hsync in Hs. specialize (Hs (handleVote_bracketed _ _ _)).
    unfold pending. simpl. destruct (awaiting p) eqn:Hp; [|exact Hs].
    destruct Hs; done.
  - exact Hread.
  - rewrite Hsusp in Hvote.
    destruct before as [|q before]; simpl in Hvote;
      [|destruct before; simpl in Hvote; [done | destruct Hvote]].
    destruct rest as [|q rest]; [|done].
    destruct Hvote as (Hflag & _ & Hk).
    pose proof (sync_bracketed IsVoting clock iso (k x) (cells s)) as Hs.
    rewrite Hflag, Hsync in Hs.
    specialize (Hs (bracketed_resumed IsVoting c k x Hc Hk)).
    unfold pending. simpl. destruct (awaiting p) eqn:Hp; [|exact Hs].
    destruct Hs; done.
  - rewrite Hsusp in Hread. apply Forall_app in Hread as [Hb Hr].
    apply Forall_cons in Hr as [Hq Hr].
    pose proof (sync_untouched IsVoting clock iso (k x) (cells s)
                  (untouched_resumed IsVoting c k x Hc Hq)) as Hs.
    rewrite Hsync in Hs.
    apply Forall_app. split; [exact Hb|]. apply Forall_app. split; [|exact Hr].
    apply untouched_pending, Hs.
  - rewrite Hsusp in Hread. apply Forall_app in Hread as [Hb Hr].
    apply Forall_cons in Hr as [Hq Hr].
    pose proof (sync_untouched IsVoting clock iso (k x) (cells s)
                  (untouched_resumed IsVoting c k x Hc Hq)) as Hs.
    rewrite Hsync in Hs. destruct Hs as [-> _]. exact Hvote.
Qed.

Lemma voting_mounted_invariant w : invariant (mounted w).
Proof.
  unfold mounted.
  pose proof (sync_untouched IsVoting 0 [] fetchProposals initial
                fetchProposals_untouched) as Hs.
  destruct (sync 0 [] initial fetchProposals) as [st p].
  destruct Hs as [Hflag Hp]. split; simpl.
  - apply untouched_pending, Hp.
  - by rewrite Hflag.
Qed.

Lemma voting_reachable_invariant w s :
  rtc step (mounted w) s -> invariant s.
Proof.
  revert s. apply rtc_ind_r.
  - apply voting_mounted_invariant.
  - intros s s' _ Hstep Hinv. eapply voting_step_invariant; eassumption.
Qed.

(** In every state the mounted voting panel can reach, whatever lists are
    being loaded and proposals selected meanwhile: at most one invocation of
    [handleVote] is in progress, hence at most one vote request is on the
    wire; the voting flag is up exactly while there is one; and both vote
    buttons are then disabled and are enabled again afterwards whenever a
    wallet is connected. *)
Theorem one_vote_at_a_time w s :
  rtc step (mounted w) s ->
  (length (voting s) <= 1)%nat /\
  (length (List.filter in_flight (voting s)) <= 1)%nat /\
  (truthy (cells s IsVoting) = true <-> voting s <> []) /\
  voteDisabled (wallet s) (cells s) =
    (if voting s is [] then negb (truthy (wallet s)) else true).
Proof.
  intros Hreach. destruct (voting_reachable_invariant w s Hreach) as [_ Hinv].
  unfold voteDisabled.
  destruct (voting s) as [|q [|q' l]]; [| |done].
  - rewrite Hinv. repeat split; simpl; try lia; done.
  - destruct Hinv as (Hflag & _). rewrite Hflag.
    repeat split; simpl; try done; try lia.
    destruct (in_flight q); simpl; lia.
Qed.
End OneVote.

(** ** AttendancePanel: one mark at a time *)

Section OneMark.
Context `{Builtins}.
Import AttendancePanel.

Lemma fetchAttendanceStatus_untouched walletAddress :
  untouched IsMarking (fetchAttendanceStatus walletAddress).
Proof. unfold fetchAttendanceStatus, prop. walk. Qed.

Lemma handleMarkAttendance_bracketed walletAddress :
  bracketed IsMarking false (handleMarkAttendance walletAddress).
Proof.
  unfold handleMarkAttendance, mark, fetchAttendanceStatus,
    transactionHash_or_placeholder, error_or, prop.
  walk.
Qed.


Lemma effect_untouched w st :
  fst (effect w st) IsMarking = st IsMarking /\
  Forall (untouched IsMarking) (snd (effect w st)).
Proof.
  unfold effect. destruct (truthy w); [|by split].
  pose proof (sync_untouched IsMarking 0 [] (fetchAttendanceStatus w) st
                (fetchAttendanceStatus_untouched w)) as Hs.
  destruct (sync 0 [] st (fetchAttendanceStatus w)) as [st' p].
  destruct Hs as [Hflag Hp]. split; [exact Hflag|]. apply untouched_pending, Hp.
Qed.

Lemma marking_step_invariant s s' :
  step s s' -> invariant s -> invariant s'.
Proof.
  intros Hstep [Hread Hmark].
  destruct Hstep as [s w
                    |s clock iso st p Hen Hsync
                    |s before c k rest x clock iso st p Hsusp Hc Hsync
                    |s before c k rest x clock iso st p Hsusp Hc Hsync];
    split; simpl.
  - apply Forall_app. split; [exact Hread | apply effect_untouched].
  - destruct (effect_untouched w (cells s)) as [-> _]. exact Hmark.
  - exact Hread.
  - unfold markDisabled in Hen. apply orb_false_iff in Hen as [Hflag _].
    destruct (marking s) as [|q [|q' l]]; [|destruct Hmark; congruence|done].
    pose proof (sync_bracketed IsMarking clock iso
                  (handleMarkAttendance (wallet s)) (cells s)) as Hs.
    rewrite Hflag, Hsync in Hs. specialize (Hs (handleMarkAttendance_bracketed _)).
    unfold pending. simpl. destruct (awaiting p) eqn:Hp; [|exact Hs].
    destruct Hs; done.
  - exact Hread.
  - rewrite Hsusp in Hmark.
    destruct before as [|q before]; simpl in Hmark;
      [|destruct before; simpl in Hmark; [done | destruct Hmark]].
    destruct rest as [|q rest]; [|done].
    destruct Hmark as (Hflag & _ & Hk).
    pose proof (sync_bracketed IsMarking clock iso (k x) (cells s)) as Hs.
    rewrite Hflag, Hsync in Hs.
    specialize (Hs (bracketed_resumed IsMarking c k x Hc Hk)).
    unfold pending. simpl. destruct (awaiting p) eqn:Hp; [|exact Hs].
    destruct Hs; done.
  - rewrite Hsusp in Hread. apply Forall_app in Hread as [Hb Hr].
    apply Forall_cons in Hr as [Hq Hr].
    pose proof (sync_untouched IsMarking clock iso (k x) (cells s)
                  (untouched_resumed IsMarking c k x Hc Hq)) as Hs.
    rewrite Hsync in Hs.
    apply Forall_app. split; [exact Hb|]. apply Forall_app. split; [|exact Hr].
    apply untouched_pending, Hs.
  - rewrite Hsusp in Hread. apply Forall_app in Hread as [Hb Hr].
    apply Forall_cons in Hr as [Hq Hr].
    pose proof (sync_untouched IsMarking clock iso (k x) (cells s)
                  (untouched_resumed IsMarking c k x Hc Hq)) as Hs.
    rewrite Hsync in Hs. destruct Hs as [-> _]. exact Hmark.
Qed.

Lemma marking_reachable_invariant w s :
  rtc step (mounted w) s -> invariant s.
Proof.
  revert s. apply rtc_ind_r.
  - unfold mounted. destruct (effect_untouched w initial) as [Hflag Hp].
    split; simpl; [exact Hp | by rewrite Hflag].
  - intros s s' _ Hstep Hinv. eapply marking_step_invariant; eassumption.
Qed.

(** In every state the mounted attendance panel can reach, whatever the
    wallet does and whatever status reads are under way: at most one
    invocation of [handleMarkAttendance] is in progress, hence at most one
    attendance request is on the wire; the marking flag is up exactly while
    there is one; and the button is then disabled and is enabled again
    afterwards whenever a wallet is connected. *)
Theorem one_attendance_mark_at_a_time w s :
  rtc step (mounted w) s ->
  (length (marking s) <= 1)%nat /\
  (length (List.filter in_flight (marking s)) <= 1)%nat /\
  (truthy (cells s IsMarking) = true <-> marking s <> []) /\
  markDisabled (wallet s) (cells s) =
    (if marking s is [] then negb (truthy (wallet s)) else true).
Proof.
  intros Hreach. destruct (marking_reachable_invariant w s Hreach) as [_ Hinv].
  unfold markDisabled.
  destruct (marking s) as [|q [|q' l]]; [| |done].
  - rewrite Hinv. repeat split; simpl; try lia; done.
  - destruct Hinv as (Hflag & _). rewrite Hflag.
    repeat split; simpl; try done; try lia.
    destruct (in_flight q); simpl; lia.
Qed.
End OneMark.

Lemma one_vote_at_a_time_witness :
  exists s,
    rtc (@VotingPanel.step ascii_builtins)
      (VotingPanel.mounted (JStr (lit "ADDR"))) s /\
    length (VotingPanel.voting s) = 1%nat /\
    VotingPanel.voteDisabled (VotingPanel.wallet s) (VotingPanel.cells s) = true.
Proof.
  assert (exists s,
    rtc (@VotingPanel.step ascii_builtins)
      (VotingPanel.mounted (JStr (lit "ADDR"))) s /\
    length (VotingPanel.voting s) = 1%nat) as (s & Hreach & Hone).
  { eexists. split.
    - eapply rtc_l; [|apply rtc_refl].
      eapply (@VotingPanel.voted ascii_builtins) with
        (clock := 0) (iso := []) (proposalId := JStr (lit "7"))
        (vote := JStr (lit "yes")); reflexivity.
    - reflexivity. }
  exists s. split; [exact Hreach|]. split; [exact Hone|].
  destruct (@one_vote_at_a_time ascii_builtins _ _ Hreach) as (_ & _ & _ & Hdis).
  rewrite Hdis. destruct (VotingPanel.voting s); [discriminate | reflexivity].
Defined.

Lemma one_attendance_mark_at_a_time_witness :
  exists s,
    rtc (@AttendancePanel.step ascii_builtins)
      (@AttendancePanel.mounted ascii_builtins (JStr (lit "ADDR"))) s /\
    length (AttendancePanel.marking s) = 1%nat /\
    AttendancePanel.markDisabled (AttendancePanel.wallet s) (AttendancePanel.cells s)
      = true.
Proof.
  assert (exists s,
    rtc (@AttendancePanel.step ascii_builtins)
      (@AttendancePanel.mounted ascii_builtins (JStr (lit "ADDR"))) s /\
    length (AttendancePanel.marking s) = 1%nat) as (s & Hreach & Hone).
  { eexists. split.
    - eapply rtc_l; [|apply rtc_refl].
      eapply (@AttendancePanel.marked ascii_builtins) with (clock := 0) (iso := []);
        reflexivity.
    - reflexivity. }
  exists s. split; [exact Hreach|]. split; [exact Hone|].
  destruct (@one_attendance_mark_at_a_time ascii_builtins _ _ Hreach)
    as (_ & _ & _ & Hdis).
  rewrite Hdis. destruct (AttendancePanel.marking s); [discriminate | reflexivity].
Defined.

(* ===================================================================== *)
(** * Further properties of the vanilla application *)
(* ===================================================================== *)

Section Votes.
Context `{Builtins}.
Import App App.BlockchainService App.Components.

(** [find] looks at the ids of the objects only. *)
Lemma find_ids h h' ps wanted :
  (forall l, id <$> h' !! l = id <$> h !! l) ->
  find h' ps wanted = find h ps wanted.
Proof.
  intros Hids. induction ps as [|l ps IH]; simpl; [done|].
  specialize (Hids l).
  destruct (h !! l) as [p|], (h' !! l) as [p'|]; simpl in Hids; simplify_eq;
    rewrite ?Hids, IH; done.
Qed.

Lemma submitVote_heap generated date proposalId vote w :
  heap (fst (BlockchainService.submitVote generated date proposalId vote w)) =
  if isConnected (user w) then
    match find (heap w) (proposals w) proposalId with
    | Some l => alter (counted vote) l (heap w)
    | None => heap w
    end
  else heap w.
Proof.
  unfold BlockchainService.submitVote, counted.
  destruct (isConnected (user w)); simpl; [|done].
  destruct (find _ _ _); [|done].
  destruct (jsstring_eqb vote (lit "yes")); reflexivity.
Qed.

Lemma submitVote_frame generated date proposalId vote w :
  let w' := fst (BlockchainService.submitVote generated date proposalId vote w) in
  proposals w' = proposals w /\ activeProposalId w' = activeProposalId w /\
  address (user w') = address (user w) /\
  isConnected (user w') = isConnected (user w) /\
  tokenBalance (user w') = tokenBalance (user w).
Proof.
  cbv zeta. unfold BlockchainService.submitVote.
  destruct (isConnected (user w)) eqn:Hconn; simpl; [|done].
  destruct (find _ _ _); [|done].
  destruct (jsstring_eqb vote (lit "yes")); done.
Qed.

(** Object by object: nothing appears or disappears, only tallies change,
    and they change upwards by at most one vote in all. *)
Lemma submitVote_objects generated date proposalId vote w l :
  let w' := fst (BlockchainService.submitVote generated date proposalId vote w) in
  match heap w !! l, heap w' !! l with
  | Some p, Some p' =>
      p' = with_votesNo (votesNo p') (with_votesYes (votesYes p') p) /\
      votesYes p <= votesYes p' /\ votesNo p <= votesNo p' /\
      votesYes p' + votesNo p' <= votesYes p + votesNo p + 1
  | None, None => True
  | _, _ => False
  end.
Proof.
  cbv zeta. rewrite submitVote_heap.
  assert (match heap w !! l, heap w !! l with
          | Some p, Some p' =>
              p' = with_votesNo (votesNo p') (with_votesYes (votesYes p') p) /\
              votesYes p <= votesYes p' /\ votesNo p <= votesNo p' /\
              votesYes p' + votesNo p' <= votesYes p + votesNo p + 1
          | None, None => True
          | _, _ => False
          end) as Hsame.
  { destruct (heap w !! l) as [[]|]; [|done]. simpl. repeat split; lia. }
  destruct (isConnected (user w)); [|exact Hsame].
  destruct (find _ _ _) as [l1|]; [|exact Hsame].
  destruct (decide (l = l1)) as [->|Hne].
  - rewrite lookup_alter_eq. destruct (heap w !! l1) as [[]|]; [|done].
    unfold counted. destruct (jsstring_eqb _ _); simpl; repeat split; lia.
  - rewrite lookup_alter_ne by done. exact Hsame.
Qed.

Lemma submitVote_find generated date proposalId vote w wanted :
  let w' := fst (BlockchainService.submitVote generated date proposalId vote w) in
  find (heap w') (proposals w') wanted = find (heap w) (proposals w) wanted.
Proof.
  cbv zeta.
  destruct (submitVote_frame generated date proposalId vote w) as (-> & _).
  apply find_ids. intros l.
  pose proof (submitVote_objects generated date proposalId vote w l) as Hl.
  cbv zeta in Hl.
  destruct (heap w !! l) as [p|], (heap _ !! l) as [p'|]; try done.
  destruct Hl as [-> _]. reflexivity.
Qed.

Lemma submitVote_transactions generated date proposalId vote w :
  isConnected (user w) = true ->
  let w' := fst (BlockchainService.submitVote generated date proposalId vote w) in
  transactions (user w') =
    {| type := lit "Vote"; target := lit "Proposal #" ++ decimal proposalId;
       hash := lit "TX" ++ toUpperCase generated; timestamp := date |}
    :: transactions (user w) /\
  toasts w' = toasts w ++ [(lit "Vote Confirmed On-Chain!", lit "success")].
Proof.
  intros Hconn. cbv zeta. unfold BlockchainService.submitVote. rewrite Hconn. simpl.
  destruct (find _ _ _); [|done].
  destruct (jsstring_eqb vote (lit "yes")); done.
Qed.

(** Whatever the arguments and whether or not a wallet is connected,
    [submitVote] keeps the array of proposals, the selected proposal and the
    connection as they were; every id still finds the proposal it found
    before; no object appears or disappears; and an object differs from its
    old self in its tallies at most, which never go down and grow by at most
    one vote in all. *)
Theorem submitVote_keeps_the_proposals_and_never_lowers_a_tally
    (generated : jsstring) (date proposalId : Z) (vote : jsstring) (w : World) :
  let w' := fst (BlockchainService.submitVote generated date proposalId vote w) in
  proposals w' = proposals w /\
  activeProposalId w' = activeProposalId w /\
  address (user w') = address (user w) /\
  isConnected (user w') = isConnected (user w) /\
  (forall wanted,
     find (heap w') (proposals w') wanted = find (heap w) (proposals w) wanted) /\
  (forall l,
     match heap w !! l, heap w' !! l with
     | Some p, Some p' =>
         p' = with_votesNo (votesNo p') (with_votesYes (votesYes p') p) /\
         votesYes p <= votesYes p' /\ votesNo p <= votesNo p' /\
         votesYes p' + votesNo p' <= votesYes p + votesNo p + 1
     | None, None => True
     | _, _ => False
     end).
Proof.
  cbv zeta.
  destruct (submitVote_frame generated date proposalId vote w)
    as (Hps & Hactive & Haddr & Hconn & _).
  repeat split; try assumption.
  - intros wanted. apply submitVote_find.
  - intros l. apply submitVote_objects.
Qed.

(** Any number of votes by one connected user on one proposal are all
    counted: after the calls the first proposal carrying the id has its
    [votesYes] raised by the number of 'yes' ballots and its [votesNo] by the
    number of the others, every other object is as before, each call has
    logged one transaction and shown one toast, and [ProposalDetail] shows
    the old total plus the number of ballots. With no proposal carrying the
    id the objects stay as they were, and the transactions are logged all
    the same. *)
Theorem repeated_votes_add_up
    (proposalId : Z) (ballots : list (jsstring * jsstring * Z)) (w : World) :
  isConnected (user w) = true ->
  let w' := submitVotes proposalId ballots w in
  let n := Z.of_nat (length ballots) in
  let yes := Z.of_nat (length (List.filter is_yes ballots)) in
  proposals w' = proposals w /\
  length (transactions (user w')) =
    (length (transactions (user w)) + length ballots)%nat /\
  length (toasts w') = (length (toasts w) + length ballots)%nat /\
  match find (heap w) (proposals w) proposalId with
  | Some l =>
      exists p p',
        heap w !! l = Some p /\ heap w' !! l = Some p' /\
        votesYes p' = votesYes p + yes /\
        votesNo p' = votesNo p + (n - yes) /\
        (forall l', l' <> l -> heap w' !! l' = heap w !! l') /\
        (activeProposalId w = Some proposalId ->
         Components.ProposalDetail w' =
           Components.Detail (votesYes p + votesNo p + n)
             (Components.yesPercent p') (Components.noPercent p'))
  | None => heap w' = heap w
  end.
Proof.
  revert w. induction ballots as [|[[vote generated] date] ballots IH];
    intros w Hconn; cbn zeta.
  - simpl. split; [done|]. split; [lia|]. split; [lia|].
    destruct (find _ _ _) as [l|] eqn:Hfind; [|done].
    destruct (find_Some _ _ _ _ Hfind) as (_ & _ & p & _ & Hp & _).
    exists p, p. repeat split; try done; try lia.
    intros Hactive. unfold Components.ProposalDetail. rewrite Hactive. simpl.
    rewrite Hfind. simpl. rewrite Hp. f_equal. lia.
  - destruct (submitVote_frame generated date proposalId vote w)
      as (Hps & Hactive & _ & Hconn1 & _).
    pose proof (submitVote_find generated date proposalId vote w proposalId)
      as Hfind1. cbv zeta in Hfind1.
    pose proof (submitVote_transactions generated date proposalId vote w Hconn)
      as [Htx Htoast].
    pose proof (submitVote_heap generated date proposalId vote w) as Hheap.
    rewrite Hconn in Hheap, Hconn1.
    specialize (IH _ Hconn1). cbv zeta in IH.
    destruct IH as (IHps & IHtx & IHtoast & IHheap).
    simpl submitVotes.
    remember (fst (BlockchainService.submitVote generated date proposalId vote w))
      as w1 eqn:Hw1.
    remember (submitVotes proposalId ballots w1) as w' eqn:Hw'.
    split; [congruence|].
    split. { rewrite IHtx, Htx. simpl. lia. }
    split. { rewrite IHtoast, Htoast, length_app. simpl. lia. }
    rewrite Hfind1 in IHheap.
    destruct (find (heap w) (proposals w) proposalId) as [l|] eqn:Hfind;
      [|congruence].
    destruct IHheap as (p1 & p' & Hp1 & Hp' & Hyes & Hno & Hother & Hdetail).
    destruct (find_Some _ _ _ _ Hfind) as (_ & _ & p & _ & Hp & _).
    rewrite Hheap, lookup_alter_eq, Hp in Hp1. simpl in Hp1.
    injection Hp1 as <-.
    exists p, p'. split; [done|]. split; [done|].
    assert (votesYes p' = votesYes p + Z.of_nat (length (List.filter is_yes
              ((vote, generated, date) :: ballots))) /\
            votesNo p' = votesNo p + (Z.of_nat (length ((vote, generated, date) :: ballots))
              - Z.of_nat (length (List.filter is_yes ((vote, generated, date) :: ballots)))))
      as [Hy Hn].
    { assert (is_yes (vote, generated, date) = jsstring_eqb vote (lit "yes"))
        as Hballot by reflexivity.
      simpl List.filter. rewrite Hballot. unfold counted in Hyes, Hno.
      destruct (jsstring_eqb vote (lit "yes"));
        cbn [length votesYes votesNo with_votesYes with_votesNo] in *;
        rewrite ?Nat2Z.inj_succ; lia. }
    split; [exact Hy|]. split; [exact Hn|].
    split.
    { intros l' Hne. rewrite Hother, Hheap by done. by rewrite lookup_alter_ne. }
    intros Hact. rewrite Hdetail by congruence. f_equal.
    unfold counted. destruct (jsstring_eqb vote (lit "yes"));
      cbn [length votesYes votesNo with_votesYes with_votesNo];
      rewrite ?Nat2Z.inj_succ; lia.
Qed.

(** A call of [submitVote] changes nothing of what [Dashboard] shows: the
    number of active proposals, the voting power and the trending proposal
    are what they were. *)
Theorem a_vote_leaves_the_dashboard_as_it_was
    (generated : jsstring) (date proposalId : Z) (vote : jsstring) (w : World) :
  Dashboard (fst (BlockchainService.submitVote generated date proposalId vote w))
  = Dashboard w.
Proof.
  destruct (submitVote_frame generated date proposalId vote w)
    as (Hps & _ & _ & _ & Hbalance).
  pose proof (submitVote_objects generated date proposalId vote w) as Hobj.
  cbv zeta in Hobj.
  remember (fst (BlockchainService.submitVote generated date proposalId vote w))
    as w' eqn:Hw'.
  assert (length (activeProposals w') = length (activeProposals w) /\
          (fun p => (title p, description p, id p)) <$> head (activeProposals w') =
          (fun p => (title p, description p, id p)) <$> head (activeProposals w))
    as [Hcount Hhead].
  { unfold activeProposals. rewrite Hps. clear Hps.
    induction (proposals w) as [|l ps IH]; [done|]. simpl.
    specialize (Hobj l).
    destruct (heap w !! l) as [p|], (heap w' !! l) as [p'|]; try done.
    destruct Hobj as [-> _]. simpl.
    destruct (jsstring_eqb (status p) (lit "Active")); [|exact IH].
    simpl. split; [|done]. f_equal. apply IH. }
  unfold Dashboard. rewrite Hcount, Hhead, Hbalance. reflexivity.
Qed.
End Votes.

Lemma repeated_votes_add_up_witness :
  let ballots := [(lit "yes", lit "k3x9q2m1z", 1700000000000);
                  (lit "no", lit "a7c1e9g3i", 1700000004000);
                  (lit "yes", lit "p0o9i8u7y", 1700000008000)] in
  App.isConnected (App.user Mock.world) = true /\
  length (App.transactions (App.user
            (@App.BlockchainService.submitVotes ascii_builtins 1041 ballots Mock.world))) = 3%nat.
Proof.
  cbv zeta. split; [reflexivity|].
  destruct (@repeated_votes_add_up ascii_builtins 1041
              [(lit "yes", lit "k3x9q2m1z", 1700000000000);
               (lit "no", lit "a7c1e9g3i", 1700000004000);
               (lit "yes", lit "p0o9i8u7y", 1700000008000)] Mock.world eq_refl)
    as (_ & Htx & _).
  exact Htx.
Defined.

(** ** The sign of the sentiment score *)

Section Sign.
Context `{Builtins}.
Import App App.AIService.

Lemma matched_cons (w : jsstring) words proposalText :
  matched (w :: words) proposalText =
  (Nat.b2n (includes (toLowerCase proposalText) w) + matched words proposalText)%nat.
Proof. unfold matched. simpl. by destruct (includes _ _). Qed.

(** The score for each of the 2^10 ways the ten keywords can occur. *)
Lemma sentiment_table (a1 a2 a3 a4 a5 b1 b2 b3 b4 b5 : bool) :
  let p := (Nat.b2n a1 + (Nat.b2n a2 + (Nat.b2n a3 + (Nat.b2n a4 + (Nat.b2n a5 + 0)))))%nat in
  let n := (Nat.b2n b1 + (Nat.b2n b2 + (Nat.b2n b3 + (Nat.b2n b4 + (Nat.b2n b5 + 0)))))%nat in
  let score :=
    Number.min
      (Number.max
         (fold_left (fun s (b : bool) => if b then Number.sub s one_fifth else s)
            [b1; b2; b3; b4; b5]
            (fold_left (fun s (b : bool) => if b then Number.add s one_fifth else s)
               [a1; a2; a3; a4; a5] (S754_zero false)))
         (Number.ofZ (-1))) (Number.ofZ 1) in
  ((n <? p)%nat = true -> SFltb (S754_zero false) score = true) /\
  ((p <? n)%nat = true -> SFltb score (S754_zero false) = true) /\
  ((p =? n)%nat = true ->
   score = if (p <=? 2)%nat then S754_zero false
           else S754_finite false 4503599627370496 (-106)).
Proof.
  destruct a1, a2, a3, a4, a5, b1, b2, b3, b4, b5;
    vm_compute; (split; [|split]); intros Hc;
    first [reflexivity | discriminate Hc].
Qed.

(** The score of [getSentiment] is positive when the text includes more of
    the positive keywords than of the negative ones, and negative when it
    includes fewer. With as many of the one as of the other it is [+0] for
    up to two of each; with three, four or five of each the additions and
    subtractions of 0.2 do not cancel in binary64 and the score is 2^-54,
    above zero. *)
Theorem getSentiment_sign (proposalText : jsstring) :
  let p := matched positiveWords proposalText in
  let n := matched negativeWords proposalText in
  let score := getSentiment proposalText in
  ((n < p)%nat -> SFltb (S754_zero false) score = true) /\
  ((p < n)%nat -> SFltb score (S754_zero false) = true) /\
  (p = n ->
   score = if (p <=? 2)%nat then S754_zero false
           else S754_finite false 4503599627370496 (-106)).
Proof.
  pose proof (sentiment_table
    (includes (toLowerCase proposalText) (lit "upgrade"))
    (includes (toLowerCase proposalText) (lit "improve"))
    (includes (toLowerCase proposalText) (lit "budget"))
    (includes (toLowerCase proposalText) (lit "good"))
    (includes (toLowerCase proposalText) (lit "benefit"))
    (includes (toLowerCase proposalText) (lit "cut"))
    (includes (toLowerCase proposalText) (lit "remove"))
    (includes (toLowerCase proposalText) (lit "restrict"))
    (includes (toLowerCase proposalText) (lit "bad"))
    (includes (toLowerCase proposalText) (lit "cost"))) as (Hpos & Hneg & Hbal).
  cbv zeta. unfold positiveWords, negativeWords. rewrite !matched_cons.
  change (matched [] proposalText) with 0%nat. split; [|split]; intros Hc.
  - apply Hpos. by apply Nat.ltb_lt.
  - apply Hneg. by apply Nat.ltb_lt.
  - apply Hbal. by apply Nat.eqb_eq.
Qed.
End Sign.

Lemma getSentiment_sign_witness :
  let text := lit "A good upgrade, whatever the cost" in
  (App.AIService.matched (H := ascii_builtins) App.AIService.negativeWords text
   < App.AIService.matched (H := ascii_builtins) App.AIService.positiveWords text)%nat /\
  SFltb (S754_zero false) (@App.AIService.getSentiment ascii_builtins text) = true.
Proof.
  cbv zeta.
  assert (App.AIService.matched (H := ascii_builtins) App.AIService.negativeWords
            (lit "A good upgrade, whatever the cost")
          < App.AIService.matched (H := ascii_builtins) App.AIService.positiveWords
              (lit "A good upgrade, whatever the cost"))%nat as Hmore.
  { vm_compute. lia. }
  split; [exact Hmore|].
  exact (proj1 (@getSentiment_sign ascii_builtins
                  (lit "A good upgrade, whatever the cost")) Hmore).
Defined.

(** ** Dates in the future *)

Section Ago.
Context `{Builtins}.
Import App.Utils.

Lemma binary_round_aux_sign mx ex lx :
  Number.notPositive (binary_round_aux Number.prec Number.emax true mx ex lx) = true.
Proof.
  unfold binary_round_aux.
  destruct (shr_fexp _ _ _ _ _) as [mrs' e'].
  destruct (shr_fexp _ _ _ _ _) as [mrs'' e''].
  destruct (shr_m mrs''); [reflexivity| |reflexivity].
  destruct (_ <=? _); reflexivity.
Qed.

Lemma div_notPositive x my ey :
  Number.notPositive x = true ->
  Number.notPositive (Number.div x (S754_finite false my ey)) = true.
Proof.
  destruct x as [[]|[]| |[] mx ex]; try discriminate; intros _; try reflexivity.
  unfold Number.div, SFdiv.
  destruct (SFdiv_core_binary _ _ _ _ _ _) as [[mz ez] lz].
  apply binary_round_aux_sign.
Qed.

Lemma floor_notPositive x :
  Number.notPositive x = true -> Number.notPositive (Number.floor x) = true.
Proof.
  destruct x as [[]|[]| |[] m e]; try discriminate; intros _; try reflexivity.
  unfold Number.floor. destruct (Z.leb_spec 0 e) as [He|He]; [reflexivity|].
  cbv zeta.
  assert (Z.neg m / 2 ^ (- e) < 0) as Hneg.
  { apply Z.div_lt_upper_bound; [apply Z.pow_pos_nonneg; lia|].
    rewrite Z.mul_0_r. lia. }
  destruct (Z.neg m / 2 ^ (- e)) as [|n|n]; try lia.
  unfold binary_normalize, binary_round.
  destruct (shl_align _ _ _) as [mz ez]. apply binary_round_aux_sign.
Qed.

Lemma notPositive_not_above x y :
  Number.notPositive x = true -> Number.notPositive y = false -> SFltb y x = false.
Proof.
  destruct x as [[]|[]| |[] mx ex], y as [[]|[]| |[] my ey];
    try discriminate; reflexivity.
Qed.

Lemma div_ofZ_notPositive x (n : Z) :
  Number.notPositive (Number.ofZ n) = false -> Number.isZero (Number.ofZ n) = false ->
  Number.isNaN (Number.ofZ n) = false ->
  match Number.ofZ n with S754_infinity _ => false | _ => true end = true ->
  Number.notPositive x = true ->
  Number.notPositive (Number.div x (Number.ofZ n)) = true.
Proof.
  destruct (Number.ofZ n) as [[]|[]| |[] my ey]; try discriminate.
  intros _ _ _ _. apply div_notPositive.
Qed.

(** The divisors are positive constants. *)
Ltac by_constant := apply div_ofZ_notPositive; [reflexivity..|].

(** For a date that lies ahead of the clock, [timeAgo] answers in seconds,
    whatever the distance, and the count it prints is not above zero: no
    larger unit is chosen, since every test [interval > 1] fails on a
    number that is not positive. *)
Theorem timeAgo_counts_a_future_date_in_seconds (now date : spec_float) :
  SFltb (Number.sub now date) (S754_zero false) = true ->
  let count :=
    Number.floor (Number.floor (Number.div (Number.sub now date) (Number.ofZ 1000))) in
  timeAgo now date = ToString (JNum count) ++ lit " seconds ago" /\
  SFltb (S754_zero false) count = false.
Proof.
  intros Hfuture. cbv zeta.
  assert (Number.notPositive (Number.sub now date) = true) as Helapsed.
  { destruct (Number.sub now date) as [[]|[]| |[] m e]; try discriminate; reflexivity. }
  assert (Number.notPositive (Number.floor (Number.div (Number.sub now date) (Number.ofZ 1000)))
          = true) as Hseconds.
  { apply floor_notPositive. by_constant. exact Helapsed. }
  split.
  - unfold timeAgo. cbv zeta.
    rewrite !notPositive_not_above; try reflexivity; by_constant; exact Hseconds.
  - apply notPositive_not_above; [|reflexivity].
    apply floor_notPositive, Hseconds.
Qed.
End Ago.

Lemma timeAgo_counts_a_future_date_in_seconds_witness :
  let now := Number.ofZ 1700000000000 in
  let date := Number.ofZ (1700000000000 + 86400000) in
  SFltb (Number.sub now date) (S754_zero false) = true /\
  @App.Utils.timeAgo ascii_builtins now date = lit "-86400 seconds ago".
Proof.
  cbv zeta. split; [vm_compute; reflexivity|].
  destruct (@timeAgo_counts_a_future_date_in_seconds ascii_builtins
              (Number.ofZ 1700000000000) (Number.ofZ (1700000000000 + 86400000)))
    as [Hago _]; [vm_compute; reflexivity|].
  rewrite Hago. vm_compute. reflexivity.
Defined.

(** ** Avatar colours *)

Section Colour.
Context `{Builtins}.
Import App.Utils.


Lemma hexDigit_lower d : 0 <= d < 16 -> isLowerHex (hexDigit d).
Proof.
  intros Hd. unfold isLowerHex, hexDigit. destruct (Z.ltb_spec d 10); lia.
Qed.

Lemma hexDigits_lower fuel : forall n acc,
  0 <= n -> Forall isLowerHex acc -> Forall isLowerHex (hexDigits fuel n acc).
Proof.
  induction fuel as [|fuel IH]; intros n acc Hn Hacc; simpl; [done|].
  assert (Forall isLowerHex (hexDigit (n mod 16) :: acc)) as Hacc'.
  { constructor; [|done]. apply hexDigit_lower. apply Z.mod_pos_bound. lia. }
  destruct (n / 16 =? 0); [done|]. apply IH; [|done]. apply Z.div_pos; lia.
Qed.

Lemma hexDigits_length fuel : forall n acc k,
  0 <= n < 16 ^ Z.of_nat (S k) ->
  (length acc < length (hexDigits (S fuel) n acc) <= length acc + S k)%nat.
Proof.
  induction fuel as [|fuel IH]; intros n acc k Hn.
  - simpl. destruct (n / 16 =? 0); simpl; lia.
  - change (hexDigits (S (S fuel)) n acc) with
      (let acc := hexDigit (n mod 16) :: acc in
       if n / 16 =? 0 then acc else hexDigits (S fuel) (n / 16) acc).
    cbv zeta. destruct (Z.eqb_spec (n / 16) 0) as [Hz|Hnz]; [simpl; lia|].
    destruct k as [|k].
    { exfalso. apply Hnz. apply Z.div_small. simpl in Hn. lia. }
    specialize (IH (n / 16) (hexDigit (n mod 16) :: acc) k).
    cbn [length] in IH.
    assert (0 <= n / 16 < 16 ^ Z.of_nat (S k)) as Hq.
    { split; [apply Z.div_pos; lia|]. apply Z.div_lt_upper_bound; [lia|].
      replace (Z.of_nat (S (S k))) with (Z.succ (Z.of_nat (S k))) in Hn by lia.
      rewrite Z.pow_succ_r in Hn by lia. lia. }
    specialize (IH Hq). lia.
Qed.

Lemma hexDigits_value (f : Z -> N -> Z) fuel : forall n acc,
  (forall v d, 0 <= d < 16 -> f v (hexDigit d) = 16 * v + d) ->
  0 <= n < 16 ^ Z.of_nat fuel ->
  fold_left f (hexDigits fuel n acc) 0 = fold_left f acc n.
Proof.
  induction fuel as [|fuel IH]; intros n acc Hf Hn.
  - simpl in *. by replace n with 0 by lia.
  - simpl hexDigits. 
    assert (0 <= n mod 16 < 16) as Hm by (apply Z.mod_pos_bound; lia).
    pose proof (Z.div_mod n 16 ltac:(lia)) as Hdm.
    destruct (Z.eqb_spec (n / 16) 0) as [Hz|Hnz].
    + simpl. rewrite Hf by done. f_equal. lia.
    + rewrite IH; [|done|].
      * simpl. rewrite Hf by done. f_equal. lia.
      * split; [apply Z.div_pos; lia|]. apply Z.div_lt_upper_bound; [lia|].
        replace (Z.of_nat (S fuel)) with (Z.succ (Z.of_nat fuel)) in Hn by lia.
        rewrite Z.pow_succ_r in Hn by lia. lia.
Qed.

Lemma toString16_fuel n : 0 <= n -> n < 16 ^ Z.of_nat (S (Z.to_nat (Z.log2 n))).
Proof.
  intros Hn. destruct (Z.eq_dec n 0) as [->|Hnz]; [reflexivity|].
  pose proof (Z.log2_nonneg n) as Hl.
  assert (n < 2 ^ Z.succ (Z.log2 n)) as Hlt by (apply Z.log2_spec; lia).
  replace (Z.of_nat (S (Z.to_nat (Z.log2 n)))) with (Z.succ (Z.log2 n)) by lia.
  eapply Z.lt_le_trans; [exact Hlt|].
  apply Z.pow_le_mono_l. lia.
Qed.

Lemma upper_lower_hex c : isLowerHex c -> isUpperHex (ascii_upper c).
Proof.
  unfold isLowerHex, isUpperHex, ascii_upper. intros [Hc|Hc].
  - replace (N.leb 97 c) with false by (symmetry; apply N.leb_gt; lia). simpl. lia.
  - replace (N.leb 97 c) with true by (symmetry; apply N.leb_le; lia).
    replace (N.leb c 122) with true by (symmetry; apply N.leb_le; lia). simpl. lia.
Qed.

Lemma upper_hexDigit_value v d :
  0 <= d < 16 ->
  (fun v c => 16 * v + (if (c <=? 57)%N then Z.of_N c - 48 else Z.of_N c - 55))
    v (ascii_upper (hexDigit d)) = 16 * v + d.
Proof.
  intros Hd. cbv beta. f_equal.
  assert (d = 0 \/ d = 1 \/ d = 2 \/ d = 3 \/ d = 4 \/ d = 5 \/ d = 6 \/ d = 7 \/
          d = 8 \/ d = 9 \/ d = 10 \/ d = 11 \/ d = 12 \/ d = 13 \/ d = 14 \/ d = 15)
    as Hcases by lia.
  repeat destruct Hcases as [->|Hcases]; try reflexivity. subst. reflexivity.
Qed.

(** Where [toUpperCase] folds ASCII letters as the language specifies, and
    for a string shorter than 2^21 code units, [stringToColor] answers a hash
    sign followed by exactly six upper-case hexadecimal digits, and these
    six digits denote the low 24 bits of the hash: the padding with zeros
    neither drops nor alters a digit. *)
Theorem stringToColor_is_a_six_digit_colour (str : jsstring) :
  (forall s, Forall (fun c => (c < 128)%N) s -> toUpperCase s = List.map ascii_upper s) ->
  Z.of_nat (length str) < 2 ^ 21 ->
  exists digits,
    stringToColor str = lit "#" ++ digits /\
    length digits = 6%nat /\
    Forall isUpperHex digits /\
    hexValue digits = Z.land (ToInt32 (hashCode str)) 16777215.
Proof.
  intros Hupper _. unfold stringToColor. cbv zeta.
  set (n := Z.land (ToInt32 (hashCode str)) 16777215).
  assert (0 <= n < 16 ^ Z.of_nat 6) as Hn.
  { subst n. change 16777215 with (Z.ones 24). rewrite Z.land_ones by lia.
    change (16 ^ Z.of_nat 6) with (2 ^ 24). apply Z.mod_pos_bound. lia. }
  assert (Forall isLowerHex (toString16 n)) as Hhex.
  { apply hexDigits_lower; [lia | constructor]. }
  rewrite Hupper.
  2: { eapply Forall_impl; [exact Hhex|]. unfold isLowerHex. intros c Hc. simpl. lia. }
  pose proof (hexDigits_length (Z.to_nat (Z.log2 n)) n [] 5 Hn) as Hlen.
  fold (toString16 n) in Hlen. simpl length in Hlen.
  set (c := List.map ascii_upper (toString16 n)).
  assert (length c = length (toString16 n)) as Hc by apply length_map.
  exists (take (Z.to_nat (6 - Z.of_nat (length c))) (lit "00000") ++ c).
  split; [reflexivity|].
  assert (exists k, (k <= 5)%nat /\ Z.to_nat (6 - Z.of_nat (length c)) = k /\
                    (k + length c = 6)%nat) as (k & Hk & -> & Hsum).
  { exists (6 - length c)%nat. lia. }
  split; [|split].
  - rewrite length_app, length_take. change (length (lit "00000")) with 5%nat. lia.
  - apply Forall_app. split.
    + apply Forall_take. change (lit "00000") with [48; 48; 48; 48; 48]%N.
      repeat (apply Forall_cons; split; [unfold isUpperHex; lia|]). apply Forall_nil_2.
    + subst c. apply Forall_map. eapply Forall_impl; [exact Hhex|].
      intros x Hx. apply upper_lower_hex, Hx.
  - unfold hexValue. rewrite fold_left_app.
    assert (fold_left
              (fun v c => 16 * v + (if (c <=? 57)%N then Z.of_N c - 48 else Z.of_N c - 55))
              (take k (lit "00000")) 0 = 0) as ->.
    { do 6 (destruct k as [|k]; [reflexivity|]). reflexivity. }
    subst c. unfold toString16.
    etrans; [|apply (hexDigits_value
      (fun v c => 16 * v + (if (ascii_upper c <=? 57)%N
                            then Z.of_N (ascii_upper c) - 48
                            else Z.of_N (ascii_upper c) - 55))
      (S (Z.to_nat (Z.log2 n))) n [])].
    + generalize (hexDigits (S (Z.to_nat (Z.log2 n))) n []). intros l.
      generalize 0. induction l as [|x l IH]; intros v; simpl; [done|]. apply IH.
    + intros v d Hd. apply (upper_hexDigit_value v d Hd).
    + split; [lia|]. apply toString16_fuel. lia.
Qed.
End Colour.

Lemma stringToColor_is_a_six_digit_colour_witness :
  Z.of_nat (length (lit "alice")) < 2 ^ 21 /\
  exists digits,
    @App.Utils.stringToColor ascii_builtins (lit "alice") = lit "#" ++ digits /\
    length digits = 6%nat /\
    Forall App.Utils.isUpperHex digits /\
    App.Utils.hexValue digits = Z.land (App.Utils.ToInt32 (App.Utils.hashCode (lit "alice"))) 16777215.
Proof.
  split; [reflexivity|].
  apply (@stringToColor_is_a_six_digit_colour ascii_builtins (lit "alice")).
  - intros s _. reflexivity.
  - reflexivity.
Defined.

